(** * Biometric enrollment / verification pipeline

    A shallow embedding of the biometric core of the authentication system:

    - [app/services/biometric_service.py]   (face path, [BiometricService])
    - [app/services/fingerprint_service.py] (fingerprint path, [FingerprintService])
    - [app/routers/biometric.py]            (enroll / delete / set-primary endpoints)
    - [app/models/biometric.py], [app/models/user.py], [app/schemas/biometric.py]

    Numbers that the source holds in float64 are real numbers here (exact
    arithmetic); integers (ids, counters, timestamps) are [nat]. *)

From Stdlib Require Import Reals Lra Psatz Lia.
From Stdlib.Strings Require Import String Byte.
From Stdlib Require Import List Bool Arith.
Import ListNotations.

Open Scope R_scope.

(** ** Feature vectors and the similarity scorers *)

Definition vec := list R.

(** [np.dot] on two 1-D arrays of the same length. *)
Fixpoint dot (a b : vec) : R :=
  match a, b with
  | x :: a', y :: b' => x * y + dot a' b'
  | _, _ => 0
  end.

(** [np.linalg.norm]: the Euclidean norm. *)
Definition norm (a : vec) : R := sqrt (dot a a).

Definition all_zero (a : vec) : Prop := Forall (fun x => x = 0) a.

(** [BiometricService.calculate_similarity].  [np.dot] raises on arrays of
    different lengths; the [except] branch of the source turns that into 0.0. *)
Definition calculate_similarity (features1 features2 : vec) : R :=
  if Nat.eqb (length features1) (length features2) then
    let dot_product := dot features1 features2 in
    let norm1 := norm features1 in
    let norm2 := norm features2 in
    if Req_dec_T norm1 0 then 0
    else if Req_dec_T norm2 0 then 0
    else
      let similarity := dot_product / (norm1 * norm2) in
      Rmax 0 similarity
  else 0.

(** [FingerprintService.calculate_fingerprint_similarity]: the same cosine,
    clamped on both sides. *)
Definition calculate_fingerprint_similarity (features1 features2 : vec) : R :=
  if Nat.eqb (length features1) (length features2) then
    let dot_product := dot features1 features2 in
    let norm1 := norm features1 in
    let norm2 := norm features2 in
    if Req_dec_T norm1 0 then 0
    else if Req_dec_T norm2 0 then 0
    else
      let similarity := dot_product / (norm1 * norm2) in
      Rmax 0 (Rmin 1 similarity)
  else 0.

(** ** Data model *)

Definition bytes := list byte.

(** [app/models/biometric.py]: [BiometricType]. *)
Inductive BiometricType := FACE | FINGERPRINT.

Definition BiometricType_eqb (a b : BiometricType) : bool :=
  match a, b with
  | FACE, FACE | FINGERPRINT, FINGERPRINT => true
  | _, _ => false
  end.

(** [app/models/biometric.py]: a row of [biometric_templates].  The hash and
    provenance columns (template_hash, source_image_hash, enrollment_device,
    enrollment_ip, template_version, created_at) play no part in the
    lifecycle and are left out. *)
Module BiometricTemplate.
Record t := mk {
  id : nat;
  user_id : nat;
  biometric_type : BiometricType;
  template_data : bytes;
  quality_score : R;
  confidence_score : R;
  is_active : bool;
  is_primary : bool;
  verification_count : nat;
  last_used : option nat
}.

Definition set_is_active (b : bool) (x : t) : t :=
  mk (id x) (user_id x) (biometric_type x) (template_data x) (quality_score x)
     (confidence_score x) b (is_primary x) (verification_count x) (last_used x).

Definition set_is_primary (b : bool) (x : t) : t :=
  mk (id x) (user_id x) (biometric_type x) (template_data x) (quality_score x)
     (confidence_score x) (is_active x) b (verification_count x) (last_used x).

(** [template.verification_count += 1; template.last_used = datetime.now()] *)
Definition record_use (now : nat) (x : t) : t :=
  mk (id x) (user_id x) (biometric_type x) (template_data x) (quality_score x)
     (confidence_score x) (is_active x) (is_primary x)
     (S (verification_count x)) (Some now).
End BiometricTemplate.

(** [app/models/user.py]: the columns of [users] the biometric core touches. *)
Module User.
Record t := mk {
  id : nat;
  is_enrolled : bool
}.
End User.

(** [app/schemas/biometric.py]: [BiometricResult] (processing_time_ms, a
    wall-clock measurement, is left out). *)
Module BiometricResult.
Record t := mk {
  success : bool;
  message : string;
  similarity_score : option R;
  threshold_used : option R;
  face_detected : bool;
  quality_score : option R;
  template_id : option nat
}.
End BiometricResult.

(** The enrollment request object.  The schema class in
    app/schemas/biometric.py declares [video_data], [video_format] and
    [replace_existing]; the body of [routers/biometric.py:enroll_biometric]
    also reads the attributes [biometric_type] and [fingerprint_data].  An
    attribute the object does not have is [None] here, and reading it raises
    [AttributeError]: that is the case of both for every request the schema
    class produces ([schema_request] below).  [Some] stands for an object
    that carries the attribute. *)
Module BiometricEnrollment.
Record t := mk {
  biometric_type : option string;
  video_data : string;
  fingerprint_data : option string;
  replace_existing : bool
}.

(** The requests of the schema class: neither attribute exists. *)
Definition schema_request (video_data : string) (replace_existing : bool) : t :=
  mk None video_data None replace_existing.
End BiometricEnrollment.

(** The two tables. Rows are kept in table order; a row object is the element
    at its position, so a mutation of a queried ORM object followed by
    [db.commit()] is an update at that position. *)
Record Db := mkDb {
  templates : list BiometricTemplate.t;
  users : list User.t
}.

(** What an endpoint hands back: a body, or an [HTTPException]. *)
Inductive Response (A : Type) :=
| Ok (body : A)
| HTTPException (status_code : nat) (detail : string).
Arguments Ok {A} body.
Arguments HTTPException {A} status_code detail.

(** ** External collaborators

    Libraries the services call into: base64, hashlib, Fernet (together with
    the float64 (de)serialisation around it), and OpenCV. *)
Class Collaborators := {
  (** [base64.b64decode]; [None] when it raises. *)
  b64decode : string -> option bytes;
  (** [hashlib.sha256(data).digest()] *)
  sha256 : bytes -> bytes;
  (** [encrypt_data(features.tobytes()).encode()] *)
  encrypt_data : vec -> bytes;
  (** [np.frombuffer(decrypt_data(template_data.decode()), dtype=np.float64)];
      [None] when either step raises. *)
  decrypt_data : bytes -> option vec;
  frame : Type;
  location : Type;
  (** [BiometricService.extract_frames] (cv2.VideoCapture, at most 30 frames) *)
  extract_frames : bytes -> list frame;
  (** [BiometricService.detect_faces(frame).face_locations] *)
  detect_faces : frame -> list location;
  (** [BiometricService.extract_face_encoding]; [None] when it fails *)
  extract_face_encoding : frame -> location -> option vec;
  (** [BiometricService.calculate_quality_score] (Laplacian variance) *)
  calculate_quality_score : frame -> location -> R
}.

(** [settings.BIOMETRIC_THRESHOLD] (app/config.py) *)
Definition BIOMETRIC_THRESHOLD : R := 6 / 10.

(** [FingerprintService.default_threshold] *)
Definition default_threshold : R := 75 / 100.

(** [best_score >= threshold] as a boolean. *)
Definition Rgeb (x y : R) : bool := if Rle_dec y x then true else false.

(** The id the table assigns to a fresh row. *)
Definition next_id (rows : list BiometricTemplate.t) : nat :=
  S (list_max (map BiometricTemplate.id rows)).

(** Update of the row object at position [i]. *)
Fixpoint update_at {A} (i : nat) (f : A -> A) (l : list A) : list A :=
  match l, i with
  | [], _ => []
  | x :: l', O => f x :: l'
  | x :: l', S i' => x :: update_at i' f l'
  end.

(** Update of the first row that satisfies [q]. *)
Fixpoint update_first {A} (q : A -> bool) (f : A -> A) (l : list A) : list A :=
  match l with
  | [] => []
  | x :: l' => if q x then f x :: l' else x :: update_first q f l'
  end.

(** Removal of the first row that satisfies [q]; [None] if there is none. *)
Fixpoint remove_first {A} (q : A -> bool) (l : list A) : option (list A) :=
  match l with
  | [] => None
  | x :: l' =>
      if q x then Some l'
      else match remove_first q l' with
           | Some r => Some (x :: r)
           | None => None
           end
  end.

(** ** FingerprintService (app/services/fingerprint_service.py) *)

Module FingerprintService.
Section Service.
Context {X : Collaborators}.

(** [extract_fingerprint_features]: the SHA-256 digest read as uint8 and
    scaled by 1/255.  Hashing does not raise, so a vector is always returned. *)
Definition extract_fingerprint_features (fingerprint_bytes : bytes) : option vec :=
  let feature_hash := sha256 fingerprint_bytes in
  Some (map (fun b => INR (Byte.to_nat b) / 255) feature_hash).

(** [_calculate_entropy]: Shannon entropy of the byte histogram.  On empty
    data the probabilities are 0/0 (nan), no term passes [p > 0]. *)
Definition _calculate_entropy (data : bytes) : R :=
  match data with
  | [] => 0
  | _ =>
      fold_left
        (fun entropy v =>
           let p := INR (count_occ Nat.eq_dec (map Byte.to_nat data) v)
                    / INR (List.length data) in
           if Rlt_dec 0 p then entropy - p * (ln p / ln 2) else entropy)
        (seq 0 256) 0
  end.

(** [calculate_quality_score] *)
Definition calculate_quality_score (fingerprint_bytes : bytes) : R :=
  let data_size := INR (List.length fingerprint_bytes) in
  let entropy := _calculate_entropy fingerprint_bytes in
  let size_score := Rmin 1 (data_size / 10000) in
  let entropy_score := Rmin 1 (entropy / 8) in
  (size_score + entropy_score) / 2.

(** The filter of the queries at lines 144-148 and 211-215:
    user_id, biometric_type == FINGERPRINT, is_active == True. *)
Definition active_fingerprint_of (user_id : nat) (t : BiometricTemplate.t) : bool :=
  Nat.eqb (BiometricTemplate.user_id t) user_id
  && BiometricType_eqb (BiometricTemplate.biometric_type t) FINGERPRINT
  && BiometricTemplate.is_active t.

Definition failure (msg : string) (threshold : option R) : BiometricResult.t :=
  BiometricResult.mk false msg None threshold false None None.

(** [enroll_fingerprint] *)
Definition enroll_fingerprint (user_id : nat) (fingerprint_data : string)
    (rows : list BiometricTemplate.t)
  : BiometricResult.t * list BiometricTemplate.t :=
  match b64decode fingerprint_data with
  | None =>
      (failure "Fingerprint enrollment failed: Invalid fingerprint data format" None,
       rows)
  | Some fingerprint_bytes =>
      match extract_fingerprint_features fingerprint_bytes with
      | None => (failure "Failed to extract fingerprint features" None, rows)
      | Some features =>
          let quality_score := calculate_quality_score fingerprint_bytes in
          (* deactivate the existing active fingerprint templates *)
          let rows1 :=
            map (fun t =>
                   if active_fingerprint_of user_id t
                   then BiometricTemplate.set_is_primary false
                          (BiometricTemplate.set_is_active false t)
                   else t) rows in
          let new_template :=
            BiometricTemplate.mk (next_id rows) user_id FINGERPRINT
              (encrypt_data features) quality_score (95 / 100) true true 0%nat None in
          (BiometricResult.mk true "Fingerprint enrollment successful" None None
             true (Some quality_score) (Some (BiometricTemplate.id new_template)),
           rows1 ++ [new_template])
      end
  end.

(** The comparison loop of [verify_fingerprint] (lines 237-256).  [i] is the
    table position of the head of [rows]; [best_template] is the winning row
    object, kept with its position. *)
Fixpoint best_match (user_id : nat) (input_features : vec)
    (best_score : R) (best_template : option (nat * BiometricTemplate.t))
    (i : nat) (rows : list BiometricTemplate.t)
  : R * option (nat * BiometricTemplate.t) :=
  match rows with
  | [] => (best_score, best_template)
  | template :: rest =>
      if active_fingerprint_of user_id template then
        match decrypt_data (BiometricTemplate.template_data template) with
        | Some stored_features =>
            let similarity :=
              calculate_fingerprint_similarity input_features stored_features in
            if Rlt_dec best_score similarity
            then best_match user_id input_features similarity
                   (Some (i, template)) (S i) rest
            else best_match user_id input_features best_score best_template
                   (S i) rest
        | None =>
            best_match user_id input_features best_score best_template (S i) rest
        end
      else best_match user_id input_features best_score best_template (S i) rest
  end.

(** [verify_fingerprint] *)
Definition verify_fingerprint (user_id : nat) (fingerprint_data : string)
    (threshold : option R) (now : nat) (rows : list BiometricTemplate.t)
  : BiometricResult.t * list BiometricTemplate.t :=
  let threshold :=
    match threshold with Some th => th | None => default_threshold end in
  match filter (active_fingerprint_of user_id) rows with
  | [] => (failure "No fingerprint templates found for user" (Some threshold), rows)
  | _ :: _ =>
      match b64decode fingerprint_data with
      | None =>
          (failure "Fingerprint verification failed: Invalid fingerprint data format"
             (Some threshold), rows)
      | Some fingerprint_bytes =>
          match extract_fingerprint_features fingerprint_bytes with
          | None =>
              (failure "Failed to extract fingerprint features" (Some threshold),
               rows)
          | Some input_features =>
              let '(best_score, best_template) :=
                best_match user_id input_features 0 None 0%nat rows in
              let verification_success := Rgeb best_score threshold in
              let rows' :=
                match best_template with
                | Some (i, _) =>
                    if verification_success
                    then update_at i (BiometricTemplate.record_use now) rows
                    else rows
                | None => rows
                end in
              (BiometricResult.mk verification_success
                 (if verification_success
                  then "Fingerprint verification successful"
                  else "Fingerprint verification failed")
                 (Some best_score) (Some threshold) true None
                 (option_map (fun p => BiometricTemplate.id (snd p)) best_template),
               rows')
          end
      end
  end.

(** [delete_user_fingerprint_templates]: every fingerprint row of the user
    goes, active or not. *)
Definition delete_user_fingerprint_templates (user_id : nat)
    (rows : list BiometricTemplate.t) : bool * list BiometricTemplate.t :=
  (true,
   filter (fun t =>
             negb (Nat.eqb (BiometricTemplate.user_id t) user_id
                   && BiometricType_eqb (BiometricTemplate.biometric_type t)
                        FINGERPRINT)) rows).

End Service.
End FingerprintService.

(** ** BiometricService (app/services/biometric_service.py) *)

Module BiometricService.
Section Service.
Context {X : Collaborators}.

Definition failure (msg : string) (face_detected : bool)
    (quality : option R) (threshold : option R) : BiometricResult.t :=
  BiometricResult.mk false msg None threshold face_detected quality None.

(** The frame loop of [enroll_biometric] (lines 182-201): the encoding of the
    frame with the strictly highest quality seen so far. *)
Fixpoint select_best (frames : list frame) (best_encoding : option vec)
    (best_quality : R) (face_detected : bool) : option vec * R * bool :=
  match frames with
  | [] => (best_encoding, best_quality, face_detected)
  | fr :: rest =>
      match detect_faces fr with
      | [] => select_best rest best_encoding best_quality face_detected
      | face_location :: _ =>
          match extract_face_encoding fr face_location with
          | Some encoding =>
              let quality := calculate_quality_score fr face_location in
              if Rlt_dec best_quality quality
              then select_best rest (Some encoding) quality true
              else select_best rest best_encoding best_quality true
          | None => select_best rest best_encoding best_quality true
          end
      end
  end.

(** [enroll_biometric] *)
Definition enroll_biometric (user_id : nat) (video_data : string)
    (rows : list BiometricTemplate.t)
  : BiometricResult.t * list BiometricTemplate.t :=
  match b64decode video_data with
  | None =>
      (failure "Enrollment failed: Invalid video data format" false None None,
       rows)
  | Some video_bytes =>
      match extract_frames video_bytes with
      | [] =>
          (failure "No frames could be extracted from video" false None None,
           rows)
      | (_ :: _) as frames =>
          let '(best_encoding, best_quality, face_detected) :=
            select_best frames None 0 false in
          match best_encoding with
          | None =>
              (failure "No valid face encoding could be extracted"
                 face_detected (Some best_quality) None, rows)
          | Some encoding =>
              (* the column default makes the new row a FACE template *)
              let template :=
                BiometricTemplate.mk (next_id rows) user_id FACE
                  (encrypt_data encoding) best_quality (9 / 10) true true
                  0%nat None in
              (* lines 227-231: clear is_primary on the user's primary rows *)
              let rows1 :=
                map (fun t =>
                       if Nat.eqb (BiometricTemplate.user_id t) user_id
                          && BiometricTemplate.is_primary t
                       then BiometricTemplate.set_is_primary false t
                       else t) rows in
              (BiometricResult.mk true "Biometric template enrolled successfully"
                 None None true (Some best_quality)
                 (Some (BiometricTemplate.id template)),
               rows1 ++ [template])
          end
      end
  end.

(** The filter of the query at lines 283-286: user_id, is_active == True. *)
Definition active_of (user_id : nat) (t : BiometricTemplate.t) : bool :=
  Nat.eqb (BiometricTemplate.user_id t) user_id && BiometricTemplate.is_active t.

(** The template loop of [verify_biometric] (lines 324-342) for one encoding.
    The loop visits the rows the query selected, in table order; a row that
    improves the running best is updated on the spot. *)
Fixpoint compare_templates (user_id : nat) (encoding : vec) (now : nat)
    (best_score : R) (rows : list BiometricTemplate.t)
  : R * list BiometricTemplate.t :=
  match rows with
  | [] => (best_score, [])
  | template :: rest =>
      if active_of user_id template then
        match decrypt_data (BiometricTemplate.template_data template) with
        | Some stored_encoding =>
            let similarity := calculate_similarity stored_encoding encoding in
            if Rlt_dec best_score similarity then
              let '(b, rest') :=
                compare_templates user_id encoding now similarity rest in
              (b, BiometricTemplate.record_use now template :: rest')
            else
              let '(b, rest') :=
                compare_templates user_id encoding now best_score rest in
              (b, template :: rest')
        | None =>
            let '(b, rest') :=
              compare_templates user_id encoding now best_score rest in
            (b, template :: rest')
        end
      else
        let '(b, rest') :=
          compare_templates user_id encoding now best_score rest in
        (b, template :: rest')
  end.

(** The frame loop of [verify_biometric] (lines 308-342). *)
Fixpoint match_frames (user_id : nat) (now : nat) (frames : list frame)
    (best_score : R) (face_detected : bool) (rows : list BiometricTemplate.t)
  : R * bool * list BiometricTemplate.t :=
  match frames with
  | [] => (best_score, face_detected, rows)
  | fr :: rest =>
      match detect_faces fr with
      | [] => match_frames user_id now rest best_score face_detected rows
      | face_location :: _ =>
          match extract_face_encoding fr face_location with
          | Some encoding =>
              let '(b, rows') :=
                compare_templates user_id encoding now best_score rows in
              match_frames user_id now rest b true rows'
          | None => match_frames user_id now rest best_score true rows
          end
      end
  end.

(** [verify_biometric] *)
Definition verify_biometric (user_id : nat) (video_data : string)
    (threshold : option R) (now : nat) (rows : list BiometricTemplate.t)
  : BiometricResult.t * list BiometricTemplate.t :=
  let threshold :=
    match threshold with Some th => th | None => BIOMETRIC_THRESHOLD end in
  match filter (active_of user_id) rows with
  | [] =>
      (failure "No biometric templates found for user" false None (Some threshold),
       rows)
  | _ :: _ =>
      match b64decode video_data with
      | None =>
          (failure "Verification failed: Invalid video data format" false None
             (Some threshold), rows)
      | Some video_bytes =>
          match extract_frames video_bytes with
          | [] =>
              (failure "No frames could be extracted from video" false None
                 (Some threshold), rows)
          | (_ :: _) as frames =>
              let '(best_score, face_detected, rows') :=
                match_frames user_id now frames 0 false rows in
              let success := Rgeb best_score threshold in
              (BiometricResult.mk success
                 (if success then "Verification successful"
                  else "Verification failed")
                 (Some best_score) (Some threshold) face_detected None None,
               rows')
          end
      end
  end.

(** [get_user_templates]: every row of the user, whatever its type or state. *)
Definition get_user_templates (user_id : nat) (rows : list BiometricTemplate.t)
  : list BiometricTemplate.t :=
  filter (fun t => Nat.eqb (BiometricTemplate.user_id t) user_id) rows.

(** [delete_template]: the first row with this id that belongs to the user. *)
Definition delete_template (template_id user_id : nat)
    (rows : list BiometricTemplate.t) : bool * list BiometricTemplate.t :=
  match remove_first
          (fun t => Nat.eqb (BiometricTemplate.id t) template_id
                    && Nat.eqb (BiometricTemplate.user_id t) user_id) rows with
  | Some rows' => (true, rows')
  | None => (false, rows)
  end.

End Service.
End BiometricService.

(** ** Endpoints (app/routers/biometric.py) *)

Module Router.
Section Endpoints.
Context {X : Collaborators}.

(** [current_user.is_enrolled = b; db.commit()] *)
Definition set_is_enrolled (current_user : nat) (b : bool)
    (us : list User.t) : list User.t :=
  map (fun u => if Nat.eqb (User.id u) current_user
                then User.mk (User.id u) b else u) us.

(** Lines 49-62: the replace-existing block.  [None]: the read of
    [enrollment_data.biometric_type] at line 55 raised [AttributeError],
    before any row was touched. *)
Definition replace_existing_block (enrollment_data : BiometricEnrollment.t)
    (current_user : nat) (rows : list BiometricTemplate.t)
  : option (list BiometricTemplate.t) :=
  if BiometricEnrollment.replace_existing enrollment_data then
    match BiometricEnrollment.biometric_type enrollment_data with
    | None => None
    | Some biometric_type =>
        if String.eqb biometric_type "face" then
          (* every row [get_user_templates] returns is deactivated *)
          Some (map (fun t =>
                       if Nat.eqb (BiometricTemplate.user_id t) current_user
                       then BiometricTemplate.set_is_active false t else t) rows)
        else if String.eqb biometric_type "fingerprint" then
          Some (snd (FingerprintService.delete_user_fingerprint_templates
                       current_user rows))
        else Some rows
    end
  else Some rows.

(** The handler of lines 106-113: any exception but an [HTTPException]
    becomes this answer. *)
Definition enrollment_failed : Response BiometricResult.t :=
  HTTPException 500 "Biometric enrollment failed".

(** [POST /enroll] (lines 41-113).  An [AttributeError] leaves the session as
    the last commit made it. *)
Definition enroll_biometric (enrollment_data : BiometricEnrollment.t)
    (current_user : nat) (db : Db) : Response BiometricResult.t * Db :=
  match replace_existing_block enrollment_data current_user (templates db) with
  | None => (enrollment_failed, db)
  | Some rows =>
      let finish (r : BiometricResult.t * list BiometricTemplate.t) :=
        let '(result, rows') := r in
        (Ok result,
         mkDb rows'
           (if BiometricResult.success result
            then set_is_enrolled current_user true (users db)
            else users db)) in
      match BiometricEnrollment.biometric_type enrollment_data with
      | None => (enrollment_failed, mkDb rows (users db))
      | Some biometric_type =>
          if String.eqb biometric_type "face" then
            if String.eqb (BiometricEnrollment.video_data enrollment_data) ""
            then
              (HTTPException 400 "Video data required for face enrollment",
               mkDb rows (users db))
            else
              finish (BiometricService.enroll_biometric current_user
                        (BiometricEnrollment.video_data enrollment_data) rows)
          else if String.eqb biometric_type "fingerprint" then
            match BiometricEnrollment.fingerprint_data enrollment_data with
            | None => (enrollment_failed, mkDb rows (users db))
            | Some fingerprint_data =>
                if String.eqb fingerprint_data "" then
                  (HTTPException 400
                     "Fingerprint data required for fingerprint enrollment",
                   mkDb rows (users db))
                else
                  finish (FingerprintService.enroll_fingerprint current_user
                            fingerprint_data rows)
            end
          else
            (HTTPException 400
               "Unsupported biometric type. Supported: face, fingerprint",
             mkDb rows (users db))
      end
  end.

(** [DELETE /templates/{template_id}] *)
Definition delete_biometric_template (template_id : nat) (current_user : nat)
    (db : Db) : Response string * Db :=
  let '(success, rows) :=
    BiometricService.delete_template template_id current_user (templates db) in
  if negb success then
    (HTTPException 404 "Template not found or access denied", db)
  else
    let remaining_templates :=
      BiometricService.get_user_templates current_user rows in
    let active_templates :=
      filter BiometricTemplate.is_active remaining_templates in
    match active_templates with
    | [] =>
        (Ok "Template deleted successfully"%string,
         mkDb rows (set_is_enrolled current_user false (users db)))
    | _ :: _ => (Ok "Template deleted successfully"%string, mkDb rows (users db))
    end.

(** [POST /templates/{template_id}/set-primary] *)
Definition set_primary_template (template_id : nat) (current_user : nat)
    (db : Db) : Response string * Db :=
  let is_target (t : BiometricTemplate.t) :=
    Nat.eqb (BiometricTemplate.id t) template_id
    && Nat.eqb (BiometricTemplate.user_id t) current_user in
  let user_templates :=
    BiometricService.get_user_templates current_user (templates db) in
  match find is_target user_templates with
  | None => (HTTPException 404 "Template not found", db)
  | Some target_template =>
      if negb (BiometricTemplate.is_active target_template) then
        (HTTPException 400 "Cannot set inactive template as primary", db)
      else
        (* primary is cleared on every row of the user, then set on the target *)
        let cleared :=
          map (fun t => if Nat.eqb (BiometricTemplate.user_id t) current_user
                        then BiometricTemplate.set_is_primary false t else t)
              (templates db) in
        (Ok "Primary template updated successfully"%string,
         mkDb (update_first is_target (BiometricTemplate.set_is_primary true)
                 cleared)
              (users db))
  end.

(** The lifecycle requests a client can send, and a run of them. *)
Inductive request :=
| Enroll (current_user : nat) (enrollment_data : BiometricEnrollment.t)
| Delete (current_user : nat) (template_id : nat)
| SetPrimary (current_user : nat) (template_id : nat).

Definition handle (r : request) (db : Db) : Db :=
  match r with
  | Enroll u d => snd (enroll_biometric d u db)
  | Delete u i => snd (delete_biometric_template i u db)
  | SetPrimary u i => snd (set_primary_template i u db)
  end.

Definition run (rs : list request) (db : Db) : Db :=
  fold_left (fun s r => handle r s) rs db.

End Endpoints.
End Router.

(** ** Invariants of the data model (spec section 3) *)

(** Invariant A: per (user, modality), at most one active primary template. *)
Definition active_primary_of (user_id : nat) (modality : BiometricType)
    (t : BiometricTemplate.t) : bool :=
  Nat.eqb (BiometricTemplate.user_id t) user_id
  && BiometricType_eqb (BiometricTemplate.biometric_type t) modality
  && BiometricTemplate.is_active t
  && BiometricTemplate.is_primary t.

Definition primary_unique (rows : list BiometricTemplate.t) : Prop :=
  forall user_id modality,
    (List.length (filter (active_primary_of user_id modality) rows) <= 1)%nat.

(** Invariant C: the enrollment flag mirrors the presence of an active row. *)
Definition has_active_template (user_id : nat)
    (rows : list BiometricTemplate.t) : bool :=
  existsb (fun t => Nat.eqb (BiometricTemplate.user_id t) user_id
                    && BiometricTemplate.is_active t) rows.

Definition enrollment_flag_consistent (db : Db) : Prop :=
  forall u, In u (users db) ->
    User.is_enrolled u = has_active_template (User.id u) (templates db).

(** ** Vocabulary of the properties *)

(** The maximum the loops compute: the running best starts at 0.0 and is
    replaced by every strictly larger score. *)
Definition max_score (scores : list R) : R := fold_left Rmax scores 0.

(** The threshold a call decides with: the override when given, else the
    default of the service. *)
Definition effective_threshold (default : R) (threshold : option R) : R :=
  match threshold with Some th => th | None => default end.

(** Recording a use leaves what the comparison reads untouched. *)
Definition same_keys (t t' : BiometricTemplate.t) : Prop :=
  BiometricTemplate.user_id t' = BiometricTemplate.user_id t
  /\ BiometricTemplate.is_active t' = BiometricTemplate.is_active t
  /\ BiometricTemplate.template_data t' = BiometricTemplate.template_data t.

Section Vocabulary.
Context {X : Collaborators}.

(** The score a row contributes to fingerprint verification, if any: the row
    must pass the query filter and its payload must decrypt. *)
Definition fingerprint_score_of (user_id : nat) (input_features : vec)
    (t : BiometricTemplate.t) : option R :=
  if FingerprintService.active_fingerprint_of user_id t then
    match decrypt_data (BiometricTemplate.template_data t) with
    | Some stored_features =>
        Some (calculate_fingerprint_similarity input_features stored_features)
    | None => None
    end
  else None.

(** Every score the fingerprint loop computes, in lookup order. *)
Definition fingerprint_scores (user_id : nat) (input_features : vec)
    (rows : list BiometricTemplate.t) : list R :=
  flat_map (fun t => match fingerprint_score_of user_id input_features t with
                     | Some r => [r]
                     | None => []
                     end) rows.

(** The probe vector a payload yields, when it decodes. *)
Definition fingerprint_input (fingerprint_data : string) : option vec :=
  match b64decode fingerprint_data with
  | Some fingerprint_bytes =>
      FingerprintService.extract_fingerprint_features fingerprint_bytes
  | None => None
  end.

(** What [enroll_fingerprint] does to an existing row. *)
Definition superseded (user_id : nat) (t : BiometricTemplate.t)
  : BiometricTemplate.t :=
  if FingerprintService.active_fingerprint_of user_id t
  then BiometricTemplate.set_is_primary false
         (BiometricTemplate.set_is_active false t)
  else t.

(** The score a row contributes to face verification for one probe encoding,
    if any. *)
Definition face_score_of (user_id : nat) (encoding : vec)
    (t : BiometricTemplate.t) : option R :=
  if BiometricService.active_of user_id t then
    match decrypt_data (BiometricTemplate.template_data t) with
    | Some stored_encoding => Some (calculate_similarity stored_encoding encoding)
    | None => None
    end
  else None.

Definition face_template_scores (user_id : nat) (encoding : vec)
    (rows : list BiometricTemplate.t) : list R :=
  flat_map (fun t => match face_score_of user_id encoding t with
                     | Some r => [r]
                     | None => []
                     end) rows.

(** The encodings a video yields: one per frame with a detected face whose
    first region could be encoded. *)
Definition usable_encodings (frames : list frame) : list vec :=
  flat_map (fun fr => match detect_faces fr with
                      | [] => []
                      | face_location :: _ =>
                          match extract_face_encoding fr face_location with
                          | Some encoding => [encoding]
                          | None => []
                          end
                      end) frames.

(** Every score the face loops compute, frame by frame. *)
Definition face_scores (user_id : nat) (frames : list frame)
    (rows : list BiometricTemplate.t) : list R :=
  flat_map (fun encoding => face_template_scores user_id encoding rows)
           (usable_encodings frames).

(** The three ways a fingerprint verification call can go. *)
Inductive fingerprint_path (user_id : nat) (fingerprint_data : string)
    (threshold : option R) (now : nat) (rows : list BiometricTemplate.t)
  : BiometricResult.t * list BiometricTemplate.t -> Prop :=
| fp_no_templates :
    filter (FingerprintService.active_fingerprint_of user_id) rows = [] ->
    fingerprint_path user_id fingerprint_data threshold now rows
      (FingerprintService.failure "No fingerprint templates found for user"
         (Some (effective_threshold default_threshold threshold)), rows)
| fp_bad_payload :
    filter (FingerprintService.active_fingerprint_of user_id) rows <> [] ->
    fingerprint_input fingerprint_data = None ->
    fingerprint_path user_id fingerprint_data threshold now rows
      (FingerprintService.failure
         "Fingerprint verification failed: Invalid fingerprint data format"
         (Some (effective_threshold default_threshold threshold)), rows)
| fp_decided input s w :
    filter (FingerprintService.active_fingerprint_of user_id) rows <> [] ->
    fingerprint_input fingerprint_data = Some input ->
    FingerprintService.best_match user_id input 0 None 0 rows = (s, w) ->
    let th := effective_threshold default_threshold threshold in
    fingerprint_path user_id fingerprint_data threshold now rows
      (BiometricResult.mk (Rgeb s th)
         (if Rgeb s th then "Fingerprint verification successful"
          else "Fingerprint verification failed")
         (Some s) (Some th) true None
         (option_map (fun p => BiometricTemplate.id (snd p)) w),
       match w with
       | Some (i, _) =>
           if Rgeb s th
           then update_at i (BiometricTemplate.record_use now) rows
           else rows
       | None => rows
       end).

(** The four ways a face verification call can go. *)
Inductive face_path (user_id : nat) (video_data : string)
    (threshold : option R) (now : nat) (rows : list BiometricTemplate.t)
  : BiometricResult.t * list BiometricTemplate.t -> Prop :=
| face_no_templates :
    filter (BiometricService.active_of user_id) rows = [] ->
    face_path user_id video_data threshold now rows
      (BiometricService.failure "No biometric templates found for user" false
         None (Some (effective_threshold BIOMETRIC_THRESHOLD threshold)), rows)
| face_bad_payload :
    filter (BiometricService.active_of user_id) rows <> [] ->
    b64decode video_data = None ->
    face_path user_id video_data threshold now rows
      (BiometricService.failure "Verification failed: Invalid video data format"
         false None (Some (effective_threshold BIOMETRIC_THRESHOLD threshold)),
       rows)
| face_no_frames video_bytes :
    filter (BiometricService.active_of user_id) rows <> [] ->
    b64decode video_data = Some video_bytes ->
    extract_frames video_bytes = [] ->
    face_path user_id video_data threshold now rows
      (BiometricService.failure "No frames could be extracted from video" false
         None (Some (effective_threshold BIOMETRIC_THRESHOLD threshold)), rows)
| face_decided video_bytes best_score face_detected rows' :
    filter (BiometricService.active_of user_id) rows <> [] ->
    b64decode video_data = Some video_bytes ->
    extract_frames video_bytes <> [] ->
    BiometricService.match_frames user_id now (extract_frames video_bytes)
      0 false rows = (best_score, face_detected, rows') ->
    let th := effective_threshold BIOMETRIC_THRESHOLD threshold in
    face_path user_id video_data threshold now rows
      (BiometricResult.mk (Rgeb best_score th)
         (if Rgeb best_score th then "Verification successful"
          else "Verification failed")
         (Some best_score) (Some th) face_detected None None,
       rows').

End Vocabulary.

(** ** Concrete collaborators and tables for worked examples

    Two payloads decode, "YQ==" to the byte 'a' and "dg==" to the byte 'v';
    every other payload is malformed.  The digest of a sample is the sample,
    [stored] says what a stored payload decrypts to, and a video is the list
    [frames] of what each frame yields: [None] for no face, [Some e] for a
    face with encoding [e]. *)
Definition sample_collaborators (frames : list (option vec))
    (stored : bytes -> option vec) : Collaborators :=
  {| b64decode := fun s => if String.eqb s "YQ==" then Some ["a"%byte]
                           else if String.eqb s "dg==" then Some ["v"%byte]
                           else None;
     sha256 := fun b => b;
     encrypt_data := fun _ => ["000"%byte];
     decrypt_data := stored;
     frame := option vec;
     location := unit;
     extract_frames := fun _ => frames;
     detect_faces := fun fr => match fr with Some _ => [tt] | None => [] end;
     extract_face_encoding := fun fr _ => fr;
     calculate_quality_score := fun _ _ => 1 |}.

(** An active, primary template with no recorded use. *)
Definition sample_template (id user_id : nat) (ty : BiometricType)
    (data : bytes) : BiometricTemplate.t :=
  BiometricTemplate.mk id user_id ty data (1 / 2) (9 / 10) true true 0%nat None.

(** A stored payload that no longer decrypts (for instance after the secret
    key changed): user 1 holds one such fingerprint template. *)
Definition undecryptable_run :=
  FingerprintService.verify_fingerprint
    (X := sample_collaborators [] (fun _ => None))
    1 "YQ==" (Some 0) 7 [sample_template 4 1 FINGERPRINT []].

(** User 1 holds one fingerprint template that decrypts to the vector of the
    sample "YQ==", and verifies with that sample. *)
Definition sample_success_run :=
  FingerprintService.verify_fingerprint
    (X := sample_collaborators [] (fun _ => Some [INR 97 / 255]))
    1 "YQ==" None 7 [sample_template 4 1 FINGERPRINT []].

(** User 1 has enrolled a fingerprint and no face. *)
Definition fingerprint_only_db : list BiometricTemplate.t :=
  [sample_template 4 1 FINGERPRINT []].

(** User 1 is enrolled with one active face template. *)
Definition enrolled_face_db : Db :=
  mkDb [sample_template 4 1 FACE []] [User.mk 1 true].

(** ** Further parts of the services and endpoints *)

(** The capture loop of [BiometricService.extract_frames] (lines 49-63):
    [cap] is the sequence of frames [cap.read()] will deliver, [cvtColor] the
    colour conversion; reading stops at the end of the video or as soon as
    30 frames have been collected. *)
Fixpoint read_frames {A B : Type} (cvtColor : A -> B) (cap : list A)
    (frames : list B) : list B :=
  match cap with
  | [] => frames
  | frame :: cap' =>
      let frames := frames ++ [cvtColor frame] in
      if Nat.leb 30 (List.length frames) then frames
      else read_frames cvtColor cap' frames
  end.

Section EnrollmentVocabulary.
Context {X : Collaborators}.

(** What a frame offers to enrollment: the encoding of its first detected
    face with that face's quality, when both could be computed. *)
Definition candidates (frames : list frame) : list (vec * R) :=
  flat_map (fun fr => match detect_faces fr with
                      | [] => []
                      | face_location :: _ =>
                          match extract_face_encoding fr face_location with
                          | Some encoding =>
                              [(encoding,
                                calculate_quality_score fr face_location)]
                          | None => []
                          end
                      end) frames.

(** The bulk update of [enroll_biometric] (lines 228-231) on one row. *)
Definition demoted (user_id : nat) (t : BiometricTemplate.t)
  : BiometricTemplate.t :=
  if Nat.eqb (BiometricTemplate.user_id t) user_id
     && BiometricTemplate.is_primary t
  then BiometricTemplate.set_is_primary false t
  else t.

End EnrollmentVocabulary.

(** The verification request object.  The schema class in
    app/schemas/biometric.py declares [video_data], [video_format] and
    [threshold]; the endpoint also reads [biometric_type] and
    [fingerprint_data], which no request of the schema class has ([None]:
    reading the attribute raises [AttributeError]). *)
Module BiometricVerification.
Record t := mk {
  biometric_type : option string;
  video_data : string;
  fingerprint_data : option string;
  threshold : option R
}.

(** The requests of the schema class: neither attribute exists. *)
Definition schema_request (video_data : string) (threshold : option R) : t :=
  mk None video_data None threshold.
End BiometricVerification.

(** [app/schemas/biometric.py]: [BiometricStatus] (last_enrollment, a
    creation timestamp, is left out with the column it reads). *)
Module BiometricStatus.
Record t := mk {
  is_enrolled : bool;
  total_templates : nat;
  active_templates : nat;
  primary_template_id : option nat;
  enrollment_quality_avg : option R
}.
End BiometricStatus.

Module StatusEndpoints.
Section Endpoints.
Context {X : Collaborators}.

(** The authenticated user's row, as [Depends(get_current_user)] hands it to
    an endpoint. *)
Definition current_user_row (current_user : nat) (db : Db) : option User.t :=
  find (fun u => Nat.eqb (User.id u) current_user) (users db).

(** The handler of lines 168-175: any exception but an [HTTPException]
    becomes this answer. *)
Definition verification_failed : Response BiometricResult.t :=
  HTTPException 500 "Biometric verification failed".

(** [POST /verify] (routers/biometric.py, lines 115-175).  The endpoint is
    reached with an authenticated user, whose row is [u].  The enrollment
    flag is tested first; the read of [biometric_type] at line 129 comes
    next. *)
Definition verify_biometric (verification_data : BiometricVerification.t)
    (u : User.t) (now : nat) (db : Db) : Response BiometricResult.t * Db :=
  if negb (User.is_enrolled u) then
    (HTTPException 400 "User has no biometric templates enrolled", db)
  else
    match BiometricVerification.biometric_type verification_data with
    | None => (verification_failed, db)
    | Some biometric_type =>
        if String.eqb biometric_type "face" then
          if String.eqb (BiometricVerification.video_data verification_data) ""
          then
            (HTTPException 400 "Video data required for face verification", db)
          else
            let '(result, rows') :=
              BiometricService.verify_biometric (User.id u)
                (BiometricVerification.video_data verification_data)
                (BiometricVerification.threshold verification_data) now
                (templates db) in
            (Ok result, mkDb rows' (users db))
        else if String.eqb biometric_type "fingerprint" then
          match BiometricVerification.fingerprint_data verification_data with
          | None => (verification_failed, db)
          | Some fingerprint_data =>
              if String.eqb fingerprint_data "" then
                (HTTPException 400
                   "Fingerprint data required for fingerprint verification",
                 db)
              else
                let '(result, rows') :=
                  FingerprintService.verify_fingerprint (User.id u)
                    fingerprint_data
                    (BiometricVerification.threshold verification_data) now
                    (templates db) in
                (Ok result, mkDb rows' (users db))
          end
        else
          (HTTPException 400
             "Unsupported biometric type. Supported: face, fingerprint",
           db)
    end.

(** [sum(quality_scores) / len(quality_scores) if quality_scores else None] *)
Definition average (quality_scores : list R) : option R :=
  match quality_scores with
  | [] => None
  | _ :: _ =>
      Some (fold_right Rplus 0 quality_scores
            / INR (List.length quality_scores))
  end.

(** [GET /status] (routers/biometric.py, lines 177-214).  A quality of 0.0 is
    falsy and is left out of the average. *)
Definition get_biometric_status (u : User.t) (db : Db) : BiometricStatus.t :=
  let user_templates :=
    BiometricService.get_user_templates (User.id u) (templates db) in
  let active_templates := filter BiometricTemplate.is_active user_templates in
  let primary_template := find BiometricTemplate.is_primary active_templates in
  let quality_scores :=
    filter (fun q => if Req_dec_T q 0 then false else true)
           (map BiometricTemplate.quality_score active_templates) in
  BiometricStatus.mk (User.is_enrolled u)
    (List.length user_templates) (List.length active_templates)
    (option_map BiometricTemplate.id primary_template)
    (average quality_scores).

End Endpoints.
End StatusEndpoints.

(** ** AuthService and the biometric login (app/services/auth_service.py,
    app/routers/auth.py) *)

(** [app/models/user.py]: the columns of [users] that authentication reads
    and writes.  Times are seconds. *)
Module Account.
Record t := mk {
  id : nat;
  username : string;
  email : string;
  hashed_password : string;
  is_active : bool;
  failed_login_attempts : nat;
  account_locked_until : option nat;
  last_login : option nat
}.

Definition set_lockout (attempts : nat) (until : option nat) (x : t) : t :=
  mk (id x) (username x) (email x) (hashed_password x) (is_active x)
     attempts until (last_login x).

Definition set_last_login (now : nat) (x : t) : t :=
  mk (id x) (username x) (email x) (hashed_password x) (is_active x)
     (failed_login_attempts x) (account_locked_until x) (Some now).
End Account.

(** [app/models/auth_log.py]: the columns of [auth_logs] the login writes. *)
Module AuthLog.
Record t := mk {
  user_id : option nat;
  username_attempted : string;
  auth_type : string;
  auth_result : string;
  biometric_score : option R;
  face_detected : option bool;
  error_message : option string;
  token_issued : bool
}.
End AuthLog.

(** [app/schemas/auth.py]: [AuthResponse]; the token is given by the claims
    [create_tokens] signs (sub, user_id). *)
Module AuthResponse.
Record t := mk {
  success : bool;
  message : string;
  user : nat;
  token : option (string * nat);
  biometric_score : option R
}.
End AuthResponse.

Module AuthService.
Section Service.
(** [passlib]'s [verify_password plain hashed]. *)
Variable verify_password : string -> string -> bool.

(** [timedelta(minutes=30)] *)
Definition lock_duration : nat := 1800.

(** The two terms of the filter of the query at lines 58-60, and the
    filter. *)
Definition by_username (username : string) (u : Account.t) : bool :=
  String.eqb (Account.username u) username.

Definition by_email (username : string) (u : Account.t) : bool :=
  String.eqb (Account.email u) username.

Definition named (username : string) (u : Account.t) : bool :=
  by_username username u || by_email username u.

(** [.filter((User.username == username) | (User.email == username)).first()]:
    the query has no ORDER BY.  [users.username] and [users.email] both carry
    a unique index (app/models/user.py), and SQLite, the configured database,
    answers the disjunction from the two indexes in the order of its terms:
    the row whose username is the name comes first, a row whose e-mail is
    the name only when no username matches, whatever their order in the
    table. *)
Definition first_named (username : string) (accounts : list Account.t)
  : option Account.t :=
  match find (by_username username) accounts with
  | Some user => Some user
  | None => find (by_email username) accounts
  end.

(** A mutation of the row [first_named] returned, committed. *)
Definition update_named (username : string) (f : Account.t -> Account.t)
    (accounts : list Account.t) : list Account.t :=
  match find (by_username username) accounts with
  | Some _ => update_first (by_username username) f accounts
  | None => update_first (by_email username) f accounts
  end.

(** [account_locked_until and account_locked_until > datetime.now()] *)
Definition locked (now : nat) (u : Account.t) : bool :=
  match Account.account_locked_until u with
  | Some until => Nat.ltb now until
  | None => false
  end.

(** The update of lines 77-81 after a wrong password. *)
Definition failed_attempt (now : nat) (u : Account.t) : Account.t :=
  let attempts := S (Account.failed_login_attempts u) in
  if Nat.leb 5 attempts
  then Account.set_lockout attempts (Some (now + lock_duration)%nat) u
  else Account.set_lockout attempts (Account.account_locked_until u) u.

(** [authenticate_user] *)
Definition authenticate_user (username password : string) (now : nat)
    (accounts : list Account.t) : option Account.t * list Account.t :=
  match first_named username accounts with
  | None => (None, accounts)
  | Some user =>
      if negb (Account.is_active user) then (None, accounts)
      else if locked now user then (None, accounts)
      else if negb (verify_password password (Account.hashed_password user))
      then (None, update_named username (failed_attempt now) accounts)
      else if Nat.ltb 0 (Account.failed_login_attempts user)
      then (Some (Account.set_lockout 0 None user),
            update_named username (Account.set_lockout 0 None) accounts)
      else (Some user, accounts)
  end.

End Service.
End AuthService.

(** The tables a biometric login touches. *)
Record LoginDb := mkLoginDb {
  accounts : list Account.t;
  biometric_templates : list BiometricTemplate.t;
  auth_logs : list AuthLog.t
}.

Module AuthRouter.
Section Endpoints.
Context {X : Collaborators}.
Variable verify_password : string -> string -> bool.

(** [POST /auth/login-biometric] (routers/auth.py, lines 203-291).  The face
    service is called without a threshold. *)
Definition login_with_biometric (username password video_data : string)
    (now : nat) (db : LoginDb) : Response AuthResponse.t * LoginDb :=
  match AuthService.authenticate_user verify_password username password now
          (accounts db) with
  | (None, accounts1) =>
      (HTTPException 401 "Invalid credentials",
       mkLoginDb accounts1 (biometric_templates db)
         (auth_logs db
          ++ [AuthLog.mk None username "combined" "failure" None None
                (Some "Invalid credentials"%string) false]))
  | (Some user, accounts1) =>
      let '(verification_result, rows') :=
        BiometricService.verify_biometric (Account.id user) video_data None now
          (biometric_templates db) in
      if negb (BiometricResult.success verification_result) then
        (HTTPException 401 "Biometric verification failed",
         mkLoginDb accounts1 rows'
           (auth_logs db
            ++ [AuthLog.mk (Some (Account.id user)) (Account.username user)
                  "combined" "failure"
                  (BiometricResult.similarity_score verification_result)
                  (Some (BiometricResult.face_detected verification_result))
                  (Some "Biometric verification failed"%string) false]))
      else
        (Ok (AuthResponse.mk true "Biometric login successful"
               (Account.id user)
               (Some (Account.username user, Account.id user))
               (BiometricResult.similarity_score verification_result)),
         mkLoginDb
           (AuthService.update_named username
              (Account.set_last_login now) accounts1)
           rows'
           (auth_logs db
            ++ [AuthLog.mk (Some (Account.id user)) (Account.username user)
                  "combined" "success"
                  (BiometricResult.similarity_score verification_result)
                  (Some (BiometricResult.face_detected verification_result))
                  None true]))
  end.

End Endpoints.
End AuthRouter.

(** Two states of a row that differ at most in the usage statistics, the
    later one having at least as many recorded uses. *)
Definition usage_only (t t' : BiometricTemplate.t) : Prop :=
  BiometricTemplate.id t' = BiometricTemplate.id t
  /\ BiometricTemplate.user_id t' = BiometricTemplate.user_id t
  /\ BiometricTemplate.biometric_type t' = BiometricTemplate.biometric_type t
  /\ BiometricTemplate.template_data t' = BiometricTemplate.template_data t
  /\ BiometricTemplate.quality_score t' = BiometricTemplate.quality_score t
  /\ BiometricTemplate.confidence_score t'
     = BiometricTemplate.confidence_score t
  /\ BiometricTemplate.is_active t' = BiometricTemplate.is_active t
  /\ BiometricTemplate.is_primary t' = BiometricTemplate.is_primary t
  /\ (BiometricTemplate.verification_count t
      <= BiometricTemplate.verification_count t')%nat.

(** Exactly one row of the table answers to the name: [u], at its place.
    The rows returned by the query of [authenticate_user] are then [u] alone,
    in whatever order the database lists matches. *)
Definition only_named (username : string) (u : Account.t)
    (accounts : list Account.t) : Prop :=
  exists pre post,
    accounts = pre ++ u :: post
    /\ AuthService.named username u = true
    /\ (forall a, In a pre -> AuthService.named username a = false)
    /\ (forall a, In a post -> AuthService.named username a = false).

(** A series of password logins for one user name, each with its password
    and its time, applied to the accounts table in order. *)
Definition login_attempts (verify_password : string -> string -> bool)
    (username : string) (attempts : list (string * nat))
    (accounts : list Account.t) : list Account.t :=
  fold_left
    (fun acc a =>
       snd (AuthService.authenticate_user verify_password username
              (fst a) (snd a) acc))
    attempts accounts.

(** An account for worked examples: alice, active, never failed, whose
    stored hash a password matches when it is equal to it. *)
Definition sample_account : Account.t :=
  Account.mk 1 "alice" "alice@example.org" "correct horse" true 0 None None.

(** Another account, whose names are not alice's. *)
Definition sample_bystander : Account.t :=
  Account.mk 2 "bob" "bob@example.org" "tr0ub4dor" true 0 None None.

(** A feature vector multiplied by a constant. *)
Definition scale (k : R) (a : vec) : vec := map (Rmult k) a.

(** * Verification *)

(** ** Facts about [dot] and [norm] *)

Section DotFacts.

Lemma dot_self_nonneg (a : vec) : 0 <= dot a a.
Proof.
  induction a as [|x a IH]; simpl; [lra|].
  pose proof (Rle_0_sqr x) as Hx. unfold Rsqr in Hx. lra.
Qed.

Lemma dot_self_zero_iff (a : vec) : dot a a = 0 <-> all_zero a.
Proof.
  unfold all_zero. induction a as [|x a IH]; simpl.
  - split; [constructor | reflexivity].
  - pose proof (dot_self_nonneg a) as Ha.
    split.
    + intros H. assert (x * x = 0 /\ dot a a = 0) as [Hx Hd] by nra.
      constructor; [nra | apply IH; exact Hd].
    + intros H. inversion H as [|y l Hy Hl]; subst.
      apply IH in Hl. rewrite Hl. lra.
Qed.

Lemma norm_nonneg (a : vec) : 0 <= norm a.
Proof. apply sqrt_pos. Qed.

Lemma norm_sqr (a : vec) : norm a * norm a = dot a a.
Proof. apply sqrt_sqrt, dot_self_nonneg. Qed.

Lemma norm_zero_iff (a : vec) : norm a = 0 <-> all_zero a.
Proof.
  rewrite <- dot_self_zero_iff. unfold norm. split.
  - intros H. apply sqrt_eq_0; [apply dot_self_nonneg | exact H].
  - intros H. rewrite H. apply sqrt_0.
Qed.

(** The quadratic [t |-> |t a + b|^2] written out. *)
Lemma dot_affine (t : R) (a : vec) :
  forall b, length a = length b ->
    dot (map (fun p => t * fst p + snd p) (combine a b))
        (map (fun p => t * fst p + snd p) (combine a b))
    = t * t * dot a a + 2 * t * dot a b + dot b b.
Proof.
  induction a as [|x a IH]; intros [|y b] Hlen; simpl in *; try discriminate.
  - lra.
  - rewrite IH by (injection Hlen; auto). ring.
Qed.

(** Cauchy-Schwarz for equal-length vectors. *)
Lemma cauchy_schwarz (a b : vec) :
  length a = length b -> dot a b * dot a b <= dot a a * dot b b.
Proof.
  intros Hlen.
  pose proof (dot_self_nonneg a) as Ha.
  pose proof (dot_self_nonneg b) as Hb.
  destruct (Req_dec_T (dot a a) 0) as [Hz|Hnz].
  - (* a = 0: then dot a b = 0, from the quadratic at t = - dot a b *)
    pose proof (dot_affine (- dot a b) a b Hlen) as Hq.
    pose proof (dot_self_nonneg
      (map (fun p => - dot a b * fst p + snd p) (combine a b))) as Hp.
    pose proof (dot_affine (dot a b) a b Hlen) as Hq'.
    pose proof (dot_self_nonneg
      (map (fun p => dot a b * fst p + snd p) (combine a b))) as Hp'.
    rewrite Hq in Hp. rewrite Hq' in Hp'. rewrite Hz in *.
    destruct (Req_dec_T (dot a b) 0) as [H0|H0]; [rewrite H0; lra|].
    pose proof (dot_affine (- (dot b b + 1) / (2 * dot a b)) a b Hlen) as Hq2.
    pose proof (dot_self_nonneg
      (map (fun p => - (dot b b + 1) / (2 * dot a b) * fst p + snd p)
           (combine a b))) as Hp2.
    rewrite Hq2, Hz in Hp2.
    replace (2 * (- (dot b b + 1) / (2 * dot a b)) * dot a b)
      with (- (dot b b + 1)) in Hp2 by (field; exact H0).
    lra.
  - pose proof (dot_affine (- dot a b / dot a a) a b Hlen) as Hq.
    pose proof (dot_self_nonneg
      (map (fun p => - dot a b / dot a a * fst p + snd p) (combine a b))) as Hp.
    rewrite Hq in Hp.
    replace (- dot a b / dot a a * (- dot a b / dot a a) * dot a a
             + 2 * (- dot a b / dot a a) * dot a b + dot b b)
      with ((dot a a * dot b b - dot a b * dot a b) / dot a a) in Hp
      by (field; exact Hnz).
    assert (0 < dot a a) as Hpos by lra.
    assert (0 <= (dot a a * dot b b - dot a b * dot a b) / dot a a * dot a a)
      as H by (apply Rmult_le_pos; lra).
    replace ((dot a a * dot b b - dot a b * dot a b) / dot a a * dot a a)
      with (dot a a * dot b b - dot a b * dot a b) in H by (field; exact Hnz).
    lra.
Qed.

(** The raw cosine never exceeds one. *)
Lemma cosine_le_1 (a b : vec) :
  length a = length b -> norm a <> 0 -> norm b <> 0 ->
  dot a b / (norm a * norm b) <= 1.
Proof.
  intros Hlen Ha Hb.
  pose proof (norm_nonneg a) as Hna. pose proof (norm_nonneg b) as Hnb.
  assert (0 < norm a * norm b) as Hpos by (apply Rmult_lt_0_compat; lra).
  apply Rmult_le_reg_r with (r := norm a * norm b); [exact Hpos|].
  replace (dot a b / (norm a * norm b) * (norm a * norm b)) with (dot a b)
    by (field; split; assumption).
  rewrite Rmult_1_l.
  destruct (Rle_dec (dot a b) 0) as [Hneg|Hposd]; [lra|].
  apply Rnot_le_lt in Hposd.
  apply Rsqr_incr_0_var; [|lra].
  unfold Rsqr.
  replace (norm a * norm b * (norm a * norm b))
    with ((norm a * norm a) * (norm b * norm b)) by ring.
  rewrite !norm_sqr. apply cauchy_schwarz, Hlen.
Qed.

Lemma cosine_self (a : vec) : norm a <> 0 -> dot a a / (norm a * norm a) = 1.
Proof.
  intros Ha. rewrite <- norm_sqr. field. exact Ha.
Qed.

End DotFacts.

(** ** The similarity scorers *)

Lemma calculate_similarity_unfold (a b : vec) :
  List.length a = List.length b -> norm a <> 0 -> norm b <> 0 ->
  calculate_similarity a b = Rmax 0 (dot a b / (norm a * norm b)).
Proof.
  intros Hlen Ha Hb. unfold calculate_similarity.
  rewrite Hlen, Nat.eqb_refl.
  destruct (Req_dec_T (norm a) 0); [contradiction|].
  destruct (Req_dec_T (norm b) 0); [contradiction|]. reflexivity.
Qed.

Lemma calculate_fingerprint_similarity_unfold (a b : vec) :
  List.length a = List.length b -> norm a <> 0 -> norm b <> 0 ->
  calculate_fingerprint_similarity a b
  = Rmax 0 (Rmin 1 (dot a b / (norm a * norm b))).
Proof.
  intros Hlen Ha Hb. unfold calculate_fingerprint_similarity.
  rewrite Hlen, Nat.eqb_refl.
  destruct (Req_dec_T (norm a) 0); [contradiction|].
  destruct (Req_dec_T (norm b) 0); [contradiction|]. reflexivity.
Qed.

Lemma calculate_similarity_zero (a b : vec) :
  norm a = 0 \/ norm b = 0 -> calculate_similarity a b = 0.
Proof.
  intros H. unfold calculate_similarity.
  destruct (Nat.eqb _ _); [|reflexivity].
  destruct (Req_dec_T (norm a) 0); [reflexivity|].
  destruct (Req_dec_T (norm b) 0); [reflexivity|]. tauto.
Qed.

Lemma calculate_fingerprint_similarity_zero (a b : vec) :
  norm a = 0 \/ norm b = 0 -> calculate_fingerprint_similarity a b = 0.
Proof.
  intros H. unfold calculate_fingerprint_similarity.
  destruct (Nat.eqb _ _); [|reflexivity].
  destruct (Req_dec_T (norm a) 0); [reflexivity|].
  destruct (Req_dec_T (norm b) 0); [reflexivity|]. tauto.
Qed.

(** Both scorers are non-negative on every pair of vectors, whatever their
    lengths. *)
Lemma calculate_similarity_nonneg (a b : vec) : 0 <= calculate_similarity a b.
Proof.
  unfold calculate_similarity.
  destruct (Nat.eqb _ _); [|lra].
  destruct (Req_dec_T (norm a) 0); [lra|].
  destruct (Req_dec_T (norm b) 0); [lra|]. apply Rmax_l.
Qed.

Lemma calculate_fingerprint_similarity_range (a b : vec) :
  0 <= calculate_fingerprint_similarity a b <= 1.
Proof.
  unfold calculate_fingerprint_similarity.
  destruct (Nat.eqb _ _); [|lra].
  destruct (Req_dec_T (norm a) 0); [lra|].
  destruct (Req_dec_T (norm b) 0); [lra|].
  split; [apply Rmax_l|].
  apply Rmax_lub; [lra | apply Rmin_l].
Qed.

Lemma calculate_fingerprint_similarity_self (a : vec) :
  ~ all_zero a -> calculate_fingerprint_similarity a a = 1.
Proof.
  intros Ha. assert (norm a <> 0) as Hn by (rewrite norm_zero_iff; exact Ha).
  rewrite calculate_fingerprint_similarity_unfold by auto.
  rewrite cosine_self by exact Hn.
  rewrite Rmin_left by lra. apply Rmax_right. lra.
Qed.

Lemma calculate_similarity_self (a : vec) :
  ~ all_zero a -> calculate_similarity a a = 1.
Proof.
  intros Ha. assert (norm a <> 0) as Hn by (rewrite norm_zero_iff; exact Ha).
  rewrite calculate_similarity_unfold by auto.
  rewrite cosine_self by exact Hn. apply Rmax_right. lra.
Qed.

(** C4. For equal-length feature vectors [a] and [b], both the face scorer and
    the fingerprint scorer return a value in [0, 1]; each returns exactly 1 on
    (a, a) when [a] is not all-zero; and each returns 0 as soon as one of the
    two vectors is all-zero.  The face scorer only clamps from below: its
    upper bound is the Cauchy-Schwarz inequality. *)
Theorem similarity_bounds (a b : vec) :
  List.length a = List.length b ->
  (0 <= calculate_similarity a b <= 1
   /\ 0 <= calculate_fingerprint_similarity a b <= 1)
  /\ (~ all_zero a ->
      calculate_similarity a a = 1 /\ calculate_fingerprint_similarity a a = 1)
  /\ (all_zero a \/ all_zero b ->
      calculate_similarity a b = 0 /\ calculate_fingerprint_similarity a b = 0).
Proof.
  intros Hlen. repeat split.
  - apply calculate_similarity_nonneg.
  - destruct (Req_dec_T (norm a) 0) as [Ha|Ha];
      [rewrite calculate_similarity_zero by auto; lra|].
    destruct (Req_dec_T (norm b) 0) as [Hb|Hb];
      [rewrite calculate_similarity_zero by auto; lra|].
    rewrite calculate_similarity_unfold by auto.
    apply Rmax_lub; [lra | apply cosine_le_1; auto].
  - apply calculate_fingerprint_similarity_range.
  - apply calculate_fingerprint_similarity_range.
  - apply calculate_similarity_self; assumption.
  - apply calculate_fingerprint_similarity_self; assumption.
  - apply calculate_similarity_zero. rewrite !norm_zero_iff. exact H.
  - apply calculate_fingerprint_similarity_zero. rewrite !norm_zero_iff. exact H.
Qed.

Lemma similarity_bounds_witness :
  (0 <= calculate_similarity [3; 4] [4; 3] <= 1)
  /\ calculate_fingerprint_similarity [3; 4] [3; 4] = 1
  /\ calculate_similarity [0; 0] [4; 3] = 0.
Proof.
  split; [|split].
  - apply (similarity_bounds [3; 4] [4; 3]). reflexivity.
  - apply (similarity_bounds [3; 4] [3; 4]); [reflexivity|].
    intros H. inversion H as [|x l Hx Hl]; subst. lra.
  - apply (similarity_bounds [0; 0] [4; 3]); [reflexivity|].
    left. repeat constructor.
Defined.

(** ** The fingerprint comparison loop *)

Section FingerprintLoop.
Context {X : Collaborators}.
Variable user_id : nat.
Variable input_features : vec.

Lemma best_match_cons best bt i t rest :
  FingerprintService.best_match user_id input_features best bt i (t :: rest)
  = match fingerprint_score_of user_id input_features t with
    | Some r =>
        if Rlt_dec best r
        then FingerprintService.best_match user_id input_features r
               (Some (i, t)) (S i) rest
        else FingerprintService.best_match user_id input_features best bt
               (S i) rest
    | None =>
        FingerprintService.best_match user_id input_features best bt (S i) rest
    end.
Proof.
  unfold fingerprint_score_of. simpl.
  destruct (FingerprintService.active_fingerprint_of user_id t); [|reflexivity].
  destruct (decrypt_data (BiometricTemplate.template_data t)); reflexivity.
Qed.

Lemma best_match_fst rows : forall best bt i,
  fst (FingerprintService.best_match user_id input_features best bt i rows)
  = fold_left Rmax (fingerprint_scores user_id input_features rows) best.
Proof.
  induction rows as [|t rest IH]; intros best bt i; [reflexivity|].
  rewrite best_match_cons. unfold fingerprint_scores. simpl.
  fold (fingerprint_scores user_id input_features rest).
  destruct (fingerprint_score_of user_id input_features t) as [r|]; simpl; [|apply IH].
  destruct (Rlt_dec best r) as [Hlt|Hge]; rewrite IH.
  - rewrite Rmax_right by lra. reflexivity.
  - rewrite Rmax_left by lra. reflexivity.
Qed.

(** What the loop hands back: a bound on every score, and either the winner
    it started with, or the first row whose score is the final best. *)
Lemma best_match_spec rows : forall best bt i s w,
  FingerprintService.best_match user_id input_features best bt i rows = (s, w) ->
  best <= s
  /\ (forall k t r, nth_error rows k = Some t ->
                    fingerprint_score_of user_id input_features t = Some r -> r <= s)
  /\ ((w = bt /\ s = best)
      \/ exists k t,
           w = Some ((i + k)%nat, t) /\ nth_error rows k = Some t
           /\ fingerprint_score_of user_id input_features t = Some s /\ best < s
           /\ forall k' t' r', (k' < k)%nat -> nth_error rows k' = Some t' ->
                               fingerprint_score_of user_id input_features t' = Some r' -> r' < s).
Proof.
  induction rows as [|t rest IH]; intros best bt i s w Hrun.
  - simpl in Hrun. injection Hrun as <- <-.
    split; [lra|]. split; [|left; auto].
    intros [|k] t r Hn; discriminate.
  - rewrite best_match_cons in Hrun.
    destruct (fingerprint_score_of user_id input_features t) as [r|] eqn:Hsc.
    + destruct (Rlt_dec best r) as [Hlt|Hge].
      * apply IH in Hrun. destruct Hrun as (Hle & Hall & Hw).
        split; [lra|]. split.
        -- intros [|k] t' r' Hn Hs; simpl in Hn.
           ++ injection Hn as <-. rewrite Hsc in Hs. injection Hs as <-. lra.
           ++ eapply Hall; eauto.
        -- right. destruct Hw as [[-> ->] | (k & t' & -> & Hn & Hs & Hb & Hfirst)].
           ++ exists 0%nat, t. rewrite Nat.add_0_r.
              repeat split; auto. intros k' t' r' Hk. lia.
           ++ exists (S k), t'. rewrite Nat.add_succ_r.
              repeat split; auto; [lra|].
              intros [|k'] t'' r'' Hk Hn' Hs'; simpl in Hn'.
              ** injection Hn' as <-. rewrite Hsc in Hs'. injection Hs' as <-. lra.
              ** eapply Hfirst; eauto. lia.
      * apply IH in Hrun. destruct Hrun as (Hle & Hall & Hw).
        split; [lra|]. split.
        -- intros [|k] t' r' Hn Hs; simpl in Hn.
           ++ injection Hn as <-. rewrite Hsc in Hs. injection Hs as <-. lra.
           ++ eapply Hall; eauto.
        -- destruct Hw as [[-> ->] | (k & t' & -> & Hn & Hs & Hb & Hfirst)];
             [left; auto|].
           right. exists (S k), t'. rewrite Nat.add_succ_r.
           repeat split; auto.
           intros [|k'] t'' r'' Hk Hn' Hs'; simpl in Hn'.
           ** injection Hn' as <-. rewrite Hsc in Hs'. injection Hs' as <-. lra.
           ** eapply Hfirst; eauto. lia.
    + apply IH in Hrun. destruct Hrun as (Hle & Hall & Hw).
      split; [lra|]. split.
      -- intros [|k] t' r' Hn Hs; simpl in Hn.
         ++ injection Hn as <-. rewrite Hsc in Hs. discriminate.
         ++ eapply Hall; eauto.
      -- destruct Hw as [[-> ->] | (k & t' & -> & Hn & Hs & Hb & Hfirst)];
           [left; auto|].
         right. exists (S k), t'. rewrite Nat.add_succ_r.
         repeat split; auto.
         intros [|k'] t'' r'' Hk Hn' Hs'; simpl in Hn'.
         ** injection Hn' as <-. rewrite Hsc in Hs'. discriminate.
         ** eapply Hfirst; eauto. lia.
Qed.

End FingerprintLoop.

(** ** Fingerprint verification, path by path *)

Lemma update_at_nth {A} (f : A -> A) (l : list A) : forall i x,
  nth_error l i = Some x ->
  nth_error (update_at i f l) i = Some (f x)
  /\ (forall j, j <> i -> nth_error (update_at i f l) j = nth_error l j)
  /\ List.length (update_at i f l) = List.length l.
Proof.
  induction l as [|y l IH]; intros [|i] x Hn; simpl in *; try discriminate.
  - injection Hn as ->. repeat split; auto.
    intros [|j] Hj; [contradiction | reflexivity].
  - destruct (IH i x Hn) as (H1 & H2 & H3). repeat split; auto.
    intros [|j] Hj; simpl; [reflexivity | apply H2; congruence].
Qed.

Lemma Rgeb_true (x y : R) : Rgeb x y = true <-> y <= x.
Proof.
  unfold Rgeb. destruct (Rle_dec y x); split; auto; discriminate.
Qed.

Lemma Rgeb_false (x y : R) : Rgeb x y = false <-> x < y.
Proof.
  unfold Rgeb. destruct (Rle_dec y x); split; intros; try discriminate;
    try lra; reflexivity.
Qed.

Section FingerprintVerify.
Context {X : Collaborators}.

Lemma verify_fingerprint_path user_id fingerprint_data threshold now rows :
  fingerprint_path user_id fingerprint_data threshold now rows
    (FingerprintService.verify_fingerprint user_id fingerprint_data threshold
       now rows).
Proof.
  unfold FingerprintService.verify_fingerprint.
  fold (effective_threshold default_threshold threshold).
  destruct (filter (FingerprintService.active_fingerprint_of user_id) rows)
    as [|t0 ts] eqn:Hq.
  - apply fp_no_templates. exact Hq.
  - assert (filter (FingerprintService.active_fingerprint_of user_id) rows <> [])
      as Hne by (rewrite Hq; discriminate).
    destruct (b64decode fingerprint_data) as [fb|] eqn:Hd.
    + simpl.
      destruct (FingerprintService.best_match user_id _ 0 None 0 rows)
        as [s w] eqn:Hb.
      refine (fp_decided user_id fingerprint_data threshold now rows _ s w Hne _ Hb).
      unfold fingerprint_input. rewrite Hd. reflexivity.
    + apply fp_bad_payload; [exact Hne|].
      unfold fingerprint_input. rewrite Hd. reflexivity.
Qed.

End FingerprintVerify.

Lemma INR_97 : INR 97 = 97.
Proof. rewrite INR_IZR_INZ. reflexivity. Qed.

Lemma sample_scan_self :
  calculate_fingerprint_similarity [INR 97 / 255] [INR 97 / 255] = 1.
Proof.
  apply calculate_fingerprint_similarity_self.
  intros H. apply Forall_inv in H. rewrite INR_97 in H. lra.
Qed.

(** Worked example: user 1 holds one fingerprint template that decrypts to the
    vector of the sample "YQ=="; verifying it at the default threshold succeeds
    and records one use on that template. *)
Example sample_fingerprint_success :
  FingerprintService.verify_fingerprint
    (X := sample_collaborators [] (fun _ => Some [INR 97 / 255]))
    1 "YQ==" None 7 [sample_template 4 1 FINGERPRINT []]
  = (BiometricResult.mk true "Fingerprint verification successful" (Some 1)
       (Some default_threshold) true None (Some 4%nat),
     [BiometricTemplate.record_use 7 (sample_template 4 1 FINGERPRINT [])]).
Proof.
  unfold FingerprintService.verify_fingerprint. cbn -[INR Rlt_dec Rgeb calculate_fingerprint_similarity].
  rewrite sample_scan_self.
  destruct (Rlt_dec 0 1) as [_|H]; [|exfalso; lra].
  assert (Rgeb 1 default_threshold = true) as ->
    by (apply Rgeb_true; unfold default_threshold; lra).
  reflexivity.
Qed.

(** ** Usage recording and the reported template (fingerprint path) *)

Section FingerprintOutcome.
Context {X : Collaborators}.

(** On a successful call with a positive best score, the loop's winner is the
    first row that attains the maximum; it is the row reported and the only
    row touched. *)
Lemma fingerprint_winner user_id fingerprint_data threshold now rows :
  let res := FingerprintService.verify_fingerprint user_id fingerprint_data
               threshold now rows in
  BiometricResult.success (fst res) = true ->
  exists s, BiometricResult.similarity_score (fst res) = Some s
    /\ ((0 < s
         /\ exists input i t,
              fingerprint_input fingerprint_data = Some input
              /\ s = max_score (fingerprint_scores user_id input rows)
              /\ nth_error rows i = Some t
              /\ fingerprint_score_of user_id input t = Some s
              /\ (forall k' t' r', (k' < i)%nat -> nth_error rows k' = Some t' ->
                    fingerprint_score_of user_id input t' = Some r' -> r' < s)
              /\ BiometricResult.template_id (fst res)
                 = Some (BiometricTemplate.id t)
              /\ snd res = update_at i (BiometricTemplate.record_use now) rows)
        \/ (s = 0
            /\ BiometricResult.template_id (fst res) = None
            /\ snd res = rows)).
Proof.
  intros res. subst res.
  destruct (verify_fingerprint_path user_id fingerprint_data threshold now rows)
    as [Hq | Hq Hin | input s w Hq Hin Hb th]; simpl; try discriminate.
  intros Hok. exists s. split; [reflexivity|].
  pose proof (best_match_fst user_id input rows 0 None 0%nat) as Hmax.
  rewrite Hb in Hmax. simpl in Hmax.
  apply best_match_spec in Hb. destruct Hb as (Hle & Hall & Hw).
  destruct Hw as [[-> ->] | (k & t & -> & Hn & Hs & Hpos & Hfirst)].
  - right. auto.
  - left. split; [exact Hpos|].
    exists input, k, t. simpl. rewrite Hok. repeat split; auto.
Qed.

(** C1 (as amended). Fingerprint verification: a failed call changes no
    template; a successful call whose best score is positive records one use
    (count plus one, last-used set) on the first template attaining the
    maximum score and leaves every other template as it was; a successful
    call whose best score is 0 (no template scored above 0, which needs a
    threshold of at most 0) changes no template. *)
Theorem fingerprint_usage_recording user_id fingerprint_data threshold now rows :
  let res := FingerprintService.verify_fingerprint user_id fingerprint_data
               threshold now rows in
  (BiometricResult.success (fst res) = false -> snd res = rows)
  /\ (BiometricResult.success (fst res) = true ->
      exists s, BiometricResult.similarity_score (fst res) = Some s
        /\ ((0 < s
             /\ exists input i t,
                  fingerprint_input fingerprint_data = Some input
                  /\ s = max_score (fingerprint_scores user_id input rows)
                  /\ nth_error rows i = Some t
                  /\ fingerprint_score_of user_id input t = Some s
                  /\ (forall k' t' r', (k' < i)%nat ->
                        nth_error rows k' = Some t' ->
                        fingerprint_score_of user_id input t' = Some r' ->
                        r' < s)
                  /\ nth_error (snd res) i
                     = Some (BiometricTemplate.record_use now t)
                  /\ (forall j, j <> i ->
                        nth_error (snd res) j = nth_error rows j)
                  /\ List.length (snd res) = List.length rows)
            \/ (s = 0 /\ snd res = rows))).
Proof.
  intros res. split.
  - subst res.
    destruct (verify_fingerprint_path user_id fingerprint_data threshold now rows)
      as [Hq | Hq Hin | input s w Hq Hin Hb th]; simpl; auto.
    intros ->. destruct w as [[i t]|]; reflexivity.
  - intros Hok.
    destruct (fingerprint_winner user_id fingerprint_data threshold now rows Hok)
      as (s & Hs & Hcases).
    exists s. split; [exact Hs|].
    destruct Hcases as [(Hpos & input & i & t & H1 & H2 & H3 & H4 & H5 & _ & H7)
                       | (H0 & _ & Hrows)].
    + left. split; [exact Hpos|]. exists input, i, t.
      fold res in H7. rewrite H7.
      destruct (update_at_nth (BiometricTemplate.record_use now) rows i t H3)
        as (Ha & Hb & Hc).
      repeat split; auto.
    + right. auto.
Qed.

(** C9 (as amended). A successful fingerprint verification whose best score is
    positive reports in [template_id] the id of the first template attaining
    the maximum score; a successful call whose best score is 0 reports no
    template. *)
Theorem fingerprint_template_id user_id fingerprint_data threshold now rows :
  let res := FingerprintService.verify_fingerprint user_id fingerprint_data
               threshold now rows in
  BiometricResult.success (fst res) = true ->
  exists s, BiometricResult.similarity_score (fst res) = Some s
    /\ ((0 < s
         /\ exists input i t,
              fingerprint_input fingerprint_data = Some input
              /\ s = max_score (fingerprint_scores user_id input rows)
              /\ nth_error rows i = Some t
              /\ fingerprint_score_of user_id input t = Some s
              /\ (forall k' t' r', (k' < i)%nat -> nth_error rows k' = Some t' ->
                    fingerprint_score_of user_id input t' = Some r' -> r' < s)
              /\ BiometricResult.template_id (fst res)
                 = Some (BiometricTemplate.id t))
        \/ (s = 0 /\ BiometricResult.template_id (fst res) = None)).
Proof.
  intros res Hok.
  destruct (fingerprint_winner user_id fingerprint_data threshold now rows Hok)
    as (s & Hs & Hcases).
  exists s. split; [exact Hs|].
  destruct Hcases as [(Hpos & input & i & t & H1 & H2 & H3 & H4 & H5 & H6 & _)
                     | (H0 & Hid & _)].
  - left. split; [exact Hpos|]. exists input, i, t. repeat split; auto.
  - right. auto.
Qed.

End FingerprintOutcome.

Example undecryptable_run_eq :
  undecryptable_run
  = (BiometricResult.mk true "Fingerprint verification successful" (Some 0)
       (Some 0) true None None,
     [sample_template 4 1 FINGERPRINT []]).
Proof.
  unfold undecryptable_run, FingerprintService.verify_fingerprint.
  cbn -[Rgeb].
  assert (Rgeb 0 0 = true) as -> by (apply Rgeb_true; lra).
  reflexivity.
Qed.

(** Counterexample to C1 as stated: with an override threshold of 0 and a
    template that cannot be decrypted, fingerprint verification succeeds and
    yet no template has its verification count incremented or its last-used
    time set. *)
Lemma usage_recording_counterexample :
  BiometricResult.success (fst undecryptable_run) = true
  /\ map BiometricTemplate.verification_count (snd undecryptable_run) = [0%nat]
  /\ map BiometricTemplate.last_used (snd undecryptable_run) = [None].
Proof. rewrite undecryptable_run_eq. repeat split. Qed.

(** Counterexample to C9 as stated: the same successful call reports no
    template id at all. *)
Lemma template_id_counterexample :
  BiometricResult.success (fst undecryptable_run) = true
  /\ BiometricResult.template_id (fst undecryptable_run) = None.
Proof. rewrite undecryptable_run_eq. split; reflexivity. Qed.

Lemma fingerprint_usage_recording_witness :
  BiometricResult.success (fst undecryptable_run) = true
  /\ exists s,
       BiometricResult.similarity_score (fst undecryptable_run) = Some s.
Proof.
  assert (BiometricResult.success (fst undecryptable_run) = true) as Hok
    by (rewrite undecryptable_run_eq; reflexivity).
  split; [exact Hok|].
  destruct (proj2 (fingerprint_usage_recording
                     (X := sample_collaborators [] (fun _ => None))
                     1 "YQ==" (Some 0) 7%nat [sample_template 4 1 FINGERPRINT []])
                  Hok) as (s & Hs & _).
  exists s. exact Hs.
Defined.

Lemma fingerprint_template_id_witness :
  BiometricResult.success (fst sample_success_run) = true
  /\ exists s,
       BiometricResult.similarity_score (fst sample_success_run) = Some s
       /\ ((0 < s
            /\ exists input i t,
                 fingerprint_input
                   (X := sample_collaborators [] (fun _ => Some [INR 97 / 255]))
                   "YQ==" = Some input
                 /\ s = max_score
                          (fingerprint_scores
                             (X := sample_collaborators []
                                     (fun _ => Some [INR 97 / 255]))
                             1 input [sample_template 4 1 FINGERPRINT []])
                 /\ nth_error [sample_template 4 1 FINGERPRINT []] i = Some t
                 /\ fingerprint_score_of
                      (X := sample_collaborators []
                              (fun _ => Some [INR 97 / 255]))
                      1 input t = Some s
                 /\ (forall k' t' r', (k' < i)%nat ->
                       nth_error [sample_template 4 1 FINGERPRINT []] k'
                       = Some t' ->
                       fingerprint_score_of
                         (X := sample_collaborators []
                                 (fun _ => Some [INR 97 / 255]))
                         1 input t' = Some r' -> r' < s)
                 /\ BiometricResult.template_id (fst sample_success_run)
                    = Some (BiometricTemplate.id t))
           \/ (s = 0
               /\ BiometricResult.template_id (fst sample_success_run) = None)).
Proof.
  assert (BiometricResult.success (fst sample_success_run) = true) as Hok
    by (unfold sample_success_run; rewrite sample_fingerprint_success;
        reflexivity).
  split; [exact Hok|].
  exact (fingerprint_template_id
           (X := sample_collaborators [] (fun _ => Some [INR 97 / 255]))
           1 "YQ==" None 7%nat [sample_template 4 1 FINGERPRINT []] Hok).
Defined.

(** ** Enrollment followed by verification (fingerprint path) *)

Section RoundTrip.
Context {X : Collaborators}.

Lemma superseded_not_selected user_id t :
  FingerprintService.active_fingerprint_of user_id (superseded user_id t) = false.
Proof.
  unfold superseded.
  destruct (FingerprintService.active_fingerprint_of user_id t) eqn:Hsel;
    [|exact Hsel].
  unfold FingerprintService.active_fingerprint_of. simpl.
  apply andb_false_r.
Qed.

Lemma superseded_no_scores user_id input rows :
  fingerprint_scores user_id input (map (superseded user_id) rows) = [].
Proof.
  induction rows as [|t rows IH]; [reflexivity|].
  unfold fingerprint_scores in *. simpl.
  unfold fingerprint_score_of at 1.
  rewrite superseded_not_selected. simpl. exact IH.
Qed.

Lemma enroll_fingerprint_ok user_id fingerprint_data rows fingerprint_bytes :
  b64decode fingerprint_data = Some fingerprint_bytes ->
  exists features new_template,
    FingerprintService.extract_fingerprint_features fingerprint_bytes
    = Some features
    /\ new_template
       = BiometricTemplate.mk (next_id rows) user_id FINGERPRINT
           (encrypt_data features)
           (FingerprintService.calculate_quality_score fingerprint_bytes)
           (95 / 100) true true 0%nat None
    /\ FingerprintService.enroll_fingerprint user_id fingerprint_data rows
       = (BiometricResult.mk true "Fingerprint enrollment successful" None None
            true
            (Some (FingerprintService.calculate_quality_score fingerprint_bytes))
            (Some (next_id rows)),
          map (superseded user_id) rows ++ [new_template]).
Proof.
  intros Hd. unfold FingerprintService.enroll_fingerprint. rewrite Hd.
  eexists. eexists. split; [reflexivity|]. split; reflexivity.
Qed.

(** C5. Fingerprint round trip: for every user and every payload that decodes
    to a sample whose feature vector is not all-zero, and whose stored
    ciphertext decrypts back to that vector, enrolling the sample and then
    verifying the identical sample at the default threshold succeeds, with a
    similarity score (namely 1) at or above the threshold used (0.75). *)
Theorem enroll_then_verify_fingerprint
    user_id fingerprint_data rows now features :
  fingerprint_input fingerprint_data = Some features ->
  ~ all_zero features ->
  decrypt_data (encrypt_data features) = Some features ->
  let enrolled :=
    FingerprintService.enroll_fingerprint user_id fingerprint_data rows in
  let res :=
    FingerprintService.verify_fingerprint user_id fingerprint_data None now
      (snd enrolled) in
  BiometricResult.success (fst enrolled) = true
  /\ BiometricResult.success (fst res) = true
  /\ BiometricResult.threshold_used (fst res) = Some default_threshold
  /\ exists s, BiometricResult.similarity_score (fst res) = Some s
               /\ s = 1 /\ default_threshold <= s.
Proof.
  intros Hin Hnz Hdec enrolled res.
  unfold fingerprint_input in Hin.
  destruct (b64decode fingerprint_data) as [fb|] eqn:Hd; [|discriminate].
  destruct (enroll_fingerprint_ok user_id fingerprint_data rows fb Hd)
    as (f & new_template & Hf & Hnew & Henroll).
  rewrite Hin in Hf. injection Hf as <-.
  subst enrolled res. rewrite Henroll. simpl fst. simpl snd.
  split; [reflexivity|].
  set (rows1 := map (superseded user_id) rows ++ [new_template]).
  assert (FingerprintService.active_fingerprint_of user_id new_template = true)
    as Hsel.
  { subst new_template. unfold FingerprintService.active_fingerprint_of. simpl.
    rewrite Nat.eqb_refl. reflexivity. }
  assert (fingerprint_scores user_id features rows1 = [1]) as Hscores.
  { unfold rows1, fingerprint_scores. rewrite flat_map_app.
    fold (fingerprint_scores user_id features (map (superseded user_id) rows)).
    rewrite superseded_no_scores. simpl.
    unfold fingerprint_score_of. rewrite Hsel.
    replace (BiometricTemplate.template_data new_template)
      with (encrypt_data features) by (subst new_template; reflexivity).
    rewrite Hdec, calculate_fingerprint_similarity_self by exact Hnz.
    reflexivity. }
  destruct (verify_fingerprint_path user_id fingerprint_data None now rows1)
    as [Hq | Hq Hin' | input s w Hq Hin' Hb th].
  - exfalso. unfold rows1 in Hq. rewrite filter_app in Hq. simpl in Hq.
    rewrite Hsel in Hq. destruct (filter _ (map _ rows)); discriminate.
  - exfalso. unfold fingerprint_input in Hin'. rewrite Hd, Hin in Hin'.
    discriminate.
  - unfold fingerprint_input in Hin'. rewrite Hd, Hin in Hin'.
    injection Hin' as <-.
    pose proof (best_match_fst user_id features rows1 0 None 0%nat) as Hmax.
    rewrite Hb, Hscores in Hmax. simpl in Hmax.
    rewrite Rmax_right in Hmax by lra. subst s.
    assert (Rgeb 1 th = true) as Hok
      by (apply Rgeb_true; unfold th, effective_threshold, default_threshold; lra).
    simpl. rewrite Hok.
    repeat split. exists 1. repeat split.
    unfold default_threshold. lra.
Qed.

End RoundTrip.

Lemma enroll_then_verify_fingerprint_witness :
  BiometricResult.success
    (fst (FingerprintService.verify_fingerprint
            (X := sample_collaborators [] (fun _ => Some [INR 97 / 255]))
            1 "YQ==" None 7
            (snd (FingerprintService.enroll_fingerprint
                    (X := sample_collaborators [] (fun _ => Some [INR 97 / 255]))
                    1 "YQ==" [sample_template 4 1 FINGERPRINT []]))))
  = true.
Proof.
  apply (enroll_then_verify_fingerprint
           (X := sample_collaborators [] (fun _ => Some [INR 97 / 255]))
           1 "YQ==" [sample_template 4 1 FINGERPRINT []] 7%nat [INR 97 / 255]).
  - reflexivity.
  - intros H. apply Forall_inv in H. rewrite INR_97 in H. lra.
  - reflexivity.
Defined.

(** ** The face comparison loops *)

Section FaceLoop.
Context {X : Collaborators}.
Variable user_id : nat.
Variable now : nat.

Lemma same_keys_refl t : same_keys t t.
Proof. repeat split. Qed.

Lemma same_keys_record_use t : same_keys t (BiometricTemplate.record_use now t).
Proof. repeat split. Qed.

Lemma same_keys_score encoding t t' :
  same_keys t t' -> face_score_of user_id encoding t' = face_score_of user_id encoding t.
Proof.
  intros (Hu & Ha & Hd). unfold face_score_of, BiometricService.active_of.
  rewrite Hu, Ha, Hd. reflexivity.
Qed.

Lemma same_keys_scores encoding rows rows' :
  Forall2 same_keys rows rows' ->
  face_template_scores user_id encoding rows' = face_template_scores user_id encoding rows.
Proof.
  induction 1 as [|t t' rows rows' Ht _ IH]; [reflexivity|].
  unfold face_template_scores in *. simpl.
  rewrite (same_keys_score encoding t t' Ht), IH. reflexivity.
Qed.

Lemma Forall2_same_keys_refl rows : Forall2 same_keys rows rows.
Proof. induction rows; constructor; auto using same_keys_refl. Qed.

Lemma Forall2_same_keys_trans r1 r2 r3 :
  Forall2 same_keys r1 r2 -> Forall2 same_keys r2 r3 -> Forall2 same_keys r1 r3.
Proof.
  intros H12. revert r3. induction H12 as [|a b r1 r2 Hab _ IH]; intros r3 H23.
  - inversion H23. constructor.
  - inversion H23 as [|b' c r2' r3' Hbc Hrest]; subst.
    constructor; [|apply IH; assumption].
    destruct Hab as (A1 & A2 & A3). destruct Hbc as (B1 & B2 & B3).
    repeat split; congruence.
Qed.

Lemma compare_templates_cons encoding best t rest :
  BiometricService.compare_templates user_id encoding now best (t :: rest)
  = match face_score_of user_id encoding t with
    | Some r =>
        if Rlt_dec best r then
          (fst (BiometricService.compare_templates user_id encoding now r rest),
           BiometricTemplate.record_use now t
           :: snd (BiometricService.compare_templates user_id encoding now r rest))
        else
          (fst (BiometricService.compare_templates user_id encoding now best rest),
           t :: snd (BiometricService.compare_templates user_id encoding now
                       best rest))
    | None =>
        (fst (BiometricService.compare_templates user_id encoding now best rest),
         t :: snd (BiometricService.compare_templates user_id encoding now
                     best rest))
    end.
Proof.
  unfold face_score_of. simpl.
  destruct (BiometricService.active_of user_id t).
  - destruct (decrypt_data (BiometricTemplate.template_data t)).
    + destruct (Rlt_dec best _);
        destruct (BiometricService.compare_templates _ _ _ _ rest); reflexivity.
    + destruct (BiometricService.compare_templates _ _ _ _ rest); reflexivity.
  - destruct (BiometricService.compare_templates _ _ _ _ rest); reflexivity.
Qed.

Lemma compare_templates_spec encoding rows : forall best,
  fst (BiometricService.compare_templates user_id encoding now best rows)
  = fold_left Rmax (face_template_scores user_id encoding rows) best
  /\ Forall2 same_keys rows
       (snd (BiometricService.compare_templates user_id encoding now best rows)).
Proof.
  induction rows as [|t rest IH]; intros best; [split; [reflexivity|constructor]|].
  rewrite compare_templates_cons. unfold face_template_scores. simpl.
  fold (face_template_scores user_id encoding rest).
  destruct (face_score_of user_id encoding t) as [r|]; simpl.
  - destruct (Rlt_dec best r) as [Hlt|Hge]; simpl.
    + destruct (IH r) as [H1 H2]. rewrite H1, Rmax_right by lra.
      split; [reflexivity|]. constructor; [apply same_keys_record_use | exact H2].
    + destruct (IH best) as [H1 H2]. rewrite H1, Rmax_left by lra.
      split; [reflexivity|]. constructor; [apply same_keys_refl | exact H2].
  - destruct (IH best) as [H1 H2]. split; [exact H1|].
    constructor; [apply same_keys_refl | exact H2].
Qed.

(** An encoding none of whose scores beats the running best leaves the best
    and every row as they were. *)
Lemma compare_templates_no_gain encoding best rows :
  (forall r, In r (face_template_scores user_id encoding rows) -> r <= best) ->
  BiometricService.compare_templates user_id encoding now best rows
  = (best, rows).
Proof.
  induction rows as [|t rest IH]; intros Hall; [reflexivity|].
  rewrite compare_templates_cons.
  unfold face_template_scores in Hall. simpl in Hall.
  fold (face_template_scores user_id encoding rest) in Hall.
  destruct (face_score_of user_id encoding t) as [r|].
  - destruct (Rlt_dec best r) as [Hlt|Hge].
    + exfalso. specialize (Hall r (or_introl eq_refl)). lra.
    + rewrite IH by (intros r' Hr'; apply Hall; right; exact Hr'). reflexivity.
  - rewrite IH by (intros r' Hr'; apply Hall; exact Hr'). reflexivity.
Qed.

Lemma match_frames_cons fr rest best fd rows :
  BiometricService.match_frames user_id now (fr :: rest) best fd rows
  = match usable_encodings [fr] with
    | encoding :: _ =>
        BiometricService.match_frames user_id now rest
          (fst (BiometricService.compare_templates user_id encoding now best rows))
          true
          (snd (BiometricService.compare_templates user_id encoding now best rows))
    | [] =>
        BiometricService.match_frames user_id now rest best
          (match detect_faces fr with [] => fd | _ :: _ => true end) rows
    end.
Proof.
  unfold usable_encodings. simpl.
  destruct (detect_faces fr) as [|loc locs]; [reflexivity|].
  destruct (extract_face_encoding fr loc) as [encoding|]; simpl; [|reflexivity].
  destruct (BiometricService.compare_templates user_id encoding now best rows).
  reflexivity.
Qed.

Lemma usable_encodings_cons fr rest :
  usable_encodings (fr :: rest) = usable_encodings [fr] ++ usable_encodings rest.
Proof. unfold usable_encodings. simpl. rewrite app_nil_r. reflexivity. Qed.

Lemma usable_encodings_single fr :
  usable_encodings [fr] = [] \/ exists e, usable_encodings [fr] = [e].
Proof.
  unfold usable_encodings. simpl.
  destruct (detect_faces fr) as [|loc locs]; [left; reflexivity|].
  destruct (extract_face_encoding fr loc) as [e|];
    [right; exists e; reflexivity | left; reflexivity].
Qed.

Lemma match_frames_spec frames : forall best fd rows,
  fst (fst (BiometricService.match_frames user_id now frames best fd rows))
  = fold_left Rmax (face_scores user_id frames rows) best
  /\ Forall2 same_keys rows
       (snd (BiometricService.match_frames user_id now frames best fd rows)).
Proof.
  induction frames as [|fr rest IH]; intros best fd rows.
  - split; [reflexivity | apply Forall2_same_keys_refl].
  - rewrite match_frames_cons. unfold face_scores.
    rewrite (usable_encodings_cons fr rest).
    destruct (usable_encodings_single fr) as [Hnone | [e He]].
    + rewrite Hnone. simpl. apply IH.
    + rewrite He. simpl. rewrite fold_left_app.
      destruct (compare_templates_spec e rows best) as [H1 H2].
      destruct (IH (fst (BiometricService.compare_templates user_id e now best rows))
                   true
                   (snd (BiometricService.compare_templates user_id e now best rows)))
        as [H3 H4].
      split.
      * rewrite H3, H1. unfold face_scores. f_equal.
        apply flat_map_ext. intros e'. apply same_keys_scores. exact H2.
      * eapply Forall2_same_keys_trans; eassumption.
Qed.

(** A video whose usable encodings never beat the running best leaves the
    best score and the table as they were. *)
Lemma match_frames_no_gain frames : forall best fd rows,
  (forall r, In r (face_scores user_id frames rows) -> r <= best) ->
  exists fd',
    BiometricService.match_frames user_id now frames best fd rows
    = (best, fd', rows).
Proof.
  induction frames as [|fr rest IH]; intros best fd rows Hall.
  - exists fd. reflexivity.
  - rewrite match_frames_cons. unfold face_scores in Hall.
    rewrite (usable_encodings_cons fr rest) in Hall.
    destruct (usable_encodings_single fr) as [Hnone | [e He]].
    + rewrite Hnone in *. simpl in Hall. apply IH. exact Hall.
    + rewrite He in *. simpl in Hall.
      rewrite compare_templates_no_gain
        by (intros r Hr; apply Hall, in_or_app; left; exact Hr).
      simpl. apply IH. intros r Hr. apply Hall, in_or_app. right. exact Hr.
Qed.

End FaceLoop.

(** ** Face verification, path by path *)

Section FaceVerify.
Context {X : Collaborators}.

Lemma verify_biometric_path user_id video_data threshold now rows :
  face_path user_id video_data threshold now rows
    (BiometricService.verify_biometric user_id video_data threshold now rows).
Proof.
  unfold BiometricService.verify_biometric.
  fold (effective_threshold BIOMETRIC_THRESHOLD threshold).
  destruct (filter (BiometricService.active_of user_id) rows) as [|t0 ts] eqn:Hq.
  - apply face_no_templates. exact Hq.
  - assert (filter (BiometricService.active_of user_id) rows <> []) as Hne
      by (rewrite Hq; discriminate).
    destruct (b64decode video_data) as [vb|] eqn:Hd;
      [|apply face_bad_payload; assumption].
    destruct (extract_frames vb) as [|fr frs] eqn:Hf;
      [eapply face_no_frames; eassumption|].
    destruct (BiometricService.match_frames user_id now (fr :: frs) 0 false rows)
      as [[best fd] rows'] eqn:Hm.
    refine (face_decided user_id video_data threshold now rows vb best fd rows'
              Hne Hd _ _).
    + rewrite Hf. discriminate.
    + rewrite Hf. exact Hm.
Qed.

(** [max_score] is the largest of the scores and of the 0.0 the loops start
    from. *)
Lemma max_score_is_max (scores : list R) :
  0 <= max_score scores
  /\ (forall s, In s scores -> s <= max_score scores)
  /\ (max_score scores = 0 \/ In (max_score scores) scores).
Proof.
  unfold max_score.
  assert (forall l b,
            b <= fold_left Rmax l b
            /\ (forall s, In s l -> s <= fold_left Rmax l b)
            /\ (fold_left Rmax l b = b \/ In (fold_left Rmax l b) l)) as H.
  { induction l as [|x l IH]; intros b; simpl.
    - split; [lra|]. split; [intros s []|left; reflexivity].
    - destruct (IH (Rmax b x)) as (H1 & H2 & H3).
      pose proof (Rmax_l b x). pose proof (Rmax_r b x).
      split; [lra|]. split.
      + intros s [<-|Hs]; [lra | apply H2, Hs].
      + destruct H3 as [H3|H3]; [|right; right; exact H3].
        rewrite H3. unfold Rmax. destruct (Rle_dec b x); auto. }
  destruct (H scores 0) as (H1 & H2 & H3). auto.
Qed.

(** C8. In every verification call, face or fingerprint, the threshold reported
    in the result is the caller's override when one is given and the modality
    default otherwise (0.6 for face, 0.75 for fingerprint).  A call that
    reaches the comparison -- the lookup is not empty, the payload decodes
    and, for a face, the video has frames -- reports the maximum similarity
    over all comparisons made (starting from 0.0) and succeeds exactly when
    that maximum is at or above the effective threshold.  A call that does
    not reach it reports no score and fails.  So on every path success holds
    exactly when a score is reported and is at or above the threshold. *)
Theorem threshold_selection user_id payload threshold now rows :
  let face :=
    fst (BiometricService.verify_biometric user_id payload threshold now rows) in
  let finger :=
    fst (FingerprintService.verify_fingerprint user_id payload threshold now rows) in
  let face_th := effective_threshold BIOMETRIC_THRESHOLD threshold in
  let finger_th := effective_threshold default_threshold threshold in
  (BIOMETRIC_THRESHOLD = 6 / 10 /\ default_threshold = 75 / 100)
  /\ (BiometricResult.threshold_used face = Some face_th
      /\ (BiometricResult.success face = true <->
          exists s, BiometricResult.similarity_score face = Some s /\ face_th <= s)
      /\ (forall s, BiometricResult.similarity_score face = Some s ->
          exists video_bytes,
            b64decode payload = Some video_bytes
            /\ s = max_score (face_scores user_id (extract_frames video_bytes) rows))
      /\ (forall video_bytes,
            filter (BiometricService.active_of user_id) rows <> [] ->
            b64decode payload = Some video_bytes ->
            extract_frames video_bytes <> [] ->
            let m :=
              max_score (face_scores user_id (extract_frames video_bytes) rows) in
            BiometricResult.similarity_score face = Some m
            /\ (face_th <= m -> BiometricResult.success face = true)
            /\ (m < face_th -> BiometricResult.success face = false))
      /\ (filter (BiometricService.active_of user_id) rows = []
          \/ b64decode payload = None
          \/ (exists video_bytes, b64decode payload = Some video_bytes
                                  /\ extract_frames video_bytes = []) ->
          BiometricResult.success face = false
          /\ BiometricResult.similarity_score face = None))
  /\ (BiometricResult.threshold_used finger = Some finger_th
      /\ (BiometricResult.success finger = true <->
          exists s, BiometricResult.similarity_score finger = Some s
                    /\ finger_th <= s)
      /\ (forall s, BiometricResult.similarity_score finger = Some s ->
          exists input,
            fingerprint_input payload = Some input
            /\ s = max_score (fingerprint_scores user_id input rows))
      /\ (forall input,
            filter (FingerprintService.active_fingerprint_of user_id) rows <> [] ->
            fingerprint_input payload = Some input ->
            let m := max_score (fingerprint_scores user_id input rows) in
            BiometricResult.similarity_score finger = Some m
            /\ (finger_th <= m -> BiometricResult.success finger = true)
            /\ (m < finger_th -> BiometricResult.success finger = false))
      /\ (filter (FingerprintService.active_fingerprint_of user_id) rows = []
          \/ fingerprint_input payload = None ->
          BiometricResult.success finger = false
          /\ BiometricResult.similarity_score finger = None)).
Proof.
  intros face finger face_th finger_th.
  split; [split; reflexivity|]. split.
  - subst face.
    destruct (verify_biometric_path user_id payload threshold now rows)
      as [Hq | Hq Hd | vb Hq Hd Hf | vb best fd rows' Hq Hd Hf Hm th]; simpl.
    + split; [reflexivity|].
      split; [split; [discriminate | intros (s & Hs & _); discriminate]|].
      split; [intros s Hs; discriminate|].
      split; [intros vb Hne; contradiction | intros _; split; reflexivity].
    + split; [reflexivity|].
      split; [split; [discriminate | intros (s & Hs & _); discriminate]|].
      split; [intros s Hs; discriminate|].
      split; [intros vb _ Hd'; congruence | intros _; split; reflexivity].
    + split; [reflexivity|].
      split; [split; [discriminate | intros (s & Hs & _); discriminate]|].
      split; [intros s Hs; discriminate|].
      split; [intros vb' _ Hd' Hf'; congruence | intros _; split; reflexivity].
    + assert (best = max_score (face_scores user_id (extract_frames vb) rows))
        as Hbest.
      { pose proof (match_frames_spec user_id now (extract_frames vb) 0 false
                      rows) as [Hmax _].
        rewrite Hm in Hmax. exact Hmax. }
      split; [reflexivity|]. split; [|split; [|split]].
      * rewrite Rgeb_true. split.
        -- intros Hle. exists best. split; [reflexivity | exact Hle].
        -- intros (s & Hs & Hle). injection Hs as <-. exact Hle.
      * intros s Hs. injection Hs as <-. exists vb. split; [exact Hd|].
        exact Hbest.
      * intros vb' _ Hd' _.
        assert (vb' = vb) as -> by congruence.
        rewrite Hbest.
        split; [reflexivity|]. split.
        -- intros Hle. apply Rgeb_true. exact Hle.
        -- intros Hlt. apply Rgeb_false. exact Hlt.
      * intros [Hq' | [Hd' | (vb' & Hd' & Hf')]]; [contradiction | congruence|].
        assert (vb' = vb) as -> by congruence. contradiction.
  - subst finger.
    destruct (verify_fingerprint_path user_id payload threshold now rows)
      as [Hq | Hq Hin | input s w Hq Hin Hb th]; simpl.
    + split; [reflexivity|].
      split; [split; [discriminate | intros (s & Hs & _); discriminate]|].
      split; [intros s Hs; discriminate|].
      split; [intros input Hne; contradiction | intros _; split; reflexivity].
    + split; [reflexivity|].
      split; [split; [discriminate | intros (s & Hs & _); discriminate]|].
      split; [intros s Hs; discriminate|].
      split; [intros input _ Hin'; congruence | intros _; split; reflexivity].
    + assert (s = max_score (fingerprint_scores user_id input rows)) as Hbest.
      { pose proof (best_match_fst user_id input rows 0 None 0%nat) as Hmax.
        rewrite Hb in Hmax. exact Hmax. }
      split; [reflexivity|]. split; [|split; [|split]].
      * rewrite Rgeb_true. split.
        -- intros Hle. exists s. split; [reflexivity | exact Hle].
        -- intros (s' & Hs & Hle). injection Hs as <-. exact Hle.
      * intros s' Hs. injection Hs as <-. exists input. split; [exact Hin|].
        exact Hbest.
      * intros input' _ Hin'.
        assert (input' = input) as -> by congruence.
        rewrite Hbest.
        split; [reflexivity|]. split.
        -- intros Hle. apply Rgeb_true. exact Hle.
        -- intros Hlt. apply Rgeb_false. exact Hlt.
      * intros [Hq' | Hin']; [contradiction | congruence].
Qed.

(** Face verification never names a template in its result. *)
Lemma verify_biometric_template_id user_id video_data threshold now rows :
  BiometricResult.template_id
    (fst (BiometricService.verify_biometric user_id video_data threshold now rows))
  = None.
Proof.
  destruct (verify_biometric_path user_id video_data threshold now rows);
    reflexivity.
Qed.

(** C10. Face verification of a video that decodes and has frames, for a user
    with at least one template in the lookup, when no frame yields a usable
    vector (no face, no encoding, or an all-zero encoding): the call reaches
    the threshold decision with best score 0.0, so it succeeds exactly when
    0.0 >= the effective threshold -- in particular it succeeds for every
    override threshold <= 0 -- reports similarity 0.0 with the ordinary
    decision message instead of an extraction miss, and touches no template. *)
Theorem face_no_usable_vector user_id video_data threshold now rows video_bytes :
  filter (BiometricService.active_of user_id) rows <> [] ->
  b64decode video_data = Some video_bytes ->
  extract_frames video_bytes <> [] ->
  (forall e, In e (usable_encodings (extract_frames video_bytes)) -> all_zero e) ->
  let res :=
    BiometricService.verify_biometric user_id video_data threshold now rows in
  let th := effective_threshold BIOMETRIC_THRESHOLD threshold in
  BiometricResult.success (fst res) = Rgeb 0 th
  /\ BiometricResult.similarity_score (fst res) = Some 0
  /\ BiometricResult.threshold_used (fst res) = Some th
  /\ BiometricResult.message (fst res)
     = (if Rgeb 0 th then "Verification successful"%string
        else "Verification failed"%string)
  /\ snd res = rows
  /\ (th <= 0 -> BiometricResult.success (fst res) = true).
Proof.
  intros Hq Hd Hf Hzero res th.
  assert (forall r,
            In r (face_scores user_id (extract_frames video_bytes) rows) ->
            r <= 0) as Hall.
  { intros r Hr. unfold face_scores in Hr. apply in_flat_map in Hr.
    destruct Hr as (e & He & Hr). apply Hzero in He.
    unfold face_template_scores in Hr. apply in_flat_map in Hr.
    destruct Hr as (t & _ & Hr). unfold face_score_of in Hr.
    destruct (BiometricService.active_of user_id t); [|contradiction].
    destruct (decrypt_data (BiometricTemplate.template_data t)) as [st|];
      [|contradiction].
    destruct Hr as [<-|[]].
    rewrite calculate_similarity_zero; [lra|].
    right. apply norm_zero_iff. exact He. }
  destruct (match_frames_no_gain user_id now (extract_frames video_bytes)
              0 false rows Hall) as [fd Hm].
  subst res.
  destruct (verify_biometric_path user_id video_data threshold now rows)
    as [Hq' | Hq' Hd' | vb Hq' Hd' Hf' | vb best fd' rows' Hq' Hd' Hf' Hm' th'].
  - contradiction.
  - congruence.
  - rewrite Hd in Hd'. injection Hd' as <-. contradiction.
  - rewrite Hd in Hd'. injection Hd' as <-.
    rewrite Hm in Hm'. injection Hm' as <- <- <-.
    simpl. repeat split.
    intros Hle. apply Rgeb_true. exact Hle.
Qed.

End FaceVerify.

Lemma threshold_selection_witness :
  BiometricResult.similarity_score (fst sample_success_run)
  = Some (max_score
            (fingerprint_scores
               (X := sample_collaborators [] (fun _ => Some [INR 97 / 255]))
               1 [INR 97 / 255] [sample_template 4 1 FINGERPRINT []]))
  /\ BiometricResult.success (fst sample_success_run) = true.
Proof.
  destruct (threshold_selection
              (X := sample_collaborators [] (fun _ => Some [INR 97 / 255]))
              1 "YQ==" None 7%nat [sample_template 4 1 FINGERPRINT []])
    as (_ & _ & _ & _ & _ & Hdecided & _).
  destruct (Hdecided [INR 97 / 255]) as (Hscore & Hyes & _).
  - discriminate.
  - reflexivity.
  - split; [exact Hscore|]. apply Hyes.
    unfold effective_threshold, default_threshold, max_score,
      fingerprint_scores, fingerprint_score_of.
    cbn -[INR calculate_fingerprint_similarity Rmax].
    rewrite sample_scan_self. unfold Rmax.
    destruct (Rle_dec 0 1); lra.
Defined.

Lemma face_no_usable_vector_witness :
  BiometricResult.success
    (fst (BiometricService.verify_biometric
            (X := sample_collaborators [None; Some [0; 0]] (fun _ => Some [1; 0]))
            1 "dg==" (Some 0) 7 [sample_template 4 1 FACE []]))
  = true.
Proof.
  refine (proj2 (proj2 (proj2 (proj2 (proj2
    (face_no_usable_vector
       (X := sample_collaborators [None; Some [0; 0]] (fun _ => Some [1; 0]))
       1 "dg==" (Some 0) 7%nat [sample_template 4 1 FACE []]
       ["v"%byte] _ _ _ _))))) _).
  - simpl. discriminate.
  - reflexivity.
  - simpl. discriminate.
  - simpl. intros e [<-|[]]. repeat constructor.
  - simpl. lra.
Defined.

(** ** Verification lookups *)

Section Lookups.
Context {X : Collaborators}.

(** The fingerprint lookup returns active fingerprint templates of the user
    only, and nothing else is scored. *)
Lemma fingerprint_lookup_sound user_id rows t :
  In t (filter (FingerprintService.active_fingerprint_of user_id) rows) ->
  BiometricTemplate.user_id t = user_id
  /\ BiometricTemplate.biometric_type t = FINGERPRINT
  /\ BiometricTemplate.is_active t = true.
Proof.
  intros H. apply filter_In in H. destruct H as [_ H].
  unfold FingerprintService.active_fingerprint_of in H.
  apply andb_true_iff in H. destruct H as [H Ha].
  apply andb_true_iff in H. destruct H as [Hu Ht].
  apply Nat.eqb_eq in Hu.
  destruct (BiometricTemplate.biometric_type t); [discriminate|]. auto.
Qed.

(** The face lookup returns active templates of the user; the modality is not
    part of its filter. *)
Lemma face_lookup_sound user_id rows t :
  In t (filter (BiometricService.active_of user_id) rows) ->
  BiometricTemplate.user_id t = user_id /\ BiometricTemplate.is_active t = true.
Proof.
  intros H. apply filter_In in H. destruct H as [_ H].
  unfold BiometricService.active_of in H.
  apply andb_true_iff in H. destruct H as [Hu Ha].
  apply Nat.eqb_eq in Hu. auto.
Qed.

(** With no active fingerprint template the fingerprint path fails closed,
    whatever the payload. *)
Lemma verify_fingerprint_no_templates user_id fingerprint_data threshold now rows :
  filter (FingerprintService.active_fingerprint_of user_id) rows = [] ->
  FingerprintService.verify_fingerprint user_id fingerprint_data threshold now rows
  = (FingerprintService.failure "No fingerprint templates found for user"
       (Some (effective_threshold default_threshold threshold)), rows).
Proof.
  intros Hq. unfold FingerprintService.verify_fingerprint. rewrite Hq.
  reflexivity.
Qed.

(** With no active template of any modality the face path fails closed,
    whatever the payload. *)
Lemma verify_biometric_no_templates user_id video_data threshold now rows :
  filter (BiometricService.active_of user_id) rows = [] ->
  BiometricService.verify_biometric user_id video_data threshold now rows
  = (BiometricService.failure "No biometric templates found for user" false None
       (Some (effective_threshold BIOMETRIC_THRESHOLD threshold)), rows).
Proof.
  intros Hq. unfold BiometricService.verify_biometric. rewrite Hq. reflexivity.
Qed.

End Lookups.

(** C2 (evaluation at the failing input). For a user whose only active
    template is a fingerprint template, the lookup of face verification
    returns that template, and the face comparison loop decrypts and scores
    it: against a probe equal to the vector it decrypts to, the fingerprint
    template wins the face comparison and has a use recorded. *)
Theorem face_lookup_crosses_modality :
  map BiometricTemplate.biometric_type fingerprint_only_db = [FINGERPRINT]
  /\ filter (BiometricService.active_of 1) fingerprint_only_db
     = fingerprint_only_db
  /\ BiometricService.compare_templates
       (X := sample_collaborators [] (fun _ => Some [INR 97 / 255]))
       1 [INR 97 / 255] 7 0 fingerprint_only_db
     = (1, [BiometricTemplate.record_use 7 (sample_template 4 1 FINGERPRINT [])]).
Proof.
  split; [reflexivity|]. split; [reflexivity|].
  unfold fingerprint_only_db.
  rewrite compare_templates_cons. unfold face_score_of.
  cbn -[INR calculate_similarity Rlt_dec].
  assert (calculate_similarity [INR 97 / 255] [INR 97 / 255] = 1) as ->.
  { apply calculate_similarity_self.
    intros H. apply Forall_inv in H. rewrite INR_97 in H. lra. }
  destruct (Rlt_dec 0 1) as [_|H]; [reflexivity | exfalso; lra].
Qed.

(** C6 (evaluation at the failing input). User 1 has no active face template,
    only an active fingerprint template.  Face verification of a video with
    one detected face does not answer "no templates": at the default
    threshold it reports an ordinary failed comparison, and with an override
    threshold of 0 it reports success. *)
Theorem face_verify_without_face_template :
  filter (fun t => BiometricService.active_of 1 t
                   && BiometricType_eqb (BiometricTemplate.biometric_type t) FACE)
         fingerprint_only_db = []
  /\ BiometricService.verify_biometric
       (X := sample_collaborators [Some [1; 0]] (fun _ => Some [INR 97 / 255]))
       1 "dg==" None 7 fingerprint_only_db
     = (BiometricResult.mk false "Verification failed" (Some 0)
          (Some BIOMETRIC_THRESHOLD) true None None,
        fingerprint_only_db)
  /\ BiometricService.verify_biometric
       (X := sample_collaborators [Some [1; 0]] (fun _ => Some [INR 97 / 255]))
       1 "dg==" (Some 0) 7 fingerprint_only_db
     = (BiometricResult.mk true "Verification successful" (Some 0) (Some 0)
          true None None,
        fingerprint_only_db).
Proof.
  split; [reflexivity|].
  split.
  - unfold BiometricService.verify_biometric.
    cbn -[Rgeb Rlt_dec INR].
    destruct (Rlt_dec 0 0) as [H|_]; [exfalso; lra|].
    assert (Rgeb 0 BIOMETRIC_THRESHOLD = false) as ->
      by (apply Rgeb_false; unfold BIOMETRIC_THRESHOLD; lra).
    reflexivity.
  - unfold BiometricService.verify_biometric.
    cbn -[Rgeb Rlt_dec INR].
    destruct (Rlt_dec 0 0) as [H|_]; [exfalso; lra|].
    assert (Rgeb 0 0 = true) as -> by (apply Rgeb_true; lra).
    reflexivity.
Qed.

(** ** Usage recording on the face path *)

Lemma norm_5_12 : norm [5; 12] = 13.
Proof. unfold norm. simpl. apply sqrt_lem_1; lra. Qed.

Lemma norm_1_0 : norm [1; 0] = 1.
Proof. unfold norm. simpl. apply sqrt_lem_1; lra. Qed.

Lemma similarity_5_12 : calculate_similarity [5; 12] [1; 0] = 5 / 13.
Proof.
  rewrite calculate_similarity_unfold;
    [|reflexivity | rewrite norm_5_12; lra | rewrite norm_1_0; lra].
  rewrite norm_5_12, norm_1_0. simpl.
  replace ((5 * 1 + (12 * 0 + 0)) / (13 * 1)) with (5 / 13) by (field; lra).
  apply Rmax_right. lra.
Qed.

(** Worked example: user 1 holds one face template that decrypts to (5, 12);
    a video with one face encoded as (1, 0) scores 5/13, below the default
    threshold 0.6.  The call fails, and yet the template has a use recorded:
    the face loop updates the counters of every template that improves the
    running best, before the decision is taken. *)
Example face_usage_recorded_on_failure :
  BiometricService.verify_biometric
    (X := sample_collaborators [Some [1; 0]] (fun _ => Some [5; 12]))
    1 "dg==" None 7 [sample_template 4 1 FACE []]
  = (BiometricResult.mk false "Verification failed" (Some (5 / 13))
       (Some BIOMETRIC_THRESHOLD) true None None,
     [BiometricTemplate.record_use 7 (sample_template 4 1 FACE [])]).
Proof.
  unfold BiometricService.verify_biometric.
  cbn -[Rgeb Rlt_dec calculate_similarity].
  rewrite similarity_5_12.
  destruct (Rlt_dec 0 (5 / 13)) as [_|H]; [|exfalso; lra].
  assert (Rgeb (5 / 13) BIOMETRIC_THRESHOLD = false) as ->
    by (apply Rgeb_false; unfold BIOMETRIC_THRESHOLD; lra).
  reflexivity.
Qed.

(** ** Invariant A: primary uniqueness *)

Section FilterCounts.
Context {A : Type}.
Variable p : A -> bool.

Lemma filter_map_le (f : A -> A) (l : list A) :
  (forall t, p (f t) = true -> p t = true) ->
  (List.length (filter p (map f l)) <= List.length (filter p l))%nat.
Proof.
  intros Hf. induction l as [|t l IH]; simpl; [lia|].
  destruct (p (f t)) eqn:Hpf.
  - rewrite (Hf t Hpf). simpl. lia.
  - destruct (p t); simpl; lia.
Qed.

Lemma filter_map_none (f : A -> A) (l : list A) :
  (forall t, p (f t) = false) -> filter p (map f l) = [].
Proof.
  intros Hf. induction l as [|t l IH]; simpl; [reflexivity|].
  rewrite Hf. exact IH.
Qed.

Lemma filter_filter_le (q : A -> bool) (l : list A) :
  (List.length (filter p (filter q l)) <= List.length (filter p l))%nat.
Proof.
  induction l as [|t l IH]; simpl; [lia|].
  destruct (q t); simpl; destruct (p t); simpl; lia.
Qed.

Lemma filter_update_first_le1 (q : A -> bool) (g : A -> A) (l : list A) :
  (List.length (filter p (update_first q g l)) <= S (List.length (filter p l)))%nat.
Proof.
  induction l as [|t l IH]; simpl; [lia|].
  destruct (q t); simpl.
  - destruct (p (g t)); destruct (p t); simpl; lia.
  - destruct (p t); simpl; lia.
Qed.

Lemma filter_update_first_le (q : A -> bool) (g : A -> A) (l : list A) :
  (forall t, q t = true -> p (g t) = true -> p t = true) ->
  (List.length (filter p (update_first q g l)) <= List.length (filter p l))%nat.
Proof.
  intros Hg. induction l as [|t l IH]; simpl; [lia|].
  destruct (q t) eqn:Hq; simpl.
  - destruct (p (g t)) eqn:Hpg.
    + rewrite (Hg t Hq Hpg). simpl. lia.
    + destruct (p t); simpl; lia.
  - destruct (p t); simpl; lia.
Qed.

Lemma filter_remove_first_le (q : A -> bool) (l : list A) : forall l',
  remove_first q l = Some l' ->
  (List.length (filter p l') <= List.length (filter p l))%nat.
Proof.
  induction l as [|t l IH]; intros l' H; simpl in *; [discriminate|].
  destruct (q t).
  - injection H as <-. destruct (p t); simpl; lia.
  - destruct (remove_first q l) as [r|]; [|discriminate].
    injection H as <-. specialize (IH r eq_refl).
    simpl. destruct (p t); simpl; lia.
Qed.

End FilterCounts.

Section PrimaryUnique.
Context {X : Collaborators}.

Lemma active_primary_inv u m t :
  active_primary_of u m t = true ->
  BiometricTemplate.user_id t = u
  /\ BiometricTemplate.biometric_type t = m
  /\ BiometricTemplate.is_active t = true
  /\ BiometricTemplate.is_primary t = true.
Proof.
  unfold active_primary_of. intros H.
  apply andb_true_iff in H. destruct H as [H Hp].
  apply andb_true_iff in H. destruct H as [H Ha].
  apply andb_true_iff in H. destruct H as [Hu Ht].
  apply Nat.eqb_eq in Hu.
  repeat split; auto.
  destruct (BiometricTemplate.biometric_type t), m; simpl in Ht;
    congruence.
Qed.

Lemma active_primary_other_user u m t :
  BiometricTemplate.user_id t <> u -> active_primary_of u m t = false.
Proof.
  intros Hne. unfold active_primary_of.
  apply Nat.eqb_neq in Hne. rewrite Hne. reflexivity.
Qed.

Lemma active_primary_not_primary u m t :
  BiometricTemplate.is_primary t = false -> active_primary_of u m t = false.
Proof. intros H. unfold active_primary_of. rewrite H. apply andb_false_r. Qed.

Lemma active_primary_not_active u m t :
  BiometricTemplate.is_active t = false -> active_primary_of u m t = false.
Proof.
  intros H. unfold active_primary_of. rewrite H.
  rewrite andb_false_r. reflexivity.
Qed.

(** Appending one row for [user_id] after a step [f] that leaves [user_id]
    (in modality [ty]) without active primary rows and never creates one. *)
Lemma primary_unique_step user_id ty (f : BiometricTemplate.t -> BiometricTemplate.t)
    (new_template : BiometricTemplate.t) rows :
  BiometricTemplate.user_id new_template = user_id ->
  BiometricTemplate.biometric_type new_template = ty ->
  (forall t, active_primary_of user_id ty (f t) = false) ->
  (forall u m t, active_primary_of u m (f t) = true ->
                 active_primary_of u m t = true) ->
  primary_unique rows ->
  primary_unique (map f rows ++ [new_template]).
Proof.
  intros Hu Hty Hnone Hmono Huniq u m.
  rewrite filter_app, length_app.
  destruct (active_primary_of u m new_template) eqn:Hnew.
  - apply active_primary_inv in Hnew. destruct Hnew as (Hu' & Hm' & _).
    assert (u = user_id) as -> by congruence.
    assert (m = ty) as -> by congruence.
    rewrite filter_map_none by exact Hnone. simpl.
    destruct (active_primary_of user_id ty new_template); simpl; lia.
  - simpl. rewrite Hnew. simpl.
    pose proof (filter_map_le (active_primary_of u m) f rows (Hmono u m)).
    specialize (Huniq u m). lia.
Qed.

Lemma enroll_biometric_primary user_id video_data rows :
  primary_unique rows ->
  primary_unique (snd (BiometricService.enroll_biometric user_id video_data rows)).
Proof.
  intros Huniq. unfold BiometricService.enroll_biometric.
  destruct (b64decode video_data) as [vb|]; [|exact Huniq].
  destruct (extract_frames vb) as [|fr frs]; [exact Huniq|].
  destruct (BiometricService.select_best (fr :: frs) None 0 false)
    as [[[encoding|] q] fd]; [|exact Huniq].
  simpl. apply primary_unique_step with (user_id := user_id) (ty := FACE);
    auto.
  - intros t.
    destruct (Nat.eqb (BiometricTemplate.user_id t) user_id) eqn:Hu; simpl.
    + destruct (BiometricTemplate.is_primary t) eqn:Hp.
      * apply active_primary_not_primary. reflexivity.
      * apply active_primary_not_primary. exact Hp.
    + apply active_primary_other_user. apply Nat.eqb_neq. exact Hu.
  - intros u m t.
    destruct (Nat.eqb (BiometricTemplate.user_id t) user_id
              && BiometricTemplate.is_primary t); [|auto].
    rewrite active_primary_not_primary by reflexivity. discriminate.
Qed.

Lemma enroll_fingerprint_primary user_id fingerprint_data rows :
  primary_unique rows ->
  primary_unique
    (snd (FingerprintService.enroll_fingerprint user_id fingerprint_data rows)).
Proof.
  intros Huniq. unfold FingerprintService.enroll_fingerprint.
  destruct (b64decode fingerprint_data) as [fb|]; [|exact Huniq].
  simpl. apply primary_unique_step with (user_id := user_id) (ty := FINGERPRINT);
    auto.
  - intros t.
    destruct (FingerprintService.active_fingerprint_of user_id t) eqn:Hsel.
    + apply active_primary_not_primary. reflexivity.
    + destruct (active_primary_of user_id FINGERPRINT t) eqn:Hp; [|reflexivity].
      apply active_primary_inv in Hp. destruct Hp as (Hu & Hm & Ha & _).
      unfold FingerprintService.active_fingerprint_of in Hsel.
      rewrite Hu, Hm, Ha, Nat.eqb_refl in Hsel. discriminate.
  - intros u m t.
    destruct (FingerprintService.active_fingerprint_of user_id t); [|auto].
    rewrite active_primary_not_primary by reflexivity. discriminate.
Qed.

Lemma replace_existing_block_primary enrollment_data current_user rows rows0 :
  primary_unique rows ->
  Router.replace_existing_block enrollment_data current_user rows = Some rows0 ->
  primary_unique rows0.
Proof.
  intros Huniq. unfold Router.replace_existing_block.
  destruct (BiometricEnrollment.replace_existing enrollment_data);
    [|intros [= <-]; exact Huniq].
  destruct (BiometricEnrollment.biometric_type enrollment_data) as [ty|];
    [|discriminate].
  destruct (String.eqb ty "face").
  - intros [= <-]. intros u m.
    eapply Nat.le_trans; [apply filter_map_le | apply Huniq].
    intros t.
    destruct (Nat.eqb (BiometricTemplate.user_id t) current_user); [|auto].
    rewrite active_primary_not_active by reflexivity. discriminate.
  - destruct (String.eqb ty "fingerprint"); intros [= <-]; [|exact Huniq].
    intros u m. simpl.
    eapply Nat.le_trans; [apply filter_filter_le | apply Huniq].
Qed.

Lemma enroll_endpoint_primary enrollment_data current_user db :
  primary_unique (templates db) ->
  primary_unique
    (templates (snd (Router.enroll_biometric enrollment_data current_user db))).
Proof.
  intros Huniq.
  pose proof (replace_existing_block_primary enrollment_data current_user
                (templates db)) as H0.
  unfold Router.enroll_biometric.
  destruct (Router.replace_existing_block enrollment_data current_user
              (templates db)) as [rows|]; [|exact Huniq].
  specialize (H0 rows Huniq eq_refl).
  destruct (BiometricEnrollment.biometric_type enrollment_data) as [ty|];
    [|exact H0].
  destruct (String.eqb ty "face").
  - destruct (String.eqb (BiometricEnrollment.video_data enrollment_data) "");
      [exact H0|].
    pose proof (enroll_biometric_primary current_user
                  (BiometricEnrollment.video_data enrollment_data) rows H0) as H1.
    destruct (BiometricService.enroll_biometric current_user _ rows). exact H1.
  - destruct (String.eqb ty "fingerprint"); [|exact H0].
    destruct (BiometricEnrollment.fingerprint_data enrollment_data) as [fd|];
      [|exact H0].
    destruct (String.eqb fd ""); [exact H0|].
    pose proof (enroll_fingerprint_primary current_user fd rows H0) as H1.
    destruct (FingerprintService.enroll_fingerprint current_user fd rows).
    exact H1.
Qed.

Lemma delete_endpoint_primary template_id current_user db :
  primary_unique (templates db) ->
  primary_unique
    (templates (snd (Router.delete_biometric_template template_id current_user db))).
Proof.
  intros Huniq.
  unfold Router.delete_biometric_template, BiometricService.delete_template.
  destruct (remove_first _ (templates db)) as [rows'|] eqn:Hrm; simpl;
    [|exact Huniq].
  assert (primary_unique rows') as H'.
  { intros u m. eapply Nat.le_trans; [|apply (Huniq u m)].
    eapply filter_remove_first_le. exact Hrm. }
  destruct (filter BiometricTemplate.is_active
              (BiometricService.get_user_templates current_user rows'));
    exact H'.
Qed.

Lemma set_primary_endpoint_primary template_id current_user db :
  primary_unique (templates db) ->
  primary_unique
    (templates (snd (Router.set_primary_template template_id current_user db))).
Proof.
  intros Huniq. unfold Router.set_primary_template.
  destruct (find _ (BiometricService.get_user_templates current_user (templates db)))
    as [target|]; [|exact Huniq].
  destruct (negb (BiometricTemplate.is_active target)); [exact Huniq|].
  simpl. intros u m.
  destruct (Nat.eq_dec u current_user) as [->|Hne].
  - eapply Nat.le_trans; [apply filter_update_first_le1|].
    rewrite filter_map_none; [simpl; lia|].
    intros t.
    destruct (Nat.eqb (BiometricTemplate.user_id t) current_user) eqn:Hu.
    + apply active_primary_not_primary. reflexivity.
    + apply active_primary_other_user. apply Nat.eqb_neq. exact Hu.
  - eapply Nat.le_trans; [apply filter_update_first_le|].
    + intros t Hq Hp. apply active_primary_inv in Hp. destruct Hp as (Hu & _).
      simpl in Hu. apply andb_true_iff in Hq. destruct Hq as [_ Hq].
      apply Nat.eqb_eq in Hq. congruence.
    + eapply Nat.le_trans; [apply filter_map_le | apply (Huniq u m)].
      intros t.
      destruct (Nat.eqb (BiometricTemplate.user_id t) current_user); [|auto].
      rewrite active_primary_not_primary by reflexivity. discriminate.
Qed.

Lemma handle_primary r db :
  primary_unique (templates db) ->
  primary_unique (templates (Router.handle r db)).
Proof.
  destruct r; simpl.
  - apply enroll_endpoint_primary.
  - apply delete_endpoint_primary.
  - apply set_primary_endpoint_primary.
Qed.

(** C3. Primary uniqueness is an invariant of the lifecycle: from a table in
    which every (user, modality) has at most one active primary template,
    any sequence of enroll requests (face or fingerprint, with or without
    replace-existing), set-primary requests and delete requests leads to a
    table with the same property. *)
Theorem primary_uniqueness_preserved (requests : list Router.request) (db : Db) :
  primary_unique (templates db) ->
  primary_unique (templates (Router.run requests db)).
Proof.
  unfold Router.run. revert db.
  induction requests as [|r rs IH]; intros db Huniq; simpl; [exact Huniq|].
  apply IH, handle_primary, Huniq.
Qed.

End PrimaryUnique.

Lemma primary_uniqueness_preserved_witness :
  primary_unique
    (templates
       (Router.run
          (X := sample_collaborators [Some [1; 0]] (fun _ => Some [1; 0]))
          [Router.Enroll 1
             (BiometricEnrollment.mk (Some "face"%string) "dg==" None false);
           Router.Enroll 1
             (BiometricEnrollment.mk (Some "fingerprint"%string) ""
                (Some "YQ=="%string) false);
           Router.SetPrimary 1 4]
          (mkDb [sample_template 4 1 FACE []] [User.mk 1 true]))).
Proof.
  apply (primary_uniqueness_preserved
           (X := sample_collaborators [Some [1; 0]] (fun _ => Some [1; 0]))).
  intros u m. simpl.
  destruct (active_primary_of u m (sample_template 4 1 FACE [])); simpl; lia.
Defined.

(** ** Invariant C: the enrollment flag *)

Section EnrollmentFlag.
Context {X : Collaborators}.

Lemma has_active_template_filter user_id rows :
  filter BiometricTemplate.is_active
    (BiometricService.get_user_templates user_id rows) = []
  <-> has_active_template user_id rows = false.
Proof.
  unfold BiometricService.get_user_templates, has_active_template.
  induction rows as [|t rows IH]; simpl; [tauto|].
  destruct (Nat.eqb (BiometricTemplate.user_id t) user_id); simpl; [|exact IH].
  destruct (BiometricTemplate.is_active t); simpl; [|exact IH].
  split; discriminate.
Qed.

Lemma remove_first_other_user (q : BiometricTemplate.t -> bool) u rows :
  forall rows',
  (forall t, q t = true -> BiometricTemplate.user_id t <> u) ->
  remove_first q rows = Some rows' ->
  has_active_template u rows' = has_active_template u rows.
Proof.
  induction rows as [|t rows IH]; intros rows' Hq H; simpl in H; [discriminate|].
  destruct (q t) eqn:Hqt.
  - injection H as <-. simpl.
    apply Hq in Hqt. apply Nat.eqb_neq in Hqt. rewrite Hqt. reflexivity.
  - destruct (remove_first q rows) as [r|]; [|discriminate].
    injection H as <-. simpl. rewrite (IH r Hq eq_refl). reflexivity.
Qed.

Lemma remove_first_active (q : BiometricTemplate.t -> bool) u rows :
  forall rows',
  remove_first q rows = Some rows' ->
  has_active_template u rows' = true -> has_active_template u rows = true.
Proof.
  induction rows as [|t rows IH]; intros rows' H Ha; simpl in H; [discriminate|].
  destruct (q t).
  - injection H as <-. simpl. rewrite Ha. apply orb_true_r.
  - destruct (remove_first q rows) as [r|]; [|discriminate].
    injection H as <-. simpl in *.
    apply orb_true_iff in Ha. apply orb_true_iff.
    destruct Ha as [Ha|Ha]; [left; exact Ha | right; eapply IH; eauto].
Qed.

(** The delete endpoint recomputes the flag: it keeps Invariant C. *)
Lemma delete_endpoint_flag template_id current_user db :
  enrollment_flag_consistent db ->
  enrollment_flag_consistent
    (snd (Router.delete_biometric_template template_id current_user db)).
Proof.
  intros Hcons.
  unfold Router.delete_biometric_template, BiometricService.delete_template.
  destruct (remove_first _ (templates db)) as [rows'|] eqn:Hrm; simpl;
    [|exact Hcons].
  assert (forall u, u <> current_user ->
            has_active_template u rows' = has_active_template u (templates db))
    as Hother.
  { intros u Hu. eapply remove_first_other_user; [|exact Hrm].
    intros t Hq. apply andb_true_iff in Hq. destruct Hq as [_ Hq].
    apply Nat.eqb_eq in Hq. congruence. }
  destruct (filter BiometricTemplate.is_active
              (BiometricService.get_user_templates current_user rows'))
    as [|a l] eqn:Hf.
  - apply has_active_template_filter in Hf.
    intros u Hin. simpl in *. unfold Router.set_is_enrolled in Hin.
    apply in_map_iff in Hin. destruct Hin as (u0 & <- & Hin0).
    destruct (Nat.eqb (User.id u0) current_user) eqn:Hid; simpl.
    + apply Nat.eqb_eq in Hid. rewrite Hid, Hf. reflexivity.
    + apply Nat.eqb_neq in Hid. rewrite Hother by exact Hid.
      apply Hcons. exact Hin0.
  - assert (has_active_template current_user rows' = true) as Hact.
    { destruct (has_active_template current_user rows') eqn:E; [reflexivity|].
      apply has_active_template_filter in E. rewrite E in Hf. discriminate. }
    intros u Hin. simpl in *.
    destruct (Nat.eq_dec (User.id u) current_user) as [Hid|Hid].
    + rewrite (Hcons u Hin), Hid, Hact.
      eapply remove_first_active; eauto.
    + rewrite Hother by exact Hid. apply Hcons. exact Hin.
Qed.

End EnrollmentFlag.

(** The body of the endpoint past the attribute read.  Were a request object
    to carry [biometric_type] (none of the schema class does), the
    replace-existing block would run before the enrollment: user 1 has one
    active face template and a consistent flag; a face request with
    replace_existing set, whose video yields no frames, deactivates the
    template and then fails, and the user is left with no active template
    while is_enrolled is still true.  The same when the request is rejected
    for an empty video.  This is why the statements below that cover such
    requests ask for replace_existing to be off. *)
Remark replace_block_then_failed_enrollment :
  enrollment_flag_consistent enrolled_face_db
  /\ Router.enroll_biometric
       (X := sample_collaborators [] (fun _ => None))
       (BiometricEnrollment.mk (Some "face"%string) "dg==" None true)
       1 enrolled_face_db
     = (Ok (BiometricService.failure "No frames could be extracted from video"
              false None None),
        mkDb [BiometricTemplate.set_is_active false (sample_template 4 1 FACE [])]
             [User.mk 1 true])
  /\ Router.enroll_biometric
       (X := sample_collaborators [] (fun _ => None))
       (BiometricEnrollment.mk (Some "face"%string) "" None true)
       1 enrolled_face_db
     = (HTTPException 400 "Video data required for face enrollment",
        mkDb [BiometricTemplate.set_is_active false (sample_template 4 1 FACE [])]
             [User.mk 1 true])
  /\ ~ enrollment_flag_consistent
         (mkDb [BiometricTemplate.set_is_active false (sample_template 4 1 FACE [])]
               [User.mk 1 true]).
Proof.
  split; [|split; [|split]].
  - intros u [<-|[]]. reflexivity.
  - reflexivity.
  - reflexivity.
  - intros H. specialize (H (User.mk 1 true) (or_introl eq_refl)).
    discriminate.
Qed.

(** * Further properties of the services *)

(** ** The frame cap of [extract_frames] *)

Lemma read_frames_spec {A B : Type} (cvtColor : A -> B) (cap : list A) :
  forall frames,
  (List.length frames < 30)%nat ->
  read_frames cvtColor cap frames
  = frames ++ map cvtColor (firstn (30 - List.length frames) cap).
Proof.
  induction cap as [|frame cap IH]; intros frames Hlen; cbn [read_frames].
  - rewrite firstn_nil. cbn [map]. rewrite app_nil_r. reflexivity.
  - assert (List.length (frames ++ [cvtColor frame])
            = S (List.length frames)) as Hl
      by (rewrite length_app; cbn [List.length]; lia).
    rewrite Hl.
    destruct (Nat.leb 30 (S (List.length frames))) eqn:Hcap.
    + apply Nat.leb_le in Hcap.
      replace (30 - List.length frames)%nat with 1%nat by lia.
      reflexivity.
    + apply Nat.leb_gt in Hcap.
      rewrite IH by (rewrite Hl; lia).
      rewrite Hl.
      replace (30 - List.length frames)%nat
        with (S (30 - S (List.length frames)))%nat by lia.
      cbn [firstn map]. rewrite <- app_assoc. reflexivity.
Qed.

(** X1. The capture loop returns the first 30 frames of the video, colour
    converted and in order, and all of them when the video is shorter: never
    more than 30 frames are handed to detection. *)
Theorem read_frames_cap {A B : Type} (cvtColor : A -> B) (cap : list A) :
  read_frames cvtColor cap [] = map cvtColor (firstn 30 cap)
  /\ (List.length (read_frames cvtColor cap []) <= 30)%nat
  /\ List.length (read_frames cvtColor cap [])
     = Nat.min 30 (List.length cap).
Proof.
  assert (read_frames cvtColor cap [] = map cvtColor (firstn 30 cap)) as H.
  { rewrite read_frames_spec by (cbn [List.length]; lia). reflexivity. }
  rewrite H, length_map, length_firstn. repeat split; lia.
Qed.

(** ** Quality-based selection at face enrollment *)

Section FaceEnrollment.
Context {X : Collaborators}.

Lemma candidates_cons fr rest :
  candidates (fr :: rest) = candidates [fr] ++ candidates rest.
Proof. unfold candidates. simpl. rewrite app_nil_r. reflexivity. Qed.

Lemma select_best_cons fr rest be bq fd :
  BiometricService.select_best (fr :: rest) be bq fd
  = match candidates [fr] with
    | (encoding, quality) :: _ =>
        if Rlt_dec bq quality
        then BiometricService.select_best rest (Some encoding) quality true
        else BiometricService.select_best rest be bq true
    | [] =>
        BiometricService.select_best rest be bq
          (match detect_faces fr with [] => fd | _ :: _ => true end)
    end.
Proof.
  unfold candidates. simpl.
  destruct (detect_faces fr) as [|loc locs]; [reflexivity|].
  destruct (extract_face_encoding fr loc); reflexivity.
Qed.

Lemma candidates_single fr :
  candidates [fr] = [] \/ exists e q, candidates [fr] = [(e, q)].
Proof.
  unfold candidates. simpl.
  destruct (detect_faces fr) as [|loc locs]; [left; reflexivity|].
  destruct (extract_face_encoding fr loc) as [e|];
    [right; eexists; eexists; reflexivity | left; reflexivity].
Qed.

(** What the selection loop hands back: the largest quality seen, and either
    the encoding it started with or the first candidate of that quality. *)
Lemma select_best_spec frames : forall be bq fd be' bq' fd',
  BiometricService.select_best frames be bq fd = (be', bq', fd') ->
  bq <= bq'
  /\ (forall k e q, nth_error (candidates frames) k = Some (e, q) -> q <= bq')
  /\ ((be' = be /\ bq' = bq)
      \/ exists k e,
           be' = Some e /\ nth_error (candidates frames) k = Some (e, bq')
           /\ bq < bq'
           /\ forall k' e' q', (k' < k)%nat ->
                nth_error (candidates frames) k' = Some (e', q') -> q' < bq').
Proof.
  induction frames as [|fr rest IH]; intros be bq fd be' bq' fd' Hrun.
  - simpl in Hrun. injection Hrun as <- <- <-.
    split; [lra|]. split; [|left; auto].
    intros [|k] e q Hn; discriminate.
  - rewrite select_best_cons in Hrun. rewrite candidates_cons.
    destruct (candidates_single fr) as [Hnone | (e0 & q0 & Hone)].
    + rewrite Hnone in *. simpl. eapply IH; eauto.
    + rewrite Hone in *. simpl.
      destruct (Rlt_dec bq q0) as [Hlt|Hge].
      * apply IH in Hrun. destruct Hrun as (Hle & Hall & Hw).
        split; [lra|]. split.
        -- intros [|k] e q Hn; simpl in Hn.
           ++ injection Hn as <- <-. lra.
           ++ eapply Hall; eauto.
        -- right. destruct Hw as [[-> ->] | (k & e & -> & Hn & Hb & Hfirst)].
           ++ exists 0%nat, e0. repeat split; auto. intros k' e' q' Hk. lia.
           ++ exists (S k), e. repeat split; auto; [lra|].
              intros [|k'] e' q' Hk Hn'; simpl in Hn'.
              ** injection Hn' as <- <-. lra.
              ** eapply Hfirst; eauto. lia.
      * apply IH in Hrun. destruct Hrun as (Hle & Hall & Hw).
        split; [lra|]. split.
        -- intros [|k] e q Hn; simpl in Hn.
           ++ injection Hn as <- <-. lra.
           ++ eapply Hall; eauto.
        -- destruct Hw as [[-> ->] | (k & e & -> & Hn & Hb & Hfirst)];
             [left; auto|].
           right. exists (S k), e. repeat split; auto.
           intros [|k'] e' q' Hk Hn'; simpl in Hn'.
           ** injection Hn' as <- <-. lra.
           ** eapply Hfirst; eauto. lia.
Qed.

End FaceEnrollment.

Section FaceEnrollmentOutcome.
Context {X : Collaborators}.

(** The ways [enroll_biometric] can go. *)
Lemma enroll_biometric_cases user_id video_data rows :
  (BiometricResult.success
     (fst (BiometricService.enroll_biometric user_id video_data rows)) = false
   /\ BiometricResult.template_id
        (fst (BiometricService.enroll_biometric user_id video_data rows)) = None
   /\ snd (BiometricService.enroll_biometric user_id video_data rows) = rows
   /\ (b64decode video_data = None
       \/ exists video_bytes bq fd,
            b64decode video_data = Some video_bytes
            /\ BiometricService.select_best (extract_frames video_bytes)
                 None 0 false = (None, bq, fd)))
  \/ exists video_bytes encoding quality fd,
       b64decode video_data = Some video_bytes
       /\ BiometricService.select_best (extract_frames video_bytes) None 0 false
          = (Some encoding, quality, fd)
       /\ BiometricService.enroll_biometric user_id video_data rows
          = (BiometricResult.mk true "Biometric template enrolled successfully"
               None None true (Some quality) (Some (next_id rows)),
             map (demoted user_id) rows
             ++ [BiometricTemplate.mk (next_id rows) user_id FACE
                   (encrypt_data encoding) quality (9 / 10) true true
                   0%nat None]).
Proof.
  unfold BiometricService.enroll_biometric.
  destruct (b64decode video_data) as [vb|] eqn:Hd;
    [|left; repeat split; left; reflexivity].
  destruct (extract_frames vb) as [|fr frs] eqn:Hf.
  - left. repeat split. right. exists vb, 0, false. rewrite Hf.
    split; reflexivity.
  - destruct (BiometricService.select_best (fr :: frs) None 0 false)
      as [[[encoding|] q] fd] eqn:Hs.
    + right. exists vb, encoding, q, fd. rewrite Hf. repeat split. exact Hs.
    + left. repeat split. right. exists vb, q, fd. rewrite Hf.
      split; [reflexivity | exact Hs].
Qed.

(** X2. A successful face enrollment stores the encoding of the first frame
    whose quality is the highest among all frames that yielded an encoding;
    that quality is positive, is the one reported, and is the one stored. *)
Theorem enroll_biometric_selects_best user_id video_data rows :
  BiometricResult.success
    (fst (BiometricService.enroll_biometric user_id video_data rows)) = true ->
  exists video_bytes k encoding quality new_template,
    b64decode video_data = Some video_bytes
    /\ nth_error (candidates (extract_frames video_bytes)) k
       = Some (encoding, quality)
    /\ 0 < quality
    /\ (forall k' e' q',
          nth_error (candidates (extract_frames video_bytes)) k' = Some (e', q') ->
          q' <= quality)
    /\ (forall k' e' q', (k' < k)%nat ->
          nth_error (candidates (extract_frames video_bytes)) k' = Some (e', q') ->
          q' < quality)
    /\ BiometricResult.quality_score
         (fst (BiometricService.enroll_biometric user_id video_data rows))
       = Some quality
    /\ snd (BiometricService.enroll_biometric user_id video_data rows)
       = map (demoted user_id) rows ++ [new_template]
    /\ BiometricTemplate.template_data new_template = encrypt_data encoding
    /\ BiometricTemplate.quality_score new_template = quality.
Proof.
  intros Hok.
  destruct (enroll_biometric_cases user_id video_data rows)
    as [(Hfail & _) | (vb & e & q & fd & Hd & Hs & Heq)];
    [rewrite Hfail in Hok; discriminate|].
  apply select_best_spec in Hs. destruct Hs as (Hle & Hall & Hw).
  destruct Hw as [[Hbe _] | (k & e' & He & Hn & Hpos & Hfirst)];
    [discriminate|].
  injection He as <-.
  exists vb, k, e, q. eexists. rewrite Heq. simpl.
  repeat split; eauto.
Qed.

(** X3. Face enrollment fails closed: when the payload does not decode, or no
    frame yields an encoding of positive quality (no frames, no faces, no
    encodings, or only qualities of 0.0), the call reports failure with no
    template id and the table is left as it was. *)
Theorem enroll_biometric_fails_closed user_id video_data rows :
  (b64decode video_data = None
   \/ exists video_bytes,
        b64decode video_data = Some video_bytes
        /\ forall e q, In (e, q) (candidates (extract_frames video_bytes)) ->
                       q <= 0) ->
  BiometricResult.success
    (fst (BiometricService.enroll_biometric user_id video_data rows)) = false
  /\ BiometricResult.template_id
       (fst (BiometricService.enroll_biometric user_id video_data rows)) = None
  /\ snd (BiometricService.enroll_biometric user_id video_data rows) = rows.
Proof.
  intros Hbad.
  destruct (enroll_biometric_cases user_id video_data rows)
    as [(H1 & H2 & H3 & _) | (vb & e & q & fd & Hd & Hs & Heq)];
    [auto|].
  exfalso. destruct Hbad as [Hnone | (vb' & Hd' & Hall)]; [congruence|].
  rewrite Hd in Hd'. injection Hd' as <-.
  apply select_best_spec in Hs. destruct Hs as (_ & _ & Hw).
  destruct Hw as [[Hbe _] | (k & e' & _ & Hn & Hpos & _)]; [discriminate|].
  apply nth_error_In in Hn. apply Hall in Hn. lra.
Qed.

(** X4. What a successful face enrollment does to the table: one template is
    appended -- a FACE template of the user, active, primary, unused, whose id
    is the one reported -- and it is afterwards the only primary template of
    that user in any modality; no existing template changes its active flag,
    and templates of other users are not changed at all. *)
Theorem enroll_biometric_effect user_id video_data rows :
  BiometricResult.success
    (fst (BiometricService.enroll_biometric user_id video_data rows)) = true ->
  exists olds new_template,
    snd (BiometricService.enroll_biometric user_id video_data rows)
    = olds ++ [new_template]
    /\ BiometricResult.template_id
         (fst (BiometricService.enroll_biometric user_id video_data rows))
       = Some (BiometricTemplate.id new_template)
    /\ BiometricTemplate.user_id new_template = user_id
    /\ BiometricTemplate.biometric_type new_template = FACE
    /\ BiometricTemplate.is_active new_template = true
    /\ BiometricTemplate.is_primary new_template = true
    /\ BiometricTemplate.verification_count new_template = 0%nat
    /\ (forall t, In t olds -> BiometricTemplate.user_id t = user_id ->
                  BiometricTemplate.is_primary t = false)
    /\ map BiometricTemplate.is_active olds
       = map BiometricTemplate.is_active rows
    /\ Forall2 (fun t t' => BiometricTemplate.user_id t <> user_id -> t' = t)
         rows olds.
Proof.
  intros Hok.
  destruct (enroll_biometric_cases user_id video_data rows)
    as [(Hfail & _) | (vb & e & q & fd & Hd & Hs & Heq)];
    [rewrite Hfail in Hok; discriminate|].
  rewrite Heq. simpl.
  eexists. eexists. split; [reflexivity|]. simpl.
  repeat split.
  - intros t Hin Hu. apply in_map_iff in Hin. destruct Hin as (t0 & <- & _).
    unfold demoted in *.
    destruct (Nat.eqb (BiometricTemplate.user_id t0) user_id
              && BiometricTemplate.is_primary t0) eqn:Hc; [reflexivity|].
    apply Nat.eqb_eq in Hu. rewrite Hu in Hc. exact Hc.
  - rewrite map_map. apply map_ext. intros t. unfold demoted.
    destruct (_ && _); reflexivity.
  - clear. induction rows as [|t rows IH]; constructor; [|exact IH].
    intros Hne. unfold demoted. apply Nat.eqb_neq in Hne. rewrite Hne.
    reflexivity.
Qed.

End FaceEnrollmentOutcome.

Lemma sample_face_enrollment_ok :
  BiometricResult.success
    (fst (BiometricService.enroll_biometric
            (X := sample_collaborators [None; Some [1; 0]] (fun _ => None))
            1 "dg==" [sample_template 4 1 FACE []])) = true.
Proof.
  unfold BiometricService.enroll_biometric. cbn -[Rlt_dec].
  destruct (Rlt_dec 0 1) as [_|H]; [reflexivity | exfalso; lra].
Qed.

Lemma enroll_biometric_selects_best_witness :
  exists quality,
    BiometricResult.quality_score
      (fst (BiometricService.enroll_biometric
              (X := sample_collaborators [None; Some [1; 0]] (fun _ => None))
              1 "dg==" [sample_template 4 1 FACE []])) = Some quality
    /\ 0 < quality.
Proof.
  destruct (enroll_biometric_selects_best
              (X := sample_collaborators [None; Some [1; 0]] (fun _ => None))
              1 "dg==" [sample_template 4 1 FACE []] sample_face_enrollment_ok)
    as (vb & k & e & q & new & _ & _ & Hpos & _ & _ & Hq & _).
  exists q. split; assumption.
Defined.

Lemma enroll_biometric_fails_closed_witness :
  snd (BiometricService.enroll_biometric
         (X := sample_collaborators [None] (fun _ => None))
         1 "dg==" [sample_template 4 1 FACE []])
  = [sample_template 4 1 FACE []].
Proof.
  apply (enroll_biometric_fails_closed
           (X := sample_collaborators [None] (fun _ => None))
           1 "dg==" [sample_template 4 1 FACE []]).
  right. exists ["v"%byte]. split; [reflexivity|].
  intros e q Hin. simpl in Hin. contradiction.
Defined.

Lemma enroll_biometric_effect_witness :
  exists olds new_template,
    snd (BiometricService.enroll_biometric
           (X := sample_collaborators [None; Some [1; 0]] (fun _ => None))
           1 "dg==" [sample_template 4 1 FACE []])
    = olds ++ [new_template]
    /\ BiometricTemplate.is_primary new_template = true.
Proof.
  destruct (enroll_biometric_effect
              (X := sample_collaborators [None; Some [1; 0]] (fun _ => None))
              1 "dg==" [sample_template 4 1 FACE []] sample_face_enrollment_ok)
    as (olds & new & Hrows & _ & _ & _ & _ & Hp & _).
  exists olds, new. split; assumption.
Defined.

(** ** Fingerprint enrollment and sample quality *)

Section FingerprintEnrollment.
Context {X : Collaborators}.

Lemma superseded_filter user_id rows :
  filter (FingerprintService.active_fingerprint_of user_id)
         (map (superseded user_id) rows) = [].
Proof. apply filter_map_none. apply superseded_not_selected. Qed.

(** X5. Fingerprint enrollment succeeds exactly when the payload decodes; a
    failed call leaves the table as it was.  A successful call appends one
    FINGERPRINT template of the user, primary, holding the encrypted digest
    vector of the sample, and that template is afterwards the user's only
    active fingerprint template; face templates of the user, inactive
    templates and templates of other users are not changed. *)
Theorem enroll_fingerprint_effect user_id fingerprint_data rows :
  let res :=
    FingerprintService.enroll_fingerprint user_id fingerprint_data rows in
  (BiometricResult.success (fst res) = true <->
   b64decode fingerprint_data <> None)
  /\ (BiometricResult.success (fst res) = false ->
      snd res = rows /\ BiometricResult.template_id (fst res) = None)
  /\ (BiometricResult.success (fst res) = true ->
      exists olds new_template fingerprint_bytes,
        snd res = olds ++ [new_template]
        /\ b64decode fingerprint_data = Some fingerprint_bytes
        /\ BiometricResult.template_id (fst res)
           = Some (BiometricTemplate.id new_template)
        /\ BiometricTemplate.user_id new_template = user_id
        /\ BiometricTemplate.biometric_type new_template = FINGERPRINT
        /\ BiometricTemplate.is_primary new_template = true
        /\ BiometricTemplate.template_data new_template
           = encrypt_data (map (fun b => INR (Byte.to_nat b) / 255)
                               (sha256 fingerprint_bytes))
        /\ filter (FingerprintService.active_fingerprint_of user_id) (snd res)
           = [new_template]
        /\ Forall2 (fun t t' =>
                      BiometricTemplate.user_id t <> user_id
                      \/ BiometricTemplate.biometric_type t = FACE
                      \/ BiometricTemplate.is_active t = false -> t' = t)
             rows olds).
Proof.
  intros res. subst res.
  destruct (b64decode fingerprint_data) as [fb|] eqn:Hd.
  - destruct (enroll_fingerprint_ok user_id fingerprint_data rows fb Hd)
      as (f & new & Hf & Hnew & Heq).
    rewrite Heq. simpl. split; [split; [discriminate | reflexivity]|].
    split; [discriminate|]. intros _.
    exists (map (superseded user_id) rows), new, fb.
    injection Hf as <-. subst new. simpl.
    repeat split.
    + rewrite filter_app, superseded_filter. simpl.
      unfold FingerprintService.active_fingerprint_of. simpl.
      rewrite Nat.eqb_refl. reflexivity.
    + clear. induction rows as [|t rows IH]; constructor; [|exact IH].
      intros Hcase. unfold superseded.
      destruct (FingerprintService.active_fingerprint_of user_id t) eqn:Hsel;
        [|reflexivity].
      exfalso. unfold FingerprintService.active_fingerprint_of in Hsel.
      apply andb_true_iff in Hsel. destruct Hsel as [Hsel Ha].
      apply andb_true_iff in Hsel. destruct Hsel as [Hu Ht].
      apply Nat.eqb_eq in Hu.
      destruct Hcase as [Hne | [Hface | Hin]]; [congruence | | congruence].
      rewrite Hface in Ht. discriminate.
  - unfold FingerprintService.enroll_fingerprint. rewrite Hd. simpl.
    split; [split; [discriminate | congruence]|].
    split; [auto | discriminate].
Qed.

Lemma count_occ_le_length (l : list nat) (v : nat) :
  (count_occ Nat.eq_dec l v <= List.length l)%nat.
Proof.
  induction l as [|x l IH]; simpl; [lia|].
  destruct (Nat.eq_dec x v); lia.
Qed.

Lemma ln_2_pos : 0 < ln 2.
Proof. pose proof ln_lt_2. lra. Qed.

Lemma entropy_nonneg (data : bytes) :
  0 <= FingerprintService._calculate_entropy data.
Proof.
  unfold FingerprintService._calculate_entropy.
  destruct data as [|b data]; [lra|].
  set (d := b :: data).
  assert (0 < INR (List.length d)) as Hlen
    by (apply lt_0_INR; simpl; lia).
  assert (forall vs acc, 0 <= acc ->
            0 <= fold_left
                   (fun entropy v =>
                      let p := INR (count_occ Nat.eq_dec (map Byte.to_nat d) v)
                               / INR (List.length d) in
                      if Rlt_dec 0 p then entropy - p * (ln p / ln 2)
                      else entropy) vs acc) as Hfold.
  { induction vs as [|v vs IH]; intros acc Hacc; [exact Hacc|].
    cbn [fold_left]. apply IH.
    set (p := INR (count_occ Nat.eq_dec (map Byte.to_nat d) v)
              / INR (List.length d)).
    cbv zeta. fold p.
    destruct (Rlt_dec 0 p) as [Hp|_]; [|exact Hacc].
    assert (p <= 1) as Hp1.
    { unfold p. apply Rmult_le_reg_r with (r := INR (List.length d));
        [exact Hlen|].
      unfold Rdiv. rewrite Rmult_assoc, Rinv_l by lra.
      rewrite Rmult_1_r, Rmult_1_l. apply le_INR.
      pose proof (count_occ_le_length (map Byte.to_nat d) v) as Hc.
      rewrite length_map in Hc. exact Hc. }
    assert (ln p <= 0) as Hln.
    { destruct (Req_dec_T p 1) as [->|Hne]; [rewrite ln_1; lra|].
      rewrite <- ln_1. left. apply ln_increasing; lra. }
    pose proof ln_2_pos as H2.
    assert (ln p / ln 2 <= 0) as Hq.
    { unfold Rdiv. apply Rmult_le_reg_r with (r := ln 2); [exact H2|].
      rewrite Rmult_assoc, Rinv_l by lra. lra. }
    nra. }
  apply Hfold. lra.
Qed.

(** X6. The quality of a fingerprint sample always lies in [0, 1]; the empty
    sample has quality 0, and every sample of at least 10000 bytes has
    quality at least 0.5. *)
Theorem fingerprint_quality_range (fingerprint_bytes : bytes) :
  0 <= FingerprintService.calculate_quality_score fingerprint_bytes <= 1
  /\ FingerprintService.calculate_quality_score [] = 0
  /\ (10000 <= INR (List.length fingerprint_bytes) ->
      1 / 2 <= FingerprintService.calculate_quality_score fingerprint_bytes).
Proof.
  unfold FingerprintService.calculate_quality_score.
  pose proof (entropy_nonneg fingerprint_bytes) as He.
  set (e := FingerprintService._calculate_entropy fingerprint_bytes) in *.
  assert (0 <= INR (List.length fingerprint_bytes)) as Hn by apply pos_INR.
  set (n := INR (List.length fingerprint_bytes)) in *.
  assert (0 <= Rmin 1 (n / 10000) <= 1) as Hs.
  { split; [apply Rmin_glb; lra | apply Rmin_l]. }
  assert (0 <= Rmin 1 (e / 8) <= 1) as Hen.
  { split; [apply Rmin_glb; lra | apply Rmin_l]. }
  split; [lra|]. split.
  - simpl. replace (0 / 10000) with 0 by lra. replace (0 / 8) with 0 by lra.
    rewrite Rmin_right by lra. lra.
  - intros Hbig. rewrite (Rmin_left 1 (n / 10000)) by lra. lra.
Qed.

End FingerprintEnrollment.

(** ** Deleting a template, choosing the primary *)

Section ListScans.
Context {A : Type}.

Lemma remove_first_spec (q : A -> bool) (l : list A) :
  match remove_first q l with
  | None => forall x, In x l -> q x = false
  | Some l' =>
      exists pre x post,
        l = pre ++ x :: post /\ l' = pre ++ post /\ q x = true
        /\ forall y, In y pre -> q y = false
  end.
Proof.
  induction l as [|a l IH]; simpl; [intros x []|].
  destruct (q a) eqn:Hq.
  - exists [], a, l. repeat split; auto. intros y [].
  - destruct (remove_first q l) as [r|].
    + destruct IH as (pre & x & post & -> & -> & Hx & Hpre).
      exists (a :: pre), x, post. repeat split; auto.
      intros y [<-|Hy]; auto.
    + intros x [<-|Hx]; auto.
Qed.

Lemma find_split (q : A -> bool) (l : list A) :
  match find q l with
  | None => forall x, In x l -> q x = false
  | Some x =>
      exists pre post,
        l = pre ++ x :: post /\ q x = true /\ forall y, In y pre -> q y = false
  end.
Proof.
  induction l as [|a l IH]; simpl; [intros x []|].
  destruct (q a) eqn:Hq.
  - exists [], l. repeat split; auto. intros y [].
  - destruct (find q l) as [x|].
    + destruct IH as (pre & post & -> & Hx & Hpre).
      exists (a :: pre), post. repeat split; auto.
      intros y [<-|Hy]; auto.
    + intros x [<-|Hx]; auto.
Qed.

Lemma find_filter (q p : A -> bool) (l : list A) :
  (forall x, q x = true -> p x = true) -> find q (filter p l) = find q l.
Proof.
  intros Hqp. induction l as [|a l IH]; simpl; [reflexivity|].
  destruct (p a) eqn:Hp; simpl.
  - destruct (q a); [reflexivity | exact IH].
  - destruct (q a) eqn:Hq; [|exact IH].
    apply Hqp in Hq. congruence.
Qed.

Lemma update_first_split (q : A -> bool) (g : A -> A) pre x post :
  q x = true -> (forall y, In y pre -> q y = false) ->
  update_first q g (pre ++ x :: post) = pre ++ g x :: post.
Proof.
  intros Hx Hpre. induction pre as [|a pre IH]; simpl.
  - rewrite Hx. reflexivity.
  - rewrite (Hpre a (or_introl eq_refl)).
    rewrite IH by (intros y Hy; apply Hpre; right; exact Hy). reflexivity.
Qed.

End ListScans.

Section TemplateEndpoints.
Context {X : Collaborators}.

(** X7. [delete_template] fails closed: when no template with the given id
    belongs to the given user -- for instance when the id is another user's
    template -- it returns False and leaves the table as it was; otherwise it
    returns True and removes exactly one row, the first template with that
    id owned by that user, and nothing else. *)
Theorem delete_template_spec template_id user_id rows :
  let res := BiometricService.delete_template template_id user_id rows in
  (fst res = false ->
   snd res = rows
   /\ forall t, In t rows ->
        ~ (BiometricTemplate.id t = template_id
           /\ BiometricTemplate.user_id t = user_id))
  /\ (fst res = true ->
      exists pre t post,
        rows = pre ++ t :: post /\ snd res = pre ++ post
        /\ BiometricTemplate.id t = template_id
        /\ BiometricTemplate.user_id t = user_id
        /\ forall y, In y pre ->
             ~ (BiometricTemplate.id y = template_id
                /\ BiometricTemplate.user_id y = user_id)).
Proof.
  intros res. subst res. unfold BiometricService.delete_template.
  set (q := fun t => Nat.eqb (BiometricTemplate.id t) template_id
                     && Nat.eqb (BiometricTemplate.user_id t) user_id).
  assert (forall t, q t = false ->
            ~ (BiometricTemplate.id t = template_id
               /\ BiometricTemplate.user_id t = user_id)) as Hq.
  { intros t Hf [Hi Hu]. unfold q in Hf.
    rewrite Hi, Hu, !Nat.eqb_refl in Hf. discriminate. }
  pose proof (remove_first_spec q rows) as Hspec.
  destruct (remove_first q rows) as [rows'|]; simpl.
  - split; [discriminate|]. intros _.
    destruct Hspec as (pre & t & post & Hrows & Hrows' & Ht & Hpre).
    exists pre, t, post. unfold q in Ht.
    apply andb_true_iff in Ht. destruct Ht as [Hi Hu].
    apply Nat.eqb_eq in Hi. apply Nat.eqb_eq in Hu.
    repeat split; auto.
  - split; [|discriminate]. intros _. split; [reflexivity|].
    intros t Hin. apply Hq, Hspec, Hin.
Qed.

(** X8. The set-primary endpoint: it answers 404 exactly when no template
    with that id belongs to the user and 400 when the first such template is
    inactive, and changes nothing in either case.  Otherwise the first such
    template becomes primary and is afterwards the only primary template of
    the user in any modality; only primary flags change, templates of other
    users and the users table stay as they were. *)
Theorem set_primary_template_spec template_id current_user db :
  let res := Router.set_primary_template template_id current_user db in
  let owned t := BiometricTemplate.id t = template_id
                 /\ BiometricTemplate.user_id t = current_user in
  (forall code detail, fst res = HTTPException code detail ->
     snd res = db
     /\ ((code = 404%nat /\ forall t, In t (templates db) -> ~ owned t)
         \/ (code = 400%nat
             /\ exists pre t post,
                  templates db = pre ++ t :: post /\ owned t
                  /\ (forall y, In y pre -> ~ owned y)
                  /\ BiometricTemplate.is_active t = false)))
  /\ (forall body, fst res = Ok body ->
      users (snd res) = users db
      /\ exists pre t post pre' post',
           templates db = pre ++ t :: post /\ owned t
           /\ (forall y, In y pre -> ~ owned y)
           /\ BiometricTemplate.is_active t = true
           /\ templates (snd res)
              = pre' ++ BiometricTemplate.set_is_primary true t :: post'
           /\ Forall2 (fun y y' =>
                         (BiometricTemplate.user_id y = current_user ->
                          y' = BiometricTemplate.set_is_primary false y)
                         /\ (BiometricTemplate.user_id y <> current_user ->
                             y' = y)) pre pre'
           /\ Forall2 (fun y y' =>
                         (BiometricTemplate.user_id y = current_user ->
                          y' = BiometricTemplate.set_is_primary false y)
                         /\ (BiometricTemplate.user_id y <> current_user ->
                             y' = y)) post post').
Proof.
  intros res owned. subst res. unfold Router.set_primary_template.
  set (q := fun t => Nat.eqb (BiometricTemplate.id t) template_id
                     && Nat.eqb (BiometricTemplate.user_id t) current_user).
  assert (forall t, q t = true <-> owned t) as Hq.
  { intros t. unfold q, owned. rewrite andb_true_iff, !Nat.eqb_eq. tauto. }
  assert (forall t, q t = false -> ~ owned t) as Hqf.
  { intros t Hf Ho. apply Hq in Ho. congruence. }
  unfold BiometricService.get_user_templates.
  rewrite (find_filter q) by
    (intros t Ht; unfold q in Ht; apply andb_true_iff in Ht; tauto).
  pose proof (find_split q (templates db)) as Hspec.
  destruct (find q (templates db)) as [target|].
  - destruct Hspec as (pre & post & Hrows & Ht & Hpre).
    destruct (BiometricTemplate.is_active target) eqn:Hact; simpl.
    + split; [intros code detail H; discriminate|].
      intros body _. split; [reflexivity|].
      set (clear := fun t => if Nat.eqb (BiometricTemplate.user_id t) current_user
                             then BiometricTemplate.set_is_primary false t
                             else t).
      assert (forall t, q (clear t) = q t) as Hqc.
      { intros t. unfold clear.
        destruct (Nat.eqb (BiometricTemplate.user_id t) current_user);
          reflexivity. }
      assert (forall l, Forall2
                (fun y y' =>
                   (BiometricTemplate.user_id y = current_user ->
                    y' = BiometricTemplate.set_is_primary false y)
                   /\ (BiometricTemplate.user_id y <> current_user -> y' = y))
                l (map clear l)) as Hclear.
      { induction l as [|y l IH]; constructor; [|exact IH].
        unfold clear. split; intros Hu.
        - apply Nat.eqb_eq in Hu. rewrite Hu. reflexivity.
        - apply Nat.eqb_neq in Hu. rewrite Hu. reflexivity. }
      exists pre, target, post, (map clear pre), (map clear post).
      rewrite Hrows, map_app. cbn [map].
      rewrite update_first_split.
      * split; [reflexivity|]. split; [apply Hq; exact Ht|].
        split; [intros y Hy; apply Hqf, Hpre, Hy|].
        split; [exact Hact|].
        split; [|split; apply Hclear].
        f_equal. f_equal. unfold clear.
        apply Hq in Ht. destruct Ht as [_ Hu]. apply Nat.eqb_eq in Hu.
        rewrite Hu. destruct target; reflexivity.
      * rewrite Hqc. exact Ht.
      * intros y Hy. apply in_map_iff in Hy. destruct Hy as (y0 & <- & Hy0).
        rewrite Hqc. apply Hpre, Hy0.
    + split; [|intros body H; discriminate].
      intros code detail H. injection H as <- <-. split; [reflexivity|].
      right. split; [reflexivity|].
      exists pre, target, post.
      split; [exact Hrows|]. split; [apply Hq; exact Ht|].
      split; [intros y Hy; apply Hqf, Hpre, Hy | exact Hact].
  - simpl. split; [|intros body H; discriminate].
    intros code detail H. injection H as <- <-. split; [reflexivity|].
    left. split; [reflexivity|]. intros t Hin. apply Hqf, Hspec, Hin.
Qed.

End TemplateEndpoints.

(** ** The enrollment flag under enroll and delete *)

Section FlagUnderEnroll.
Context {X : Collaborators}.

Lemma has_active_app u l l' :
  has_active_template u (l ++ l')
  = has_active_template u l || has_active_template u l'.
Proof. unfold has_active_template. apply existsb_app. Qed.

Lemma has_active_map_other (f : BiometricTemplate.t -> BiometricTemplate.t)
    current_user u rows :
  (forall t, BiometricTemplate.user_id t <> current_user -> f t = t) ->
  (forall t, BiometricTemplate.user_id (f t) = BiometricTemplate.user_id t) ->
  u <> current_user ->
  has_active_template u (map f rows) = has_active_template u rows.
Proof.
  intros Hother Huid Hne. unfold has_active_template.
  induction rows as [|t rows IH]; simpl; [reflexivity|].
  rewrite IH, Huid.
  destruct (Nat.eqb (BiometricTemplate.user_id t) u) eqn:Hu; simpl;
    [|reflexivity].
  apply Nat.eqb_eq in Hu. rewrite Hother by congruence. reflexivity.
Qed.

Lemma has_active_filter_other (q : BiometricTemplate.t -> bool)
    current_user u rows :
  (forall t, q t = false -> BiometricTemplate.user_id t = current_user) ->
  u <> current_user ->
  has_active_template u (filter q rows) = has_active_template u rows.
Proof.
  intros Hq Hne. unfold has_active_template.
  induction rows as [|t rows IH]; simpl; [reflexivity|].
  destruct (q t) eqn:Hqt; simpl; rewrite IH; [reflexivity|].
  apply Hq in Hqt.
  assert (Nat.eqb (BiometricTemplate.user_id t) u = false) as ->
    by (apply Nat.eqb_neq; congruence).
  reflexivity.
Qed.

Lemma replace_existing_block_other enrollment_data current_user u rows rows0 :
  Router.replace_existing_block enrollment_data current_user rows = Some rows0 ->
  u <> current_user ->
  has_active_template u rows0 = has_active_template u rows.
Proof.
  unfold Router.replace_existing_block. intros Hblock Hne.
  destruct (BiometricEnrollment.replace_existing enrollment_data);
    [|injection Hblock as <-; reflexivity].
  destruct (BiometricEnrollment.biometric_type enrollment_data) as [ty|];
    [|discriminate].
  destruct (String.eqb ty "face").
  - injection Hblock as <-.
    apply has_active_map_other with (current_user := current_user); auto.
    + intros t Ht. apply Nat.eqb_neq in Ht. rewrite Ht. reflexivity.
    + intros t. destruct (Nat.eqb _ _); reflexivity.
  - destruct (String.eqb ty "fingerprint"); injection Hblock as <-;
      [|reflexivity].
    simpl. apply has_active_filter_other with (current_user := current_user);
      auto.
    intros t Ht. apply negb_false_iff, andb_true_iff in Ht.
    destruct Ht as [Hu _]. apply Nat.eqb_eq in Hu. exact Hu.
Qed.

Lemma replace_existing_block_off enrollment_data current_user rows :
  BiometricEnrollment.replace_existing enrollment_data = false ->
  Router.replace_existing_block enrollment_data current_user rows = Some rows.
Proof. intros H. unfold Router.replace_existing_block. rewrite H. reflexivity. Qed.

(** A request without the [biometric_type] attribute is answered 500 and
    nothing is written, whatever [replace_existing] says: with the flag set
    the read at line 55 raises before a row is touched, without it the read
    at line 64 does. *)
Lemma enroll_without_type enrollment_data current_user db :
  BiometricEnrollment.biometric_type enrollment_data = None ->
  Router.enroll_biometric enrollment_data current_user db
  = (Router.enrollment_failed, db).
Proof.
  intros Hty. unfold Router.enroll_biometric, Router.replace_existing_block.
  rewrite Hty.
  destruct (BiometricEnrollment.replace_existing enrollment_data);
    [reflexivity|].
  destruct db; reflexivity.
Qed.

(** After a successful service call on [rows0], the flag set to true is
    consistent, given that [rows0] agrees with the old table on every other
    user. *)
Lemma flag_after_success current_user (db : Db) rows0 olds new_template :
  enrollment_flag_consistent db ->
  (forall u, u <> current_user ->
     has_active_template u rows0 = has_active_template u (templates db)) ->
  (forall u, u <> current_user ->
     has_active_template u olds = has_active_template u rows0) ->
  BiometricTemplate.user_id new_template = current_user ->
  BiometricTemplate.is_active new_template = true ->
  enrollment_flag_consistent
    (mkDb (olds ++ [new_template])
          (Router.set_is_enrolled current_user true (users db))).
Proof.
  intros Hcons H0 H1 Hu Ha u Hin. simpl in *.
  unfold Router.set_is_enrolled in Hin. apply in_map_iff in Hin.
  destruct Hin as (u0 & <- & Hin0).
  rewrite has_active_app.
  destruct (Nat.eqb (User.id u0) current_user) eqn:Hid; simpl.
  - apply Nat.eqb_eq in Hid. rewrite Hid, Hu, Nat.eqb_refl, Ha. simpl.
    rewrite orb_true_r. reflexivity.
  - apply Nat.eqb_neq in Hid.
    rewrite H1, H0 by exact Hid. rewrite (Hcons u0 Hin0), Hu.
    assert (Nat.eqb current_user (User.id u0) = false) as ->
      by (apply Nat.eqb_neq; congruence).
    simpl. rewrite orb_false_r. reflexivity.
Qed.

Lemma enroll_endpoint_flag_step enrollment_data current_user db :
  enrollment_flag_consistent db ->
  BiometricEnrollment.replace_existing enrollment_data = false
  \/ (exists result,
        fst (Router.enroll_biometric enrollment_data current_user db) = Ok result
        /\ BiometricResult.success result = true) ->
  enrollment_flag_consistent
    (snd (Router.enroll_biometric enrollment_data current_user db)).
Proof.
  intros Hcons Hcase.
  pose proof (fun rows0 H u =>
                replace_existing_block_other enrollment_data current_user u
                  (templates db) rows0 H) as H0.
  pose proof (replace_existing_block_off enrollment_data current_user
                (templates db)) as Hoff'.
  unfold Router.enroll_biometric, Router.enrollment_failed in *.
  destruct (Router.replace_existing_block enrollment_data current_user
              (templates db)) as [rows0|]; [|exact Hcons].
  specialize (H0 rows0 eq_refl).
  assert (BiometricEnrollment.replace_existing enrollment_data = false ->
          mkDb rows0 (users db) = db) as Hoff.
  { intros Hr. specialize (Hoff' Hr). injection Hoff' as ->.
    destruct db; reflexivity. }
  clear Hoff'.
  destruct (BiometricEnrollment.biometric_type enrollment_data) as [ty|];
    [|destruct Hcase as [Hr | (r & Hr & _)]; [|discriminate];
      simpl; rewrite Hoff by exact Hr; exact Hcons].
  destruct (String.eqb ty "face").
  - destruct (String.eqb (BiometricEnrollment.video_data enrollment_data) "").
    + destruct Hcase as [Hr | (r & Hr & _)]; [|discriminate].
      simpl. rewrite Hoff by exact Hr. exact Hcons.
    + destruct (enroll_biometric_cases current_user
                  (BiometricEnrollment.video_data enrollment_data) rows0)
        as [(Hfail & _ & Hrows & _) | (vb & e & q & fd & Hd & Hs & Heq)].
      * destruct (BiometricService.enroll_biometric current_user _ rows0)
          as [r rows']. simpl in *. subst rows'. rewrite Hfail in *.
        destruct Hcase as [Hr | (r' & Hr & Hok)].
        -- rewrite Hoff by exact Hr. exact Hcons.
        -- injection Hr as <-. congruence.
      * rewrite Heq. simpl.
        apply flag_after_success with (rows0 := rows0);
          [exact Hcons | exact H0 | | reflexivity | reflexivity].
        intros u Hne.
        apply has_active_map_other with (current_user := current_user); auto.
        -- intros t Ht. unfold demoted. apply Nat.eqb_neq in Ht. rewrite Ht.
           reflexivity.
        -- intros t. unfold demoted.
           destruct (Nat.eqb (BiometricTemplate.user_id t) current_user
                     && BiometricTemplate.is_primary t); reflexivity.
  - destruct (String.eqb ty "fingerprint");
      [|destruct Hcase as [Hr | (r & Hr & _)]; [|discriminate];
        simpl; rewrite Hoff by exact Hr; exact Hcons].
    destruct (BiometricEnrollment.fingerprint_data enrollment_data)
      as [fingerprint_data|];
      [|destruct Hcase as [Hr | (r & Hr & _)]; [|discriminate];
        simpl; rewrite Hoff by exact Hr; exact Hcons].
    + destruct (String.eqb fingerprint_data "").
      * destruct Hcase as [Hr | (r & Hr & _)]; [|discriminate].
        simpl. rewrite Hoff by exact Hr. exact Hcons.
      * destruct (b64decode fingerprint_data) as [fb|] eqn:Hd.
        -- destruct (enroll_fingerprint_ok current_user _ rows0 fb Hd)
             as (f & new & Hf & Hnew & Heq).
           rewrite Heq. simpl.
           apply flag_after_success with (rows0 := rows0);
             [exact Hcons | exact H0 | | subst new; reflexivity
             | subst new; reflexivity].
           intros u Hne.
           apply has_active_map_other with (current_user := current_user); auto.
           ++ intros t Ht. unfold superseded.
              unfold FingerprintService.active_fingerprint_of.
              apply Nat.eqb_neq in Ht. rewrite Ht. reflexivity.
           ++ intros t. unfold superseded.
              destruct (FingerprintService.active_fingerprint_of current_user t);
                reflexivity.
        -- unfold FingerprintService.enroll_fingerprint in *.
           rewrite Hd in *. simpl in *.
           destruct Hcase as [Hr | (r' & Hr & Hok)].
           ++ rewrite Hoff by exact Hr. exact Hcons.
           ++ injection Hr as <-. discriminate.
Qed.

(** X9. The enroll endpoint keeps Invariant C (is_enrolled iff some active
    template) whenever replace_existing is off, and also whenever the request
    ends in a successful enrollment: the flag can only go stale when
    replace_existing is set and the enrollment then does not succeed. *)
Theorem enroll_endpoint_flag enrollment_data current_user db :
  enrollment_flag_consistent db ->
  BiometricEnrollment.replace_existing enrollment_data = false
  \/ (exists result,
        fst (Router.enroll_biometric enrollment_data current_user db) = Ok result
        /\ BiometricResult.success result = true) ->
  enrollment_flag_consistent
    (snd (Router.enroll_biometric enrollment_data current_user db)).
Proof. apply enroll_endpoint_flag_step. Qed.


End FlagUnderEnroll.

Lemma sample_db_consistent : enrollment_flag_consistent enrolled_face_db.
Proof. intros u [<-|[]]. reflexivity. Qed.

Lemma enroll_endpoint_flag_witness :
  enrollment_flag_consistent
    (snd (Router.enroll_biometric
            (X := sample_collaborators [Some [1; 0]] (fun _ => None))
            (BiometricEnrollment.mk (Some "face"%string) "dg==" None false)
            1 enrolled_face_db)).
Proof.
  apply (enroll_endpoint_flag
           (X := sample_collaborators [Some [1; 0]] (fun _ => None))).
  - exact sample_db_consistent.
  - left. reflexivity.
Defined.


(** ** What verification leaves alone *)

Section VerificationFrame.
Context {X : Collaborators}.

Lemma usage_only_refl t : usage_only t t.
Proof. unfold usage_only. repeat split; auto. Qed.

Lemma usage_only_record_use now t :
  usage_only t (BiometricTemplate.record_use now t).
Proof. unfold usage_only. simpl. repeat split; auto. Qed.

Lemma usage_only_trans a b c : usage_only a b -> usage_only b c -> usage_only a c.
Proof.
  unfold usage_only.
  intros (A1 & A2 & A3 & A4 & A5 & A6 & A7 & A8 & A9)
         (B1 & B2 & B3 & B4 & B5 & B6 & B7 & B8 & B9).
  repeat split; try congruence. lia.
Qed.

Lemma Forall2_usage_refl rows : Forall2 usage_only rows rows.
Proof. induction rows; constructor; auto using usage_only_refl. Qed.

Lemma Forall2_usage_trans r1 r2 r3 :
  Forall2 usage_only r1 r2 -> Forall2 usage_only r2 r3 ->
  Forall2 usage_only r1 r3.
Proof.
  intros H12. revert r3. induction H12 as [|a b r1 r2 Hab _ IH]; intros r3 H23.
  - inversion H23. constructor.
  - inversion H23 as [|b' c r2' r3' Hbc Hrest]; subst.
    constructor; [eapply usage_only_trans; eauto | apply IH; assumption].
Qed.

Lemma compare_templates_usage user_id encoding now rows : forall best,
  Forall2 usage_only rows
    (snd (BiometricService.compare_templates user_id encoding now best rows)).
Proof.
  induction rows as [|t rest IH]; intros best; [constructor|].
  rewrite compare_templates_cons.
  destruct (face_score_of user_id encoding t) as [r|]; simpl.
  - destruct (Rlt_dec best r); simpl; constructor;
      auto using usage_only_refl, usage_only_record_use.
  - constructor; auto using usage_only_refl.
Qed.

Lemma match_frames_usage user_id now frames : forall best fd rows,
  Forall2 usage_only rows
    (snd (BiometricService.match_frames user_id now frames best fd rows)).
Proof.
  induction frames as [|fr rest IH]; intros best fd rows.
  - apply Forall2_usage_refl.
  - rewrite match_frames_cons.
    destruct (usable_encodings_single fr) as [Hnone | [e He]].
    + rewrite Hnone. apply IH.
    + rewrite He. eapply Forall2_usage_trans;
        [apply compare_templates_usage | apply IH].
Qed.

Lemma update_at_usage now (rows : list BiometricTemplate.t) : forall i,
  Forall2 usage_only rows (update_at i (BiometricTemplate.record_use now) rows).
Proof.
  induction rows as [|t rows IH]; intros [|i]; simpl; constructor;
    auto using usage_only_refl, usage_only_record_use, Forall2_usage_refl.
Qed.

Lemma verify_biometric_usage user_id video_data threshold now rows :
  Forall2 usage_only rows
    (snd (BiometricService.verify_biometric user_id video_data threshold now
            rows)).
Proof.
  destruct (verify_biometric_path user_id video_data threshold now rows)
    as [Hq | Hq Hd | vb Hq Hd Hf | vb best fd rows' Hq Hd Hf Hm th]; simpl;
    try apply Forall2_usage_refl.
  pose proof (match_frames_usage user_id now (extract_frames vb) 0 false rows)
    as H. rewrite Hm in H. exact H.
Qed.

Lemma verify_fingerprint_usage user_id fingerprint_data threshold now rows :
  Forall2 usage_only rows
    (snd (FingerprintService.verify_fingerprint user_id fingerprint_data
            threshold now rows)).
Proof.
  destruct (verify_fingerprint_path user_id fingerprint_data threshold now rows)
    as [Hq | Hq Hin | input s w Hq Hin Hb th]; simpl;
    try apply Forall2_usage_refl.
  destruct w as [[i t]|]; [|apply Forall2_usage_refl].
  destruct (Rgeb s th); [apply update_at_usage | apply Forall2_usage_refl].
Qed.

Lemma usage_only_filter_length (p : BiometricTemplate.t -> bool) rows rows' :
  (forall t t', usage_only t t' -> p t' = p t) ->
  Forall2 usage_only rows rows' ->
  List.length (filter p rows') = List.length (filter p rows).
Proof.
  intros Hp. induction 1 as [|t t' rows rows' Ht _ IH]; [reflexivity|].
  simpl. rewrite (Hp t t' Ht). destruct (p t); simpl; congruence.
Qed.

Lemma usage_only_has_active u rows rows' :
  Forall2 usage_only rows rows' ->
  has_active_template u rows' = has_active_template u rows.
Proof.
  unfold has_active_template.
  induction 1 as [|t t' rows rows' Ht _ IH]; [reflexivity|].
  simpl. destruct Ht as (_ & Hu & _ & _ & _ & _ & Ha & _).
  rewrite Hu, Ha, IH. reflexivity.
Qed.

(** X10. Verification, by face or by fingerprint and whatever its outcome,
    changes nothing in a template but its usage statistics -- id, owner,
    modality, payload, scores, active and primary flags stay, and the use
    count never decreases -- and adds or removes no row; so verification
    keeps primary uniqueness (Invariant A). *)
Theorem verification_frame user_id payload threshold now rows :
  let face_rows :=
    snd (BiometricService.verify_biometric user_id payload threshold now rows) in
  let finger_rows :=
    snd (FingerprintService.verify_fingerprint user_id payload threshold now
           rows) in
  Forall2 usage_only rows face_rows
  /\ Forall2 usage_only rows finger_rows
  /\ (primary_unique rows -> primary_unique face_rows)
  /\ (primary_unique rows -> primary_unique finger_rows).
Proof.
  intros face_rows finger_rows.
  pose proof (verify_biometric_usage user_id payload threshold now rows) as Hf.
  pose proof (verify_fingerprint_usage user_id payload threshold now rows) as Hg.
  assert (forall u m t t', usage_only t t' ->
            active_primary_of u m t' = active_primary_of u m t) as Hp.
  { intros u m t t' (_ & Hu & Ht & _ & _ & _ & Ha & Hpr & _).
    unfold active_primary_of. rewrite Hu, Ht, Ha, Hpr. reflexivity. }
  split; [exact Hf|]. split; [exact Hg|]. split.
  - intros Huniq u m. unfold face_rows.
    rewrite (usage_only_filter_length _ rows _ (Hp u m) Hf). apply Huniq.
  - intros Huniq u m. unfold finger_rows.
    rewrite (usage_only_filter_length _ rows _ (Hp u m) Hg). apply Huniq.
Qed.

(** X11. The verify endpoint: a user whose is_enrolled flag is false is
    rejected with 400 before any service is called, whatever the request;
    and for every user and request the users table is left as it was,
    templates change in their usage statistics only, and Invariant C is
    kept. *)
Theorem verify_endpoint_frame verification_data u now db :
  let res := StatusEndpoints.verify_biometric verification_data u now db in
  (User.is_enrolled u = false ->
   fst res = HTTPException 400 "User has no biometric templates enrolled"
   /\ snd res = db)
  /\ users (snd res) = users db
  /\ Forall2 usage_only (templates db) (templates (snd res))
  /\ (enrollment_flag_consistent db -> enrollment_flag_consistent (snd res)).
Proof.
  intros res.
  assert (users (snd res) = users db
          /\ Forall2 usage_only (templates db) (templates (snd res))) as [Hu Hf].
  { subst res. unfold StatusEndpoints.verify_biometric.
    destruct (negb (User.is_enrolled u));
      [split; [reflexivity | apply Forall2_usage_refl]|].
    destruct (BiometricVerification.biometric_type verification_data)
      as [ty|]; [|split; [reflexivity | apply Forall2_usage_refl]].
    destruct (String.eqb ty "face").
    - destruct (String.eqb _ "");
        [split; [reflexivity | apply Forall2_usage_refl]|].
      pose proof (verify_biometric_usage (User.id u)
                    (BiometricVerification.video_data verification_data)
                    (BiometricVerification.threshold verification_data) now
                    (templates db)) as H.
      destruct (BiometricService.verify_biometric _ _ _ _ _) as [r rows'].
      split; [reflexivity | exact H].
    - destruct (String.eqb ty "fingerprint");
        [|split; [reflexivity | apply Forall2_usage_refl]].
      destruct (BiometricVerification.fingerprint_data verification_data)
        as [fingerprint_data|];
        [|split; [reflexivity | apply Forall2_usage_refl]].
      destruct (String.eqb fingerprint_data "");
        [split; [reflexivity | apply Forall2_usage_refl]|].
      pose proof (verify_fingerprint_usage (User.id u) fingerprint_data
                    (BiometricVerification.threshold verification_data) now
                    (templates db)) as H.
      destruct (FingerprintService.verify_fingerprint _ _ _ _ _) as [r rows'].
      split; [reflexivity | exact H]. }
  split.
  - intros Hne. subst res. unfold StatusEndpoints.verify_biometric.
    rewrite Hne. simpl. split; reflexivity.
  - split; [exact Hu|]. split; [exact Hf|].
    intros Hcons v Hin. rewrite Hu in Hin.
    rewrite (usage_only_has_active _ _ _ Hf). apply Hcons, Hin.
Qed.

(** X24. What the two endpoints answer to the requests of their schema
    classes, which carry no biometric_type.  An enroll request is answered
    500 "Biometric enrollment failed", with replace_existing set or not, and
    a verify request 400 when the user's is_enrolled flag is off and 500
    "Biometric verification failed" otherwise; in each case no service is
    called and neither table changes. *)
Theorem schema_requests_rejected video_data replace_existing threshold
    current_user u now db :
  Router.enroll_biometric
    (BiometricEnrollment.schema_request video_data replace_existing)
    current_user db
  = (HTTPException 500 "Biometric enrollment failed", db)
  /\ StatusEndpoints.verify_biometric
       (BiometricVerification.schema_request video_data threshold) u now db
     = (if User.is_enrolled u
        then HTTPException 500 "Biometric verification failed"
        else HTTPException 400 "User has no biometric templates enrolled",
        db).
Proof.
  split.
  - apply enroll_without_type. reflexivity.
  - unfold StatusEndpoints.verify_biometric.
    destruct (User.is_enrolled u); reflexivity.
Qed.

End VerificationFrame.

(** ** The status endpoint *)

Section Status.
Context {X : Collaborators}.

Lemma sum_bounds (qs : list R) :
  (forall q, In q qs -> 0 < q <= 1) ->
  0 <= fold_right Rplus 0 qs <= INR (List.length qs)
  /\ (qs <> [] -> 0 < fold_right Rplus 0 qs).
Proof.
  induction qs as [|q qs IH]; intros Hall.
  - simpl. split; [lra | congruence].
  - destruct IH as [[Hlo Hhi] _]; [intros q' Hq'; apply Hall; right; exact Hq'|].
    pose proof (Hall q (or_introl eq_refl)) as [Hq0 Hq1].
    cbn [fold_right List.length]. rewrite S_INR. split; [lra|]. intros _. lra.
Qed.

Lemma average_bounds (qs : list R) (a : R) :
  (forall q, In q qs -> 0 < q <= 1) ->
  StatusEndpoints.average qs = Some a -> 0 < a <= 1.
Proof.
  intros Hall Havg. unfold StatusEndpoints.average in Havg.
  destruct qs as [|q qs]; [discriminate|].
  assert (a = fold_right Rplus 0 (q :: qs) / INR (List.length (q :: qs)))
    as -> by (injection Havg as <-; reflexivity).
  clear Havg.
  destruct (sum_bounds (q :: qs) Hall) as [[Hlo Hhi] Hpos].
  specialize (Hpos ltac:(discriminate)).
  assert (0 < INR (List.length (q :: qs))) as Hn
    by (apply lt_0_INR; simpl; lia).
  set (n := INR (List.length (q :: qs))) in *.
  set (total := fold_right Rplus 0 (q :: qs)) in *.
  split.
  - apply Rdiv_lt_0_compat; assumption.
  - apply Rmult_le_reg_r with (r := n); [exact Hn|].
    replace (total / n * n) with total by (field; lra). lra.
Qed.

(** X12. The status report: the active count never exceeds the total; a
    reported primary id is the id of an active primary template of the user;
    when every stored quality lies in [0, 1] a reported average quality lies
    in (0, 1]; and when Invariant C holds, is_enrolled is reported true
    exactly when the active count is not zero. *)
Theorem get_biometric_status_spec (u : User.t) (db : Db) :
  let st := StatusEndpoints.get_biometric_status u db in
  (BiometricStatus.active_templates st <= BiometricStatus.total_templates st)%nat
  /\ (forall i, BiometricStatus.primary_template_id st = Some i ->
      exists t, In t (templates db)
        /\ BiometricTemplate.id t = i
        /\ BiometricTemplate.user_id t = User.id u
        /\ BiometricTemplate.is_active t = true
        /\ BiometricTemplate.is_primary t = true)
  /\ ((forall t, In t (templates db) ->
         0 <= BiometricTemplate.quality_score t <= 1) ->
      forall a, BiometricStatus.enrollment_quality_avg st = Some a ->
                0 < a <= 1)
  /\ (enrollment_flag_consistent db -> In u (users db) ->
      BiometricStatus.is_enrolled st
      = negb (Nat.eqb (BiometricStatus.active_templates st) 0)).
Proof.
  intros st. subst st. unfold StatusEndpoints.get_biometric_status. simpl.
  set (mine := BiometricService.get_user_templates (User.id u) (templates db)).
  split; [apply filter_length_le|]. split; [|split].
  - intros i Hi.
    destruct (find BiometricTemplate.is_primary
                (filter BiometricTemplate.is_active mine)) as [t|] eqn:Hfind;
      [|discriminate].
    injection Hi as <-. apply find_some in Hfind. destruct Hfind as [Hin Hp].
    apply filter_In in Hin. destruct Hin as [Hin Ha].
    unfold mine, BiometricService.get_user_templates in Hin.
    apply filter_In in Hin. destruct Hin as [Hin Hu].
    apply Nat.eqb_eq in Hu. exists t. auto.
  - intros Hq a Havg. eapply average_bounds; [|exact Havg].
    intros q Hin. apply filter_In in Hin. destruct Hin as [Hin Hnz].
    apply in_map_iff in Hin. destruct Hin as (t & <- & Hin).
    apply filter_In in Hin. destruct Hin as [Hin _].
    unfold mine, BiometricService.get_user_templates in Hin.
    apply filter_In in Hin. destruct Hin as [Hin _].
    specialize (Hq t Hin).
    destruct (Req_dec_T (BiometricTemplate.quality_score t) 0);
      [discriminate | lra].
  - intros Hcons Hin. rewrite (Hcons u Hin).
    destruct (filter BiometricTemplate.is_active mine) as [|a l] eqn:Hf.
    + apply has_active_template_filter in Hf. rewrite Hf. reflexivity.
    + simpl.
      destruct (has_active_template (User.id u) (templates db)) eqn:E;
        [reflexivity|].
      apply has_active_template_filter in E. fold mine in E.
      rewrite E in Hf. discriminate.
Qed.

End Status.

(** ** Password authentication and the lockout *)

Section Lockout.
Variable verify_password : string -> string -> bool.
Variable username : string.

Lemma find_none {A} (q : A -> bool) (l : list A) :
  (forall a, In a l -> q a = false) -> find q l = None.
Proof.
  induction l as [|a l IH]; intros H; simpl; [reflexivity|].
  rewrite (H a (or_introl eq_refl)).
  apply IH. intros b Hb. apply H. right. exact Hb.
Qed.

Lemma find_at {A} (q : A -> bool) pre x post :
  q x = true -> (forall a, In a pre -> q a = false) ->
  find q (pre ++ x :: post) = Some x.
Proof.
  intros Hx Hpre. induction pre as [|a pre IH]; simpl.
  - rewrite Hx. reflexivity.
  - rewrite (Hpre a (or_introl eq_refl)).
    apply IH. intros b Hb. apply Hpre. right. exact Hb.
Qed.

Lemma named_false a :
  AuthService.named username a = false ->
  AuthService.by_username username a = false
  /\ AuthService.by_email username a = false.
Proof. unfold AuthService.named. apply orb_false_iff. Qed.

(** The row the query returns, and the list after a write to it. *)
Lemma first_named_split accounts :
  match AuthService.first_named username accounts with
  | None => forall a, In a accounts -> AuthService.named username a = false
  | Some u =>
      exists pre post,
        accounts = pre ++ u :: post
        /\ AuthService.named username u = true
        /\ forall f,
             AuthService.update_named username f accounts = pre ++ f u :: post
  end.
Proof.
  unfold AuthService.first_named, AuthService.update_named.
  pose proof (find_split (AuthService.by_username username) accounts) as Hu.
  destruct (find (AuthService.by_username username) accounts) as [u|].
  - destruct Hu as (pre & post & Hacc & Hq & Hpre).
    exists pre, post. split; [exact Hacc|]. split.
    + unfold AuthService.named. rewrite Hq. reflexivity.
    + intros f. rewrite Hacc at 1. apply update_first_split; assumption.
  - pose proof (find_split (AuthService.by_email username) accounts) as He.
    destruct (find (AuthService.by_email username) accounts) as [u|].
    + destruct He as (pre & post & Hacc & Hq & Hpre).
      exists pre, post. split; [exact Hacc|]. split.
      * unfold AuthService.named. rewrite Hq. apply orb_true_r.
      * intros f. rewrite Hacc at 1. apply update_first_split; assumption.
    + intros a Ha. unfold AuthService.named.
      rewrite (Hu a Ha), (He a Ha). reflexivity.
Qed.

(** When one row only answers to the name, the query returns it, and a write
    to it happens at its place. *)
Lemma first_named_at pre u post :
  AuthService.named username u = true ->
  (forall a, In a pre -> AuthService.named username a = false) ->
  (forall a, In a post -> AuthService.named username a = false) ->
  AuthService.first_named username (pre ++ u :: post) = Some u
  /\ forall f,
       AuthService.update_named username f (pre ++ u :: post)
       = pre ++ f u :: post.
Proof.
  intros Hu Hpre Hpost.
  unfold AuthService.first_named, AuthService.update_named.
  destruct (AuthService.by_username username u) eqn:Hbu.
  - rewrite find_at;
      [|exact Hbu | intros a Ha; apply (named_false a (Hpre a Ha))].
    split; [reflexivity|]. intros f.
    apply update_first_split;
      [exact Hbu | intros a Ha; apply (named_false a (Hpre a Ha))].
  - assert (AuthService.by_email username u = true) as Hbe.
    { unfold AuthService.named in Hu. rewrite Hbu in Hu. exact Hu. }
    rewrite find_none.
    + split.
      * apply find_at;
          [exact Hbe | intros a Ha; apply (named_false a (Hpre a Ha))].
      * intros f. apply update_first_split;
          [exact Hbe | intros a Ha; apply (named_false a (Hpre a Ha))].
    + intros a Ha. apply in_app_or in Ha.
      destruct Ha as [Ha|[<-|Ha]];
        [apply (named_false a (Hpre a Ha)) | exact Hbu
        | apply (named_false a (Hpost a Ha))].
Qed.

Lemma only_named_first u accounts :
  only_named username u accounts ->
  AuthService.first_named username accounts = Some u.
Proof.
  intros (pre & post & -> & Hu & Hpre & Hpost).
  apply first_named_at; assumption.
Qed.

Lemma only_named_update (f : Account.t -> Account.t) u accounts :
  (forall x, AuthService.named username (f x) = AuthService.named username x) ->
  only_named username u accounts ->
  only_named username (f u) (AuthService.update_named username f accounts).
Proof.
  intros Hf (pre & post & -> & Hu & Hpre & Hpost).
  destruct (first_named_at pre u post Hu Hpre Hpost) as [_ Hupd].
  rewrite Hupd. exists pre, post.
  split; [reflexivity|]. split; [rewrite Hf; exact Hu|]. split; assumption.
Qed.

Lemma named_set_lockout n until u :
  AuthService.named username (Account.set_lockout n until u)
  = AuthService.named username u.
Proof. reflexivity. Qed.

Lemma named_failed_attempt now u :
  AuthService.named username (AuthService.failed_attempt now u)
  = AuthService.named username u.
Proof.
  unfold AuthService.failed_attempt. destruct (Nat.leb _ _); reflexivity.
Qed.

(** A wrong password on an active, unlocked account. *)
Lemma wrong_password_step password now accounts u :
  only_named username u accounts ->
  Account.is_active u = true ->
  AuthService.locked now u = false ->
  verify_password password (Account.hashed_password u) = false ->
  AuthService.authenticate_user verify_password username password now accounts
  = (None, AuthService.update_named username
             (AuthService.failed_attempt now) accounts)
  /\ only_named username (AuthService.failed_attempt now u)
       (AuthService.update_named username
          (AuthService.failed_attempt now) accounts).
Proof.
  intros Hone Hact Hlock Hpw. unfold AuthService.authenticate_user.
  rewrite (only_named_first u accounts Hone), Hact, Hlock, Hpw. simpl.
  split; [reflexivity|].
  apply only_named_update; [apply named_failed_attempt | exact Hone].
Qed.

(** A locked account turns every login away and records nothing. *)
Lemma locked_rejects password now accounts u :
  only_named username u accounts ->
  Account.is_active u = true ->
  AuthService.locked now u = true ->
  AuthService.authenticate_user verify_password username password now accounts
  = (None, accounts).
Proof.
  intros Hone Hact Hlock. unfold AuthService.authenticate_user.
  rewrite (only_named_first u accounts Hone), Hact, Hlock. reflexivity.
Qed.

(** X13. Password authentication succeeds only for an account whose username
    or e-mail equals the given name and that is active, not locked at that
    time and whose hash verifies the password; the account handed back is
    that account with its failed-attempt counter at 0, as it then stands in
    the table.  When exactly one account answers to the name, authentication
    succeeds exactly when that account is active, unlocked and the password
    verifies; when none does, it fails and writes nothing. *)
Theorem authenticate_user_spec password now accounts :
  let res := AuthService.authenticate_user verify_password username password
               now accounts in
  (forall u, fst res = Some u ->
     Account.failed_login_attempts u = 0%nat
     /\ In u (snd res)
     /\ exists u0,
          In u0 accounts
          /\ AuthService.named username u0 = true
          /\ Account.is_active u0 = true
          /\ AuthService.locked now u0 = false
          /\ verify_password password (Account.hashed_password u0) = true
          /\ Account.id u = Account.id u0
          /\ Account.username u = Account.username u0
          /\ Account.email u = Account.email u0)
  /\ (forall u0, only_named username u0 accounts ->
      (fst res <> None <->
       Account.is_active u0 = true
       /\ AuthService.locked now u0 = false
       /\ verify_password password (Account.hashed_password u0) = true))
  /\ ((forall a, In a accounts -> AuthService.named username a = false) ->
      res = (None, accounts)).
Proof.
  intros res. subst res. split; [|split].
  - unfold AuthService.authenticate_user.
    pose proof (first_named_split accounts) as Hsplit.
    destruct (AuthService.first_named username accounts) as [u0|];
      [|intros u H; discriminate].
    destruct Hsplit as (pre & post & Hacc & Hn & Hupd).
    assert (In u0 accounts) as Hin
      by (rewrite Hacc; apply in_or_app; right; left; reflexivity).
    destruct (Account.is_active u0) eqn:Hact; simpl;
      [|intros u H; discriminate].
    destruct (AuthService.locked now u0) eqn:Hlock; simpl;
      [intros u H; discriminate|].
    destruct (verify_password password (Account.hashed_password u0)) eqn:Hpw;
      simpl; [|intros u H; discriminate].
    destruct (Nat.ltb 0 (Account.failed_login_attempts u0)) eqn:Hcount; simpl.
    + intros u Hu. injection Hu as <-. split; [reflexivity|]. split.
      * rewrite Hupd. apply in_or_app. right. left. reflexivity.
      * exists u0. repeat split; auto.
    + intros u Hu. injection Hu as <-. apply Nat.ltb_ge in Hcount.
      split; [lia|]. split; [exact Hin|]. exists u0. repeat split; auto.
  - intros u0 Hone. unfold AuthService.authenticate_user.
    rewrite (only_named_first u0 accounts Hone).
    destruct (Account.is_active u0); simpl;
      [|split; [congruence | intros (H & _); discriminate]].
    destruct (AuthService.locked now u0); simpl;
      [split; [congruence | intros (_ & H & _); discriminate]|].
    destruct (verify_password password (Account.hashed_password u0)); simpl;
      [|split; [congruence | intros (_ & _ & H); discriminate]].
    destruct (Nat.ltb 0 (Account.failed_login_attempts u0)); simpl;
      (split; [auto | discriminate]).
  - intros Hnone. unfold AuthService.authenticate_user.
    unfold AuthService.first_named.
    rewrite find_none by (intros a Ha; apply (named_false a (Hnone a Ha))).
    rewrite find_none by (intros a Ha; apply (named_false a (Hnone a Ha))).
    reflexivity.
Qed.

(** Wrong passwords below the limit only count up. *)
Lemma login_attempts_below_limit attempts : forall accounts u,
  only_named username u accounts ->
  Account.is_active u = true ->
  Account.account_locked_until u = None ->
  (Account.failed_login_attempts u + List.length attempts < 5)%nat ->
  (forall a, In a attempts ->
     verify_password (fst a) (Account.hashed_password u) = false) ->
  exists u',
    only_named username u'
      (login_attempts verify_password username attempts accounts)
    /\ Account.is_active u' = true
    /\ Account.account_locked_until u' = None
    /\ Account.hashed_password u' = Account.hashed_password u
    /\ Account.failed_login_attempts u'
       = (Account.failed_login_attempts u + List.length attempts)%nat.
Proof.
  induction attempts as [|[pw t] attempts IH];
    intros accounts u Hone Hact Hun Hlt Hpw.
  - exists u. simpl. repeat split; auto.
  - simpl in Hlt.
    assert (AuthService.locked t u = false) as Hlock
      by (unfold AuthService.locked; rewrite Hun; reflexivity).
    destruct (wrong_password_step pw t accounts u Hone Hact Hlock
                (Hpw (pw, t) (or_introl eq_refl))) as [Hstep Hone'].
    unfold login_attempts. cbn [fold_left fst snd]. rewrite Hstep. cbn [snd].
    fold (login_attempts verify_password username attempts
            (AuthService.update_named username
               (AuthService.failed_attempt t) accounts)).
    assert (AuthService.failed_attempt t u
            = Account.set_lockout (S (Account.failed_login_attempts u)) None u)
      as Hfa.
    { unfold AuthService.failed_attempt.
      destruct (Nat.leb 5 (S (Account.failed_login_attempts u))) eqn:E.
      - apply Nat.leb_le in E. lia.
      - rewrite Hun. reflexivity. }
    rewrite Hfa in Hone'.
    destruct (IH _ _ Hone') as (u' & H1 & H2 & H3 & H4 & H5); simpl; auto.
    + lia.
    + intros a Ha. apply Hpw. right. exact Ha.
    + exists u'. simpl in *. repeat split; auto. lia.
Qed.

(** X14. Five wrong passwords lock the account: for an active account with
    no failed attempts and no lock, the only one answering to the name,
    after four wrong passwords (at any times) a fifth wrong password at time
    t locks it until t + 1800 seconds, and until then every login for that
    name is refused, the right password included, without any further change
    to the accounts table. *)
Theorem five_failures_lock accounts u attempts password5 t5 :
  only_named username u accounts ->
  Account.is_active u = true ->
  Account.failed_login_attempts u = 0%nat ->
  Account.account_locked_until u = None ->
  List.length attempts = 4%nat ->
  (forall a, In a (attempts ++ [(password5, t5)]) ->
     verify_password (fst a) (Account.hashed_password u) = false) ->
  let accounts5 :=
    login_attempts verify_password username (attempts ++ [(password5, t5)])
      accounts in
  exists u5,
    only_named username u5 accounts5
    /\ Account.id u5 = Account.id u
    /\ Account.failed_login_attempts u5 = 5%nat
    /\ Account.account_locked_until u5 = Some (t5 + 1800)%nat
    /\ forall password now, (now < t5 + 1800)%nat ->
         AuthService.authenticate_user verify_password username password now
           accounts5
         = (None, accounts5).
Proof.
  intros Hone Hact H0 Hun Hlen Hpw accounts5.
  assert (forall attempts accounts u,
            only_named username u accounts ->
            exists u', only_named username u'
                         (login_attempts verify_password username attempts
                            accounts)
                       /\ Account.id u' = Account.id u) as Hid.
  { clear. induction attempts as [|[pw t] attempts IH]; intros accounts u Hone.
    - exists u. split; [exact Hone | reflexivity].
    - unfold login_attempts. cbn [fold_left fst snd].
      fold (login_attempts verify_password username attempts
              (snd (AuthService.authenticate_user verify_password username pw t
                      accounts))).
      assert (exists u1,
                only_named username u1
                  (snd (AuthService.authenticate_user verify_password username
                          pw t accounts))
                /\ Account.id u1 = Account.id u) as (u1 & Hone1 & Hid1).
      { unfold AuthService.authenticate_user.
        rewrite (only_named_first u accounts Hone).
        destruct (negb (Account.is_active u));
          [exists u; split; [exact Hone | reflexivity]|].
        destruct (AuthService.locked t u);
          [exists u; split; [exact Hone | reflexivity]|].
        destruct (negb (verify_password pw (Account.hashed_password u))).
        - exists (AuthService.failed_attempt t u). split.
          + apply only_named_update; [apply named_failed_attempt | exact Hone].
          + unfold AuthService.failed_attempt.
            destruct (Nat.leb _ _); reflexivity.
        - destruct (Nat.ltb 0 (Account.failed_login_attempts u));
            [|exists u; split; [exact Hone | reflexivity]].
          exists (Account.set_lockout 0 None u). split; [|reflexivity].
          apply only_named_update; [intros x; reflexivity | exact Hone]. }
      destruct (IH _ _ Hone1) as (u' & Hone' & Hid').
      exists u'. split; [exact Hone' | congruence]. }
  destruct (login_attempts_below_limit attempts accounts u Hone Hact Hun)
    as (u4 & Hf4 & Ha4 & Hu4 & Hh4 & Hn4).
  { rewrite H0, Hlen. lia. }
  { intros a Ha. apply Hpw, in_or_app. left. exact Ha. }
  destruct (Hid attempts accounts u Hone) as (u4' & Hf4' & Hid4).
  assert (u4' = u4) as ->.
  { pose proof (only_named_first _ _ Hf4) as E1.
    pose proof (only_named_first _ _ Hf4') as E2. congruence. }
  assert (AuthService.locked t5 u4 = false) as Hlock
    by (unfold AuthService.locked; rewrite Hu4; reflexivity).
  assert (verify_password password5 (Account.hashed_password u4) = false) as Hw.
  { rewrite Hh4. apply (Hpw (password5, t5)), in_or_app. right. left.
    reflexivity. }
  destruct (wrong_password_step password5 t5 _ u4 Hf4 Ha4 Hlock Hw)
    as [Hstep Hone5].
  assert (accounts5
          = AuthService.update_named username
              (AuthService.failed_attempt t5)
              (login_attempts verify_password username attempts accounts))
    as Heq.
  { unfold accounts5, login_attempts in *. rewrite fold_left_app.
    cbn [fold_left fst snd]. rewrite Hstep. reflexivity. }
  assert (AuthService.failed_attempt t5 u4
          = Account.set_lockout 5 (Some (t5 + 1800)%nat) u4) as Hfa.
  { unfold AuthService.failed_attempt. rewrite Hn4, H0, Hlen. reflexivity. }
  rewrite Hfa in Hone5.
  exists (Account.set_lockout 5 (Some (t5 + 1800)%nat) u4).
  rewrite Heq. split; [exact Hone5|].
  split; [exact Hid4|]. split; [reflexivity|]. split; [reflexivity|].
  intros password now Hnow.
  apply locked_rejects
    with (u := Account.set_lockout 5 (Some (t5 + 1800)%nat) u4);
    [exact Hone5 | exact Ha4 |].
  unfold AuthService.locked. simpl.
  apply Nat.ltb_lt. exact Hnow.
Qed.

(** X15. The counter of failed attempts is not reset when a lock expires: on
    an active account, the only one answering to the name, that has four or
    more failed attempts and is not locked at the moment, a single wrong
    password locks the account for the next 1800 seconds. *)
Theorem wrong_password_relocks accounts u password now :
  only_named username u accounts ->
  Account.is_active u = true ->
  (4 <= Account.failed_login_attempts u)%nat ->
  AuthService.locked now u = false ->
  verify_password password (Account.hashed_password u) = false ->
  let res := AuthService.authenticate_user verify_password username password
               now accounts in
  fst res = None
  /\ exists u',
       only_named username u' (snd res)
       /\ Account.id u' = Account.id u
       /\ Account.failed_login_attempts u'
          = S (Account.failed_login_attempts u)
       /\ Account.account_locked_until u' = Some (now + 1800)%nat
       /\ forall password' now', (now' < now + 1800)%nat ->
            AuthService.authenticate_user verify_password username password'
              now' (snd res)
            = (None, snd res).
Proof.
  intros Hone Hact Hn Hlock Hpw res.
  destruct (wrong_password_step password now accounts u Hone Hact Hlock Hpw)
    as [Hstep Hone'].
  subst res. rewrite Hstep. simpl. split; [reflexivity|].
  assert (AuthService.failed_attempt now u
          = Account.set_lockout (S (Account.failed_login_attempts u))
              (Some (now + 1800)%nat) u) as Hfa.
  { unfold AuthService.failed_attempt.
    destruct (Nat.leb 5 (S (Account.failed_login_attempts u))) eqn:E;
      [reflexivity|]. apply Nat.leb_gt in E. lia. }
  rewrite Hfa in Hone'.
  exists (Account.set_lockout (S (Account.failed_login_attempts u))
            (Some (now + 1800)%nat) u).
  split; [exact Hone'|].
  split; [reflexivity|]. split; [reflexivity|]. split; [reflexivity|].
  intros password' now' Hnow.
  apply locked_rejects
    with (u := Account.set_lockout (S (Account.failed_login_attempts u))
                 (Some (now + 1800)%nat) u);
    [exact Hone' | exact Hact |].
  unfold AuthService.locked. simpl.
  apply Nat.ltb_lt. exact Hnow.
Qed.

End Lockout.

Lemma sample_accounts_only_named :
  only_named "alice" sample_account [sample_bystander; sample_account].
Proof.
  exists [sample_bystander], [].
  split; [reflexivity|]. split; [reflexivity|].
  split; [intros a [<-|[]]; reflexivity | intros a []].
Defined.

Lemma authenticate_user_spec_witness :
  fst (AuthService.authenticate_user String.eqb "alice" "correct horse" 7
         [sample_bystander; sample_account]) <> None.
Proof.
  destruct (authenticate_user_spec String.eqb "alice" "correct horse" 7%nat
              [sample_bystander; sample_account]) as (_ & Hiff & _).
  apply (Hiff sample_account sample_accounts_only_named).
  split; [reflexivity|]. split; reflexivity.
Defined.

Lemma five_failures_lock_witness :
  exists u5,
    only_named "alice" u5
      (login_attempts String.eqb "alice"
         ([("a"%string, 10%nat); ("b"%string, 20%nat);
           ("c"%string, 30%nat); ("d"%string, 40%nat)]
          ++ [("e"%string, 50%nat)])
         [sample_bystander; sample_account])
    /\ Account.account_locked_until u5 = Some 1850%nat.
Proof.
  destruct (five_failures_lock String.eqb "alice"
              [sample_bystander; sample_account] sample_account
              [("a"%string, 10%nat); ("b"%string, 20%nat);
               ("c"%string, 30%nat); ("d"%string, 40%nat)]
              "e" 50%nat sample_accounts_only_named
              eq_refl eq_refl eq_refl eq_refl)
    as (u5 & Hone & _ & _ & Hlock & _).
  - intros a Hin. simpl in Hin.
    repeat (destruct Hin as [<-|Hin]; [reflexivity|]). contradiction.
  - exists u5. split; [exact Hone | exact Hlock].
Defined.

Lemma wrong_password_relocks_witness :
  fst (AuthService.authenticate_user String.eqb "alice" "guess" 5000
         [Account.set_lockout 5 (Some 1850%nat) sample_account]) = None.
Proof.
  apply (wrong_password_relocks String.eqb "alice"
           [Account.set_lockout 5 (Some 1850%nat) sample_account]
           (Account.set_lockout 5 (Some 1850%nat) sample_account)
           "guess" 5000%nat).
  - exists [], []. split; [reflexivity|]. split; [reflexivity|].
    split; intros a [].
  - reflexivity.
  - simpl. lia.
  - reflexivity.
  - reflexivity.
Defined.

(** ** The biometric login *)

Section BiometricLogin.
Context {X : Collaborators}.
Variable verify_password : string -> string -> bool.

(** X16. The biometric login answers Ok only when the password
    authentication succeeded and face verification of the video succeeded
    at the default threshold: the score in the response is at least 0.6, no
    caller-supplied threshold enters, and the token carries the name and id
    of the authenticated account.  Every request appends exactly one row to
    the auth log, of type "combined", marked success with a token issued
    exactly when the answer is Ok; templates change in their usage
    statistics only. *)
Theorem login_with_biometric_spec username password video_data now db :
  let res :=
    AuthRouter.login_with_biometric verify_password username password
      video_data now db in
  (forall r, fst res = Ok r ->
     exists u s,
       fst (AuthService.authenticate_user verify_password username password
              now (accounts db)) = Some u
       /\ BiometricResult.success
            (fst (BiometricService.verify_biometric (Account.id u) video_data
                    None now (biometric_templates db))) = true
       /\ AuthResponse.user r = Account.id u
       /\ AuthResponse.token r = Some (Account.username u, Account.id u)
       /\ AuthResponse.biometric_score r = Some s
       /\ BIOMETRIC_THRESHOLD <= s)
  /\ (exists entry,
        auth_logs (snd res) = auth_logs db ++ [entry]
        /\ AuthLog.auth_type entry = "combined"%string
        /\ (AuthLog.token_issued entry = true <-> exists r, fst res = Ok r)
        /\ (AuthLog.auth_result entry = "success"%string <->
            exists r, fst res = Ok r))
  /\ Forall2 usage_only (biometric_templates db)
       (biometric_templates (snd res)).
Proof.
  intros res. subst res. unfold AuthRouter.login_with_biometric.
  destruct (AuthService.authenticate_user verify_password username password now
              (accounts db)) as [[u|] accounts1] eqn:Hauth.
  - pose proof (verify_biometric_usage (Account.id u) video_data None now
                  (biometric_templates db)) as Huse.
    pose proof (verify_biometric_path (Account.id u) video_data None now
                  (biometric_templates db)) as Hpath.
    destruct (BiometricService.verify_biometric (Account.id u) video_data None
                now (biometric_templates db)) as [vr rows'] eqn:Hv.
    simpl in Huse.
    destruct (BiometricResult.success vr) eqn:Hok; simpl.
    + split; [|split; [|exact Huse]].
      * intros r Hr. injection Hr as <-. simpl.
        inversion Hpath as [Hq | Hq Hd | vb Hq Hd Hf
                           | vb best fd rows'' Hq Hd Hf Hm th];
          subst; simpl in Hok; try discriminate.
        exists u, best. simpl.
        split; [reflexivity|]. split; [rewrite Hv; exact Hok|].
        split; [reflexivity|]. split; [reflexivity|].
        split; [reflexivity|]. apply Rgeb_true in Hok. exact Hok.
      * eexists. split; [reflexivity|]. simpl.
        split; [reflexivity|].
        split; (split; [intros _; eexists; reflexivity | reflexivity]).
    + split; [intros r Hr; discriminate|]. split; [|exact Huse].
      eexists. split; [reflexivity|]. simpl. split; [reflexivity|].
      split; (split; [discriminate | intros [r Hr]; discriminate]).
  - simpl. split; [intros r Hr; discriminate|].
    split; [|apply Forall2_usage_refl].
    eexists. split; [reflexivity|]. simpl. split; [reflexivity|].
    split; (split; [discriminate | intros [r Hr]; discriminate]).
Qed.

End BiometricLogin.

(** ** Deleting fingerprint templates, and Invariant C along request
    sequences *)

Section ReplaceExisting.
Context {X : Collaborators}.

(** X17. [delete_user_fingerprint_templates] always returns True and removes
    exactly the given user's fingerprint templates, active or not: the
    user's face templates and every template of another user stay, in table
    order.  A fingerprint verification of that user right after fails closed
    with "No fingerprint templates found for user", whatever the sample and
    the threshold; and deleting once more changes nothing. *)
Theorem delete_user_fingerprint_templates_spec user_id rows :
  let res := FingerprintService.delete_user_fingerprint_templates user_id rows in
  fst res = true
  /\ (forall t, In t (snd res) <->
        In t rows
        /\ ~ (BiometricTemplate.user_id t = user_id
              /\ BiometricTemplate.biometric_type t = FINGERPRINT))
  /\ (forall u, u <> user_id ->
        BiometricService.get_user_templates u (snd res)
        = BiometricService.get_user_templates u rows)
  /\ filter (fun t => BiometricType_eqb (BiometricTemplate.biometric_type t) FACE)
       (snd res)
     = filter (fun t => BiometricType_eqb (BiometricTemplate.biometric_type t) FACE)
         rows
  /\ (forall fingerprint_data threshold now,
        FingerprintService.verify_fingerprint user_id fingerprint_data threshold
          now (snd res)
        = (FingerprintService.failure "No fingerprint templates found for user"
             (Some (effective_threshold default_threshold threshold)),
           snd res))
  /\ snd (FingerprintService.delete_user_fingerprint_templates user_id (snd res))
     = snd res.
Proof.
  intros res. subst res. unfold FingerprintService.delete_user_fingerprint_templates.
  cbn [fst snd].
  set (keep := fun t => negb (Nat.eqb (BiometricTemplate.user_id t) user_id
                                && BiometricType_eqb
                                     (BiometricTemplate.biometric_type t)
                                     FINGERPRINT)).
  assert (forall (q : BiometricTemplate.t -> bool) l,
            (forall t, keep t = false -> q t = false) ->
            filter q (filter keep l) = filter q l) as Hsub.
  { intros q l Hq. induction l as [|t l IH]; simpl; [reflexivity|].
    destruct (keep t) eqn:Hk; simpl.
    - rewrite IH. reflexivity.
    - rewrite (Hq t Hk). exact IH. }
  assert (forall (q : BiometricTemplate.t -> bool) l,
            (forall t, q t = true -> keep t = false) ->
            filter q (filter keep l) = []) as Hnone.
  { intros q l Hq. induction l as [|t l IH]; simpl; [reflexivity|].
    destruct (keep t) eqn:Hk; simpl; [|exact IH].
    destruct (q t) eqn:Hqt; [|exact IH].
    apply Hq in Hqt. congruence. }
  split; [reflexivity|]. split; [|split; [|split; [|split]]].
  - intros t. rewrite filter_In. unfold keep. split.
    + intros [Hin Hq]. split; [exact Hin|]. intros [Hu Ht].
      rewrite Hu, Ht, Nat.eqb_refl in Hq. discriminate.
    + intros [Hin Hq]. split; [exact Hin|].
      destruct (Nat.eqb (BiometricTemplate.user_id t) user_id) eqn:Hu;
        [|reflexivity].
      destruct (BiometricTemplate.biometric_type t) eqn:Ht; [reflexivity|].
      exfalso. apply Hq. apply Nat.eqb_eq in Hu. auto.
  - intros u Hne. unfold BiometricService.get_user_templates.
    apply Hsub. intros t Hk. unfold keep in Hk.
    apply negb_false_iff, andb_true_iff in Hk. destruct Hk as [Hu _].
    apply Nat.eqb_eq in Hu. apply Nat.eqb_neq. congruence.
  - apply Hsub. intros t Hk. unfold keep in Hk.
    apply negb_false_iff, andb_true_iff in Hk. destruct Hk as [_ Ht].
    destruct (BiometricTemplate.biometric_type t); [discriminate | reflexivity].
  - intros fingerprint_data threshold now.
    unfold FingerprintService.verify_fingerprint.
    rewrite Hnone; [reflexivity|].
    intros t Hq. unfold FingerprintService.active_fingerprint_of in Hq.
    apply andb_true_iff in Hq. destruct Hq as [Hq _].
    unfold keep. rewrite Hq. reflexivity.
  - apply Hsub. auto.
Qed.

Lemma set_primary_endpoint_flag template_id current_user db :
  enrollment_flag_consistent db ->
  enrollment_flag_consistent
    (snd (Router.set_primary_template template_id current_user db)).
Proof.
  intros Hcons. unfold Router.set_primary_template.
  destruct (find _ (BiometricService.get_user_templates current_user (templates db)))
    as [target|]; [|exact Hcons].
  destruct (negb (BiometricTemplate.is_active target)); [exact Hcons|].
  simpl. intros u Hin. simpl in *. rewrite (Hcons u Hin).
  unfold has_active_template.
  set (q := fun t => Nat.eqb (BiometricTemplate.id t) template_id
                     && Nat.eqb (BiometricTemplate.user_id t) current_user).
  set (clear := fun t => if Nat.eqb (BiometricTemplate.user_id t) current_user
                         then BiometricTemplate.set_is_primary false t
                         else t).
  set (p := fun t => Nat.eqb (BiometricTemplate.user_id t) (User.id u)
                     && BiometricTemplate.is_active t).
  assert (forall t, p (clear t) = p t) as Hpc.
  { intros t. unfold clear. destruct (Nat.eqb _ current_user); reflexivity. }
  assert (forall l, existsb p (update_first q (BiometricTemplate.set_is_primary true) l)
                    = existsb p l) as Hup.
  { induction l as [|t l IH]; simpl; [reflexivity|].
    destruct (q t); simpl; [reflexivity | rewrite IH; reflexivity]. }
  rewrite Hup. clear Hup.
  induction (templates db) as [|t l IH]; simpl; [reflexivity|].
  rewrite Hpc, IH. reflexivity.
Qed.

(** X18. Invariant C along a run: from a state in which is_enrolled mirrors
    the presence of an active template for every user, any sequence of
    delete requests, set-primary requests and enroll requests whose
    replace_existing flag is off leads to a state with the same property. *)
Theorem flag_preserved_without_replace (requests : list Router.request)
    (db : Db) :
  (forall u d, In (Router.Enroll u d) requests ->
     BiometricEnrollment.replace_existing d = false) ->
  enrollment_flag_consistent db ->
  enrollment_flag_consistent (Router.run requests db).
Proof.
  unfold Router.run. revert db.
  induction requests as [|r rs IH]; intros db Hoff Hcons; simpl; [exact Hcons|].
  apply IH; [intros u d Hin; apply (Hoff u d); right; exact Hin|].
  destruct r as [u d | u i | u i]; simpl.
  - apply enroll_endpoint_flag_step; [exact Hcons|].
    left. apply (Hoff u d). left. reflexivity.
  - apply delete_endpoint_flag. exact Hcons.
  - apply set_primary_endpoint_flag. exact Hcons.
Qed.



End ReplaceExisting.


Lemma flag_preserved_without_replace_witness :
  enrollment_flag_consistent
    (Router.run
       (X := sample_collaborators [Some [1; 0]] (fun _ => None))
       [Router.Enroll 1
          (BiometricEnrollment.mk (Some "fingerprint"%string) ""
             (Some "YQ=="%string) false);
        Router.SetPrimary 1 4;
        Router.Delete 1 4]
       enrolled_face_db).
Proof.
  apply (flag_preserved_without_replace
           (X := sample_collaborators [Some [1; 0]] (fun _ => None))).
  - intros u d Hin. simpl in Hin.
    destruct Hin as [Heq | [Heq | [Heq | []]]]; try discriminate.
    injection Heq as _ <-. reflexivity.
  - exact sample_db_consistent.
Defined.

(** ** More on the scorers *)

Lemma dot_comm (a : vec) : forall b, dot a b = dot b a.
Proof.
  induction a as [|x a IH]; intros [|y b]; simpl; try reflexivity.
  rewrite IH. ring.
Qed.

(** X20. Both scorers are symmetric in their two arguments, whatever the
    vectors and their lengths: the score does not depend on whether the
    stored vector or the probe is passed first. *)
Theorem similarity_symmetric (a b : vec) :
  calculate_similarity a b = calculate_similarity b a
  /\ calculate_fingerprint_similarity a b = calculate_fingerprint_similarity b a.
Proof.
  unfold calculate_similarity, calculate_fingerprint_similarity.
  rewrite (Nat.eqb_sym (List.length a) (List.length b)).
  destruct (Nat.eqb (List.length b) (List.length a)); [|split; reflexivity].
  rewrite (dot_comm a b), (Rmult_comm (norm a) (norm b)).
  destruct (Req_dec_T (norm a) 0), (Req_dec_T (norm b) 0); split; reflexivity.
Qed.

Lemma dot_scale_l (k : R) (a : vec) : forall b,
  dot (scale k a) b = k * dot a b.
Proof.
  unfold scale.
  induction a as [|x a IH]; intros [|y b]; simpl; try ring.
  rewrite IH. ring.
Qed.

Lemma norm_scale (k : R) (a : vec) : 0 <= k -> norm (scale k a) = k * norm a.
Proof.
  intros Hk. unfold norm.
  rewrite dot_scale_l, (dot_comm a (scale k a)), dot_scale_l.
  replace (k * (k * dot a a)) with ((k * k) * dot a a) by ring.
  rewrite sqrt_mult; [|nra | apply dot_self_nonneg].
  rewrite sqrt_square by exact Hk. reflexivity.
Qed.

(** X21. Both scorers are invariant under scaling a vector by a positive
    constant: the score of (k a, b) is the score of (a, b).  The L2
    normalisation of face encodings and the division by 255 of fingerprint
    digests therefore do not change any score. *)
Theorem similarity_scale_invariant (k : R) (a b : vec) :
  0 < k ->
  calculate_similarity (scale k a) b = calculate_similarity a b
  /\ calculate_fingerprint_similarity (scale k a) b
     = calculate_fingerprint_similarity a b.
Proof.
  intros Hk.
  unfold calculate_similarity, calculate_fingerprint_similarity.
  assert (List.length (scale k a) = List.length a) as ->
    by (unfold scale; apply length_map).
  destruct (Nat.eqb (List.length a) (List.length b)); [|split; reflexivity].
  rewrite norm_scale by lra. rewrite dot_scale_l.
  pose proof (norm_nonneg a) as Ha.
  destruct (Req_dec_T (norm a) 0) as [Hz|Hnz].
  - rewrite Hz, Rmult_0_r.
    destruct (Req_dec_T 0 0); [split; reflexivity | contradiction].
  - destruct (Req_dec_T (k * norm a) 0) as [Hz'|_]; [exfalso; nra|].
    destruct (Req_dec_T (norm b) 0) as [Hb|Hb]; [split; reflexivity|].
    replace (k * dot a b / (k * norm a * norm b))
      with (dot a b / (norm a * norm b)) by (field; repeat split; lra).
    split; reflexivity.
Qed.

Lemma similarity_scale_invariant_witness :
  calculate_similarity (scale 2 [5; 12]) [1; 0]
  = calculate_similarity [5; 12] [1; 0].
Proof. apply (similarity_scale_invariant 2 [5; 12] [1; 0]). lra. Defined.

Section FingerprintFeatures.
Context {X : Collaborators}.

Lemma dot_nonneg (a : vec) : forall b,
  Forall (fun x => 0 <= x) a -> Forall (fun x => 0 <= x) b -> 0 <= dot a b.
Proof.
  induction a as [|x a IH]; intros [|y b] Ha Hb; simpl; try lra.
  inversion Ha; subst. inversion Hb; subst.
  assert (0 <= dot a b) by (apply IH; assumption). nra.
Qed.

(** X22. The fingerprint extractor always returns a vector: one component
    per digest byte, each in [0, 1].  For two such vectors of equal length
    that are not all-zero, the fingerprint score is the plain cosine: since
    no component is negative, neither clamp changes the value. *)
Theorem fingerprint_features_range (bytes1 bytes2 : bytes) :
  exists f1 f2,
    FingerprintService.extract_fingerprint_features bytes1 = Some f1
    /\ FingerprintService.extract_fingerprint_features bytes2 = Some f2
    /\ List.length f1 = List.length (sha256 bytes1)
    /\ Forall (fun x => 0 <= x <= 1) f1
    /\ (List.length f1 = List.length f2 -> ~ all_zero f1 -> ~ all_zero f2 ->
        calculate_fingerprint_similarity f1 f2
        = dot f1 f2 / (norm f1 * norm f2)).
Proof.
  assert (forall d : bytes,
            Forall (fun x => 0 <= x <= 1)
                   (map (fun b => INR (Byte.to_nat b) / 255) d)) as Hrange.
  { intros d. apply Forall_forall. intros x Hin.
    apply in_map_iff in Hin. destruct Hin as (b & <- & _).
    pose proof (Byte.to_nat_bounded b) as Hb.
    pose proof (pos_INR (Byte.to_nat b)) as H0.
    assert (INR (Byte.to_nat b) <= 255) as H1.
    { replace 255 with (INR 255) by (rewrite INR_IZR_INZ; reflexivity).
      apply le_INR. exact Hb. }
    split; [apply Rmult_le_pos; lra | lra]. }
  unfold FingerprintService.extract_fingerprint_features.
  eexists. eexists. split; [reflexivity|]. split; [reflexivity|].
  split; [apply length_map|]. split; [apply Hrange|].
  intros Hlen H1 H2.
  set (f1 := map (fun b => INR (Byte.to_nat b) / 255) (sha256 bytes1)) in *.
  set (f2 := map (fun b => INR (Byte.to_nat b) / 255) (sha256 bytes2)) in *.
  assert (norm f1 <> 0) as Hn1 by (rewrite norm_zero_iff; exact H1).
  assert (norm f2 <> 0) as Hn2 by (rewrite norm_zero_iff; exact H2).
  rewrite calculate_fingerprint_similarity_unfold by assumption.
  pose proof (cosine_le_1 f1 f2 Hlen Hn1 Hn2) as Hle.
  assert (0 <= dot f1 f2) as Hd.
  { apply dot_nonneg; eapply Forall_impl; try apply Hrange;
      intros x Hx; simpl in Hx; lra. }
  pose proof (norm_nonneg f1). pose proof (norm_nonneg f2).
  assert (0 <= dot f1 f2 / (norm f1 * norm f2)) as Hpos.
  { apply Rmult_le_pos; [exact Hd|].
    left. apply Rinv_0_lt_compat. apply Rmult_lt_0_compat; lra. }
  rewrite Rmin_right by exact Hle. apply Rmax_right. exact Hpos.
Qed.

End FingerprintFeatures.

(** ** What a password login can touch *)

Section LoginFrame.
Variable verify_password : string -> string -> bool.

(** X23. A password login touches at most one row of the accounts table, and
    that row is an account whose username or e-mail equals the given name.
    Only its failed-attempt counter and lock time can change; its id, names,
    password hash and active flag stay, and every other row -- so every
    account under another name -- is left exactly as it was, at its place. *)
Theorem authenticate_user_frame username password now accounts :
  let res := AuthService.authenticate_user verify_password username password
               now accounts in
  snd res = accounts
  \/ exists pre u post u',
       accounts = pre ++ u :: post
       /\ snd res = pre ++ u' :: post
       /\ AuthService.named username u = true
       /\ Account.id u' = Account.id u
       /\ Account.username u' = Account.username u
       /\ Account.email u' = Account.email u
       /\ Account.hashed_password u' = Account.hashed_password u
       /\ Account.is_active u' = Account.is_active u
       /\ Account.last_login u' = Account.last_login u.
Proof.
  intros res. subst res. unfold AuthService.authenticate_user.
  pose proof (first_named_split username accounts) as Hspec.
  destruct (AuthService.first_named username accounts) as [u|];
    [|left; reflexivity].
  destruct Hspec as (pre & post & Hacc & Hu & Hupd).
  destruct (negb (Account.is_active u)); [left; reflexivity|].
  destruct (AuthService.locked now u); [left; reflexivity|].
  destruct (negb (verify_password password (Account.hashed_password u))).
  - right. exists pre, u, post, (AuthService.failed_attempt now u).
    simpl. rewrite Hupd.
    unfold AuthService.failed_attempt.
    destruct (Nat.leb 5 (S (Account.failed_login_attempts u)));
      repeat split; auto.
  - destruct (Nat.ltb 0 (Account.failed_login_attempts u));
      [|left; reflexivity].
    right. exists pre, u, post, (Account.set_lockout 0 None u).
    simpl. rewrite Hupd. repeat split; auto.
Qed.

End LoginFrame.
